(** * Storage temperature monitor: sampling, alerting and daily logs

    A shallow embedding of the core of [working18.py] and [working12.py]:
    the sensor reader ([StorageTemperatureReader]), the daily log files
    ([LogManager], present in [working18.py] only) and the monitoring state
    of [TemperatureMonitor] (history, alert cooldown, e-mail scheduler,
    threshold settings).

    Conventions of the embedding.
    - Python floats (temperatures, [time.time()] readings) are rationals
      [Q]; [float('inf')] and [float('-inf')] are the two extra points of
      [pyfloat].  Rounding is not modelled.
    - Python [str] is [string]; [lower()] and [strip()] act on the ASCII
      range.
    - A [dict] is an insertion-ordered association list with unique keys,
      a [deque(maxlen=n)] a list trimmed on the left.
    - A [datetime.date] is its day ordinal in [Z]; adding
      [timedelta(days=1)] is [+ 1], and [strftime('%Y-%m-%d')] is a
      parameter of the log manager.
    - Every loop body is one transition function that receives what the
      outside world answers during that iteration (WMI query results,
      clock readings, the outcome of an SMTP session). *)

From Stdlib Require Import Ascii String DecimalString QArith Lqa.
From stdpp Require Import gmap strings list pretty sorting.

Open Scope string_scope.
Open Scope list_scope.

(* ===================================================================== *)
(** * Python built-ins used by the program *)
(* ===================================================================== *)

Module Py.

(** ** Floats *)

(** [a >= b] and [a > b] on finite floats. *)
Definition geb (a b : Q) : bool := Qle_bool b a.
Definition gtb (a b : Q) : bool := negb (Qle_bool a b).

(** Floats with the two infinities, as [min_temp] and [max_temp] hold
    them. *)
Inductive pyfloat : Type :=
  | NegInf
  | Fin (q : Q)
  | PosInf.

(** [a < b] *)
Definition flt (a b : pyfloat) : bool :=
  match a, b with
  | NegInf, NegInf => false
  | NegInf, _ => true
  | Fin _, NegInf => false
  | Fin x, Fin y => gtb y x
  | Fin _, PosInf => true
  | PosInf, _ => false
  end.

(** [a > b] *)
Definition fgt (a b : pyfloat) : bool := flt b a.

(** ** Strings *)

Definition LF : ascii := ascii_of_nat 10.
Definition CR : ascii := ascii_of_nat 13.

(** The string ["\n"]; a file opened in text mode shows every line end
    as this one character. *)
Definition NL : string := String LF EmptyString.

(** [c.lower()] for one ASCII character. *)
Definition lower_ascii (c : ascii) : ascii :=
  let n := nat_of_ascii c in
  if (65 <=? n)%nat && (n <=? 90)%nat then ascii_of_nat (n + 32) else c.

(** [s.lower()] *)
Fixpoint lower (s : string) : string :=
  match s with
  | EmptyString => EmptyString
  | String c s' => String (lower_ascii c) (lower s')
  end.

(** [kw in s] for strings: [kw] occurs as a substring of [s]. *)
Fixpoint contains (kw s : string) : bool :=
  String.prefix kw s ||
  match s with
  | EmptyString => false
  | String _ s' => contains kw s'
  end.

(** [any(keyword in s for keyword in keywords)] *)
Definition any_keyword_in (keywords : list string) (s : string) : bool :=
  existsb (fun keyword => contains keyword s) keywords.

(** [c.isspace()] on the ASCII range. *)
Definition isspace (c : ascii) : bool :=
  let n := nat_of_ascii c in
  ((9 <=? n)%nat && (n <=? 13)%nat) ||
  ((28 <=? n)%nat && (n <=? 32)%nat).

Fixpoint lstrip (s : string) : string :=
  match s with
  | EmptyString => EmptyString
  | String c s' => if isspace c then lstrip s' else s
  end.

Fixpoint rstrip (s : string) : string :=
  match s with
  | EmptyString => EmptyString
  | String c s' =>
      match rstrip s' with
      | EmptyString => if isspace c then EmptyString else String c EmptyString
      | r => String c r
      end
  end.

(** [s.strip()] *)
Definition strip (s : string) : string := rstrip (lstrip s).

(** Truth value of a string: non-empty. *)
Definition truthy (s : string) : bool :=
  match s with
  | EmptyString => false
  | String _ _ => true
  end.

(** [f.readlines()] on the text of a file: the lines, each with its
    terminating newline (the last one possibly without). *)
Fixpoint readlines (s : string) : list string :=
  match s with
  | EmptyString => []
  | String c s' =>
      if Ascii.eqb c LF then String c EmptyString :: readlines s'
      else match readlines s' with
           | [] => [String c EmptyString]
           | l :: ls => String c l :: ls
           end
  end.

(** ** Dictionaries with insertion order *)

Section Dict.
Context {V : Type}.

Definition dict : Type := list (string * V).

(** [d.get(k)] *)
Fixpoint dict_get (k : string) (d : dict) : option V :=
    match d with
    | [] => None
    | (k', v) :: d' => if String.eqb k k' then Some v else dict_get k d'
    end.

(** [d[k] = v]: a present key keeps its position and takes the new
  value, a new key goes to the end. *)
Fixpoint dict_set (k : string) (v : V) (d : dict) : dict :=
    match d with
    | [] => [(k, v)]
    | (k', v') :: d' =>
    if String.eqb k k' then (k, v) :: d' else (k', v') :: dict_set k v d'
    end.

Definition keys (d : dict) : list string := map fst d.
Definition values (d : dict) : list V := map snd d.

(** Truth value of a dictionary: non-empty. *)
Definition dict_truthy (d : dict) : bool :=
    match d with
    | [] => false
    | _ :: _ => true
    end.
End Dict.
Arguments dict V : clear implicits.

(** Truth value of something that is [None] or a dictionary. *)
Definition opt_dict_truthy {V} (o : option (dict V)) : bool :=
  match o with
  | None => false
  | Some d => dict_truthy d
  end.

(** ** [sum], [max] *)

(** [sum(xs)]: starts from 0 and adds from the left. *)
Definition sum (xs : list Q) : Q := fold_left Qplus xs 0%Q.

(** [max(x, *xs)] with an optional key: keeps the first element whose
    key is not exceeded by a later one ([>] replaces the candidate). *)
Fixpoint max_from {A} (key : A -> Q) (best : A) (xs : list A) : A :=
  match xs with
  | [] => best
  | x :: xs' => max_from key (if gtb (key x) (key best) then x else best) xs'
  end.

(** [max(xs, key=key)] on a non-empty sequence ([None] stands for the
    [ValueError] on an empty one). *)
Definition max_by {A} (key : A -> Q) (xs : list A) : option A :=
  match xs with
  | [] => None
  | x :: xs' => Some (max_from key x xs')
  end.

(** ** [collections.deque] with [maxlen] *)

Record deque (A : Type) : Type := mkDeque {
  dq_maxlen : nat;
  dq_items : list A
}.
Arguments mkDeque {A}.
Arguments dq_maxlen {A}.
Arguments dq_items {A}.

(** [deque(maxlen=n)] *)
Definition deque_new {A} (n : nat) : deque A := mkDeque n [].

(** [d.append(x)]: the item goes to the right end; when the length then
    exceeds [maxlen] one item is dropped from the left end. *)
Definition deque_append {A} (x : A) (d : deque A) : deque A :=
  let items := dq_items d ++ [x] in
  mkDeque (dq_maxlen d)
    (if (dq_maxlen d <? length items)%nat then tail items else items).

(** [a <= b] on floats with infinities. *)
Definition fle (a b : pyfloat) : bool := negb (flt b a).

(** Appending a whole sequence, one item at a time. *)
Definition deque_extend {A} (xs : list A) (d : deque A) : deque A :=
  fold_left (fun d x => deque_append x d) xs d.

End Py.

(* ===================================================================== *)
(** * [StorageTemperatureReader] *)
(* ===================================================================== *)

Module Reader.
Import Py.

(** A row of the WMI class [Sensor] of OpenHardwareMonitor.  [Value] is
    [None] for the Python value [None]; [Parent] is [None] when the
    object has no attribute [Parent]. *)
Record wmi_sensor : Type := {
  SensorType : string;
  Value : option Q;
  Name : string;
  Parent : option string
}.

(** A row of the WMI class [Hardware]; a missing name is the empty
    string. *)
Record wmi_hardware : Type := {
  hw_Name : string
}.

(** What the WMI namespace answers during one sample: the result of
    [w.Sensor()] and of [w.Hardware()], [None] when the query raises. *)
Record wmi : Type := {
  Sensor : option (list wmi_sensor);
  Hardware : option (list wmi_hardware)
}.

(** The dictionaries [{'name': .., 'value': .., 'parent': ..}] of
    [all_temp_sensors]. *)
Record temp_sensor : Type := {
  name : string;
  value : Q;
  parent : string
}.

Definition storage_keywords : list string :=
  [ "hdd"; "ssd"; "disk"; "drive"; "nvme"; "sata";
    "hard disk"; "solid state"; "samsung"; "crucial";
    "western digital"; "seagate"; "kingston"; "adata";
    "sandisk"; "intel ssd"; "toshiba"; "hitachi" ].

Definition _is_storage_sensor (sensor_name parent_name : string) : bool :=
  let sensor_lower := lower sensor_name in
  let parent_lower := if truthy parent_name then lower parent_name else "" in
  if contains "temperature" sensor_lower then
    if any_keyword_in storage_keywords parent_lower then true
    else if any_keyword_in storage_keywords sensor_lower then true
    else false
  else false.

(** First loop of [get_storage_temperatures]: all temperature sensors
    that carry a value. *)
Fixpoint all_temp_sensors (sensors : list wmi_sensor) : list temp_sensor :=
  match sensors with
  | [] => []
  | sensor :: rest =>
      match Value sensor with
      | Some v =>
          if String.eqb (SensorType sensor) "Temperature" then
            {| name := Name sensor;
               value := v;
               parent := match Parent sensor with
                         | Some p => p
                         | None => "Unknown"
                         end |} :: all_temp_sensors rest
          else all_temp_sensors rest
      | None => all_temp_sensors rest
      end
  end.

(** Second loop: the storage sensors among them. *)
Definition storage_sensors (all : list temp_sensor) : list temp_sensor :=
  List.filter (fun sensor => _is_storage_sensor (name sensor) (parent sensor)) all.

(** The key under which a storage sensor is filed: its parent when
    there is one, its own name otherwise. *)
Definition device_name (sensor : temp_sensor) : string :=
  if truthy (parent sensor) && negb (String.eqb (parent sensor) "Unknown")
  then parent sensor
  else name sensor.

(** Calibration of the primary path: [adjusted_temp = raw_temp - 13]. *)
Definition primary_offset : Q := 13.

(** Calibration of the alternative path: [adjusted_temp = raw_temp - 10]. *)
Definition alternative_offset : Q := 10.

(** Third loop: [storage_temps[device_name] = adjusted_temp]. *)
Definition organize (sensors : list temp_sensor) : dict Q :=
  fold_left
    (fun storage_temps sensor =>
       let raw_temp := value sensor in
       let adjusted_temp := (raw_temp - primary_offset)%Q in
       dict_set (device_name sensor) adjusted_temp storage_temps)
    sensors [].

Definition alternative_keywords : list string :=
  [ "ssd"; "hdd"; "disk"; "drive"; "samsung"; "crucial"; "wd"; "seagate" ].

(** First loop of [_find_storage_temps_alternative]: the names of the
    hardware nodes that look like storage. *)
Definition storage_devices (hardware_items : list wmi_hardware) : list string :=
  map hw_Name
    (List.filter
       (fun hardware => any_keyword_in alternative_keywords (lower (hw_Name hardware)))
       hardware_items).

(** [x in xs] for a list of strings. *)
Definition in_list (x : string) (xs : list string) : bool :=
  existsb (String.eqb x) xs.

(** Second loop: temperature sensors whose parent is one of these
    nodes. *)
Definition alternative_scan (devices : list string) (sensors : list wmi_sensor)
  : dict Q :=
  fold_left
    (fun storage_temps sensor =>
       match Value sensor, Parent sensor with
       | Some v, Some p =>
           if String.eqb (SensorType sensor) "Temperature" && in_list p devices
           then
             let raw_temp := v in
             let adjusted_temp := (raw_temp - alternative_offset)%Q in
             dict_set p adjusted_temp storage_temps
           else storage_temps
       | _, _ => storage_temps
       end)
    sensors [].

Definition _find_storage_temps_alternative (w : wmi) (sensors : list wmi_sensor)
  : option (dict Q) :=
  let storage_temps :=
    match Hardware w with
    | Some hardware_items => alternative_scan (storage_devices hardware_items) sensors
    | None => []
    end in
  if dict_truthy storage_temps then Some storage_temps else None.

(** [get_storage_temperatures]: the reading per device, or [None]; the
    second component is [ohm_available] after the call. *)
Definition get_storage_temperatures (ohm_available : bool) (w : wmi)
  : option (dict Q) * bool :=
  if negb ohm_available then (None, ohm_available)
  else
    match Sensor w with
    | None => (None, false)
    | Some sensors =>
        let storage_temps := organize (storage_sensors (all_temp_sensors sensors)) in
        if dict_truthy storage_temps then (Some storage_temps, ohm_available)
        else (_find_storage_temps_alternative w sensors, ohm_available)
    end.

(** [len(storage_temps)] as a float. *)
Definition len {V} (d : dict V) : Q := inject_Z (Z.of_nat (length d)).

(** [sum(storage_temps.values()) / len(storage_temps)], as the exact
    quotient; the program's floating-point quotient is this value
    rounded. *)
Definition average (storage_temps : dict Q) : Q :=
  (sum (values storage_temps) / len storage_temps)%Q.

Definition get_average_storage_temperature (ohm_available : bool) (w : wmi)
  : option Q * bool :=
  let '(storage_temps, ohm_available') := get_storage_temperatures ohm_available w in
  match storage_temps with
  | Some d => if dict_truthy d then (Some (average d), ohm_available')
              else (None, ohm_available')
  | None => (None, ohm_available')
  end.

(** [storage_temps.get] as a key function. *)
Definition get_key (storage_temps : dict Q) (k : string) : Q :=
  match dict_get k storage_temps with
  | Some v => v
  | None => 0
  end.

(** [max(storage_temps.values())] *)
Definition max_temp_of (storage_temps : dict Q) : option Q :=
  max_by (fun v => v) (values storage_temps).

(** [max(storage_temps, key=storage_temps.get)] *)
Definition max_device_of (storage_temps : dict Q) : option string :=
  max_by (get_key storage_temps) (keys storage_temps).

Definition get_max_storage_temperature (ohm_available : bool) (w : wmi)
  : option Q * bool :=
  let '(storage_temps, ohm_available') := get_storage_temperatures ohm_available w in
  match storage_temps with
  | Some d => if dict_truthy d then (max_temp_of d, ohm_available')
              else (None, ohm_available')
  | None => (None, ohm_available')
  end.

(** The last sensor, in enumeration order, that is filed under the
    device name [k]. *)
Fixpoint last_reading (k : string) (sensors : list temp_sensor)
    : option temp_sensor :=
  match sensors with
  | [] => None
  | sensor :: rest =>
      match last_reading k rest with
      | Some later => Some later
      | None => if String.eqb (device_name sensor) k then Some sensor else None
      end
  end.

(** The raw value of the last sensor, in enumeration order, that the
    alternative path files under the hardware node [p]. *)
Fixpoint last_under (p : string) (devices : list string) (sensors : list wmi_sensor)
    : option Q :=
  match sensors with
  | [] => None
  | sensor :: rest =>
      match last_under p devices rest with
      | Some later => Some later
      | None =>
          match Value sensor, Parent sensor with
          | Some v, Some p' =>
              if String.eqb (SensorType sensor) "Temperature"
                 && in_list p' devices && String.eqb p' p
              then Some v else None
          | _, _ => None
          end
      end
  end.

(** A temperature sensor that carries a value: what both paths look
    at. *)
Definition has_temperature (sensor : wmi_sensor) : bool :=
  String.eqb (SensorType sensor) "Temperature"
  && match Value sensor with Some _ => true | None => false end.

(** The arithmetic mean of a list of numbers: their sum divided by their
    count. *)
Definition arithmetic_mean (vs : list Q) : Q :=
  (fold_right Qplus 0 vs / inject_Z (Z.of_nat (length vs)))%Q.

End Reader.

(* ===================================================================== *)
(** * [LogManager] ([working18.py]) *)
(* ===================================================================== *)

Module LogManager.
Import Py.

Section Files.
(** [d.strftime('%Y-%m-%d')] for the date with ordinal [d]. *)
Variable strftime_ymd : Z -> string.
(** [os.path.expanduser("~")] *)
Variable home : string.

Definition daily_logs_dir : string := "Daily logs".

(** [os.path.join(a, b)] *)
Definition path_join (a b : string) : string := a +:+ "/" +:+ b.

(** The daily file of a date:
    [os.path.join(daily_logs_dir, f"temperature_logs_{date}.logs")]. *)
Definition daily_log_file (date : Z) : string :=
  path_join daily_logs_dir ("temperature_logs_" +:+ strftime_ymd date +:+ ".logs").

(** The attributes of a [LogManager]. *)
Record t : Type := mk {
  current_log_file : string;
  log_buffer : list string;
  last_log_index : nat
}.

(** [get_current_log_file] when [datetime.now()] falls on [today]. *)
Definition get_current_log_file (today : Z) : string := daily_log_file today.

(** [open(path, 'a')] followed by [f.write(text)]: the file is created
    when missing. *)
Definition append_file (path text : string) (fs : gmap string string)
    : gmap string string :=
  <[path := default "" (fs !! path) +:+ text]> fs.

(** [_write_to_file], run on the day [today]. *)
Definition _write_to_file (today : Z) (log_entry : string)
    (lm : t) (fs : gmap string string) : t * gmap string string :=
  let current_file := get_current_log_file today in
  let lm' :=
  if negb (String.eqb current_file (current_log_file lm))
  then mk current_file (log_buffer lm) (last_log_index lm)
  else lm in
  (lm', append_file (current_log_file lm') (log_entry +:+ NL) fs).

(** The line that [log_temperature] composes; [timestamp] is
    [datetime.now().strftime("%Y-%m-%d %H:%M:%S")] and [value] the
    text that the f-string prints for the value. *)
Definition format_entry (timestamp temp_type value message : string) : string :=
  if truthy message
  then "[" +:+ timestamp +:+ "] " +:+ message
  else "[" +:+ timestamp +:+ "] " +:+ temp_type +:+ ": " +:+ value +:+ "°C".

(** [log_temperature]: the line goes to the buffer and to the file of
    the day; the writer thread is run to completion at once. *)
Definition log_temperature (today : Z) (timestamp temp_type value message : string)
    (lm : t) (fs : gmap string string) : t * gmap string string :=
  let log_entry := format_entry timestamp temp_type value message in
  let lm1 := mk (current_log_file lm) (log_buffer lm ++ [log_entry])
            (last_log_index lm) in
  _write_to_file today log_entry lm1 fs.

(** [[log.strip() for log in file_logs if log.strip()]] *)
Definition stripped_lines (file_logs : list string) : list string :=
  map strip (List.filter (fun log => truthy (strip log)) file_logs).

(** The [while current_date <= end_date] loop of
    [get_logs_for_date_range]; [fuel] bounds the number of
    iterations. *)
Fixpoint range_loop (fuel : nat) (fs : gmap string string)
    (current_date end_date : Z) (logs : list string) : list string :=
  match fuel with
  | O => logs
  | S fuel' =>
  if (current_date <=? end_date)%Z then
    let log_file := daily_log_file current_date in
    let logs' :=
      match fs !! log_file with
      | Some text => logs ++ stripped_lines (readlines text)
      | None => logs
      end in
    range_loop fuel' fs (current_date + 1)%Z end_date logs'
  else logs
  end.

(** The number of days from [start_date] to [end_date], both
    included: the loop runs that many times. *)
Definition days_in_range (start_date end_date : Z) : nat :=
  Z.to_nat (end_date - start_date + 1).

Definition get_logs_for_date_range (fs : gmap string string)
    (start_date end_date : Z) : list string :=
  range_loop (days_in_range start_date end_date) fs start_date end_date [].

(** ["=" * 60] *)
Definition separator : string := String.concat "" (repeat "=" 60).

Definition export_filename (start_date end_date : Z) : string :=
  let start_str := strftime_ymd start_date in
  let end_str := strftime_ymd end_date in
  if String.eqb start_str end_str
  then "temperature_export_" +:+ start_str +:+ ".logs"
  else "temperature_export_" +:+ start_str +:+ "_to_" +:+ end_str +:+ ".logs".

Definition export_text (start_date end_date : Z) (now : string)
    (logs : list string) : string :=
  "# Temperature Logs Export" +:+ NL +:+
  "# Date Range: " +:+ strftime_ymd start_date +:+ " to " +:+
  strftime_ymd end_date +:+ NL +:+
  "# Exported on: " +:+ now +:+ NL +:+
  "# Format: [TIMESTAMP] LOG_ENTRY" +:+ NL +:+
  "# Source: Storage Temperature Monitor" +:+ NL +:+
  separator +:+ NL +:+
  String.concat "" (map (fun log_entry => log_entry +:+ NL) logs).

(** [export_logs_to_file]; [now] is the export timestamp and
    [writable] tells whether the file in the Downloads folder can be
    opened and written (an [OSError] otherwise).  Returns the
    boolean of the method and the files afterwards. *)
Definition export_logs_to_file (fs : gmap string string)
    (start_date end_date : Z) (now : string) (writable : bool)
    : bool * gmap string string :=
  let logs := get_logs_for_date_range fs start_date end_date in
  match logs with
  | [] => (false, fs)
  | _ :: _ =>
  let downloads_path :=
    path_join (path_join home "Downloads")
              (export_filename start_date end_date) in
  if writable
  then (true, <[downloads_path := export_text start_date end_date now logs]> fs)
  else (false, fs)
  end.

(** Writing the entries of one day, in order. *)
Definition write_day (today : Z) (entries : list string)
    (s : t * gmap string string) : t * gmap string string :=
  fold_left (fun s log_entry => _write_to_file today log_entry (fst s) (snd s))
        entries s.

(** The lines that the daily file of [date] contributes to a range
    query: none when there is no such file. *)
Definition file_lines (fs : gmap string string) (date : Z) : list string :=
  match fs !! daily_log_file date with
  | Some text => stripped_lines (readlines text)
  | None => []
  end.

(** The lines of [n] consecutive days from [start_date] on, day by day. *)
Fixpoint days_lines (fs : gmap string string) (start_date : Z) (n : nat)
    : list string :=
  match n with
  | O => []
  | S n' => file_lines fs start_date ++ days_lines fs (start_date + 1)%Z n'
  end.

End Files.

(** The text that a sequence of entries leaves in a file: each entry
    followed by a newline. *)
Fixpoint text_of (entries : list string) : string :=
  match entries with
  | [] => ""
  | log_entry :: rest => log_entry +:+ NL +:+ text_of rest
  end.

(** A line as [log_temperature] stores it: not empty, no line break
    inside, no white space at either end. *)
Definition is_log_line (s : string) : bool :=
  truthy s && negb (contains NL s) && negb (contains (String CR EmptyString) s)
  && String.eqb (strip s) s.

(** ** Reading everything: [get_all_logs], [get_new_logs] and the live
    log window *)

(** [s.endswith(suffix)] *)
Fixpoint endswith (suffix s : string) : bool :=
  String.eqb suffix s ||
  match s with
  | EmptyString => false
  | String _ s' => endswith suffix s'
  end.

(** The name of the file [path] inside the folder [dir]: [path] is
    [dir], a separator and a name without separator.  Sub-folders are not
    modelled. *)
Fixpoint name_in (dir path : string) : option string :=
  match dir, path with
  | EmptyString, String sep name =>
      if Ascii.eqb sep "/" && negb (contains "/" name) then Some name else None
  | String a dir', String b path' =>
      if Ascii.eqb a b then name_in dir' path' else None
  | _, _ => None
  end.

(** [os.listdir(dir)]: the names of the files of the folder, in the order
    in which the file system happens to give them. *)
Definition listdir (dir : string) (fs : gmap string string) : list string :=
  omap (name_in dir) (map fst (map_to_list fs)).

(** [f.startswith('temperature_logs_') and f.endswith('.logs')] *)
Definition is_log_file_name (f : string) : bool :=
  String.prefix "temperature_logs_" f && endswith ".logs" f.

(** The sorted [log_files] of [get_all_logs]; [sort()] orders strings by
    their characters. *)
Definition log_files (fs : gmap string string) : list string :=
  merge_sort String.le
    (filter (fun f => is_log_file_name f = true) (listdir daily_logs_dir fs)).

(** The lines that [get_all_logs] takes from one file. *)
Definition lines_of (fs : gmap string string) (log_file : string) : list string :=
  match fs !! path_join daily_logs_dir log_file with
  | Some text => stripped_lines (readlines text)
  | None => []
  end.

Definition get_all_logs (fs : gmap string string) : list string :=
  flat_map (lines_of fs) (log_files fs).

(** [get_new_logs]: the lines beyond the cursor, and the manager with
    the cursor moved to the end. *)
Definition get_new_logs (fs : gmap string string) (lm : t) : list string * t :=
  let current_logs := get_all_logs fs in
  (drop (last_log_index lm) current_logs,
   mk (current_log_file lm) (log_buffer lm) (length current_logs)).

(** [LiveLogWindow.refresh_log_display]: the text of the window becomes
    the last 1000 lines of the history, or a notice when there is none. *)
Definition refresh_log_display (fs : gmap string string) : list string :=
  match get_all_logs fs with
  | [] => ["No logs available yet..."]
  | logs => drop (length logs - 1000) logs
  end.

(** [LiveLogWindow.update_live_log] on a window that is open: the new
    lines are added at the end of the text. *)
Definition update_live_log (fs : gmap string string) (display : list string)
    (lm : t) : list string * t :=
  let '(new_logs, lm') := get_new_logs fs lm in (display ++ new_logs, lm').

(** [LiveLogWindow.create_window], as far as the text goes: the history
    is loaded, then the first live update runs. *)
Definition open_live_log (fs : gmap string string) (lm : t) : list string * t :=
  update_live_log fs (refresh_log_display fs) lm.

(** A line that a file gives back unchanged: not empty, without line
    feed, without white space at either end. *)
Definition is_stored_line (s : string) : bool :=
  truthy s && negb (contains NL s) && String.eqb (strip s) s.

End LogManager.

(* ===================================================================== *)
(** * [TemperatureMonitor] *)
(* ===================================================================== *)

Module Monitor.
Import Py.

(** The attributes of a [TemperatureMonitor] that the monitoring loop,
    the e-mail scheduler and the settings dialog read and write;
    [ohm_available] is the flag of its [temp_reader]. *)
Record state : Type := mkState {
  critical_temp : Q;
  warning_temp : Q;
  is_monitoring : bool;
  alert_monitoring_active : bool;
  last_warning_time : Q;
  warning_cooldown : Q;
  last_email_time : Q;
  email_interval : Q;
  temp_history : deque Q;
  time_history : deque Q;
  min_temp : pyfloat;
  max_temp : pyfloat;
  storage_temperatures : option (dict Q);
  ohm_available : bool
}.

(** The text part of a [log_temperature] call; messages that print
    floats keep the floats. *)
Inductive log_message : Type :=
  | NoMessage
  | Text (s : string)
  | StorageDetails (storage_temps : dict Q)
  | SettingsUpdated (new_warning new_critical : Q)
  | EmailFailure.

(** What a transition asks of the outside world, in program order.  The
    [Log] effects are the [log_manager] calls of [working18.py];
    [working12.py] has calls of [self.logger] at these places instead and
    makes the same transitions on the state. *)
Inductive effect : Type :=
  | UpdateDisplay (max_now avg_now : option Q) (current_time : Q)
    (** [root.after(0, self.update_display, ...)] *)
  | SendDesktopNotification (title message : string) (temp : Q)
    (** [root.after(0, self.send_desktop_notification, ...)]: the
        notification, its alert log line and the sound *)
  | Log (temp_type : string) (value : Q) (message : log_message)
    (** [self.log_manager.log_temperature(...)] *)
  | SmtpSession (delivered : bool)
    (** the SMTP session of [send_email_report] *)
  | WriteSettings (critical warning : Q)
    (** [save_settings]: the settings file is rewritten *)
  | ShowError (title message : string)
  | ShowInfo (title message : string).

(** ** Attribute assignments *)

Definition set_thresholds (warning critical : Q) (s : state) : state :=
  mkState critical warning (is_monitoring s) (alert_monitoring_active s)
    (last_warning_time s) (warning_cooldown s) (last_email_time s)
    (email_interval s) (temp_history s) (time_history s) (min_temp s)
    (max_temp s) (storage_temperatures s) (ohm_available s).

Definition set_alert_monitoring_active (b : bool) (s : state) : state :=
  mkState (critical_temp s) (warning_temp s) (is_monitoring s) b
    (last_warning_time s) (warning_cooldown s) (last_email_time s)
    (email_interval s) (temp_history s) (time_history s) (min_temp s)
    (max_temp s) (storage_temperatures s) (ohm_available s).

Definition set_last_warning_time (t : Q) (s : state) : state :=
  mkState (critical_temp s) (warning_temp s) (is_monitoring s)
    (alert_monitoring_active s) t (warning_cooldown s) (last_email_time s)
    (email_interval s) (temp_history s) (time_history s) (min_temp s)
    (max_temp s) (storage_temperatures s) (ohm_available s).

Definition set_last_email_time (t : Q) (s : state) : state :=
  mkState (critical_temp s) (warning_temp s) (is_monitoring s)
    (alert_monitoring_active s) (last_warning_time s) (warning_cooldown s) t
    (email_interval s) (temp_history s) (time_history s) (min_temp s)
    (max_temp s) (storage_temperatures s) (ohm_available s).

Definition set_history (temps times : deque Q) (s : state) : state :=
  mkState (critical_temp s) (warning_temp s) (is_monitoring s)
    (alert_monitoring_active s) (last_warning_time s) (warning_cooldown s)
    (last_email_time s) (email_interval s) temps times (min_temp s)
    (max_temp s) (storage_temperatures s) (ohm_available s).

Definition set_min_temp (v : pyfloat) (s : state) : state :=
  mkState (critical_temp s) (warning_temp s) (is_monitoring s)
    (alert_monitoring_active s) (last_warning_time s) (warning_cooldown s)
    (last_email_time s) (email_interval s) (temp_history s) (time_history s)
    v (max_temp s) (storage_temperatures s) (ohm_available s).

Definition set_max_temp (v : pyfloat) (s : state) : state :=
  mkState (critical_temp s) (warning_temp s) (is_monitoring s)
    (alert_monitoring_active s) (last_warning_time s) (warning_cooldown s)
    (last_email_time s) (email_interval s) (temp_history s) (time_history s)
    (min_temp s) v (storage_temperatures s) (ohm_available s).

Definition set_storage_temperatures (d : option (dict Q)) (s : state) : state :=
  mkState (critical_temp s) (warning_temp s) (is_monitoring s)
    (alert_monitoring_active s) (last_warning_time s) (warning_cooldown s)
    (last_email_time s) (email_interval s) (temp_history s) (time_history s)
    (min_temp s) (max_temp s) d (ohm_available s).

Definition set_ohm_available (b : bool) (s : state) : state :=
  mkState (critical_temp s) (warning_temp s) (is_monitoring s)
    (alert_monitoring_active s) (last_warning_time s) (warning_cooldown s)
    (last_email_time s) (email_interval s) (temp_history s) (time_history s)
    (min_temp s) (max_temp s) (storage_temperatures s) b.

(** ** [__init__] and [load_settings] *)

(** The attributes as [__init__] sets them, before [load_settings]. *)
Definition init : state :=
  {| critical_temp := 30;
     warning_temp := 27;
     is_monitoring := true;
     alert_monitoring_active := true;
     last_warning_time := 0;
     warning_cooldown := 30;
     last_email_time := 0;
     email_interval := 3600;
     temp_history := deque_new 50;
     time_history := deque_new 50;
     min_temp := PosInf;
     max_temp := NegInf;
     storage_temperatures := Some [];
     ohm_available := true |}.

(** [load_settings]: [file] is the parsed settings file, [None] when it
    is missing or unreadable; each component is the stored number, if
    the key is there. *)
Definition load_settings (file : option (option Q * option Q)) (s : state) : state :=
  match file with
  | Some (critical, warning) =>
      set_thresholds (default 27%Q warning) (default 30%Q critical) s
  | None => s
  end.

(** ** One iteration of [monitor_temperature] *)

(** The alert check, [max_now] being the reading of this iteration and
    [current_absolute_time] the clock. *)
Definition check_alerts (max_now current_absolute_time : Q) (s : state)
  : state * list effect :=
  if alert_monitoring_active s then
    if geb max_now (critical_temp s) then
      if gtb (current_absolute_time - last_warning_time s) (warning_cooldown s)
      then (set_last_warning_time current_absolute_time s,
            [SendDesktopNotification "🔥 CRITICAL STORAGE TEMPERATURE ALERT!"
               "Storage temperature is critically high!" max_now])
      else (s, [])
    else if geb max_now (warning_temp s) then
      if gtb (current_absolute_time - last_warning_time s) (warning_cooldown s)
      then (set_last_warning_time current_absolute_time s,
            [SendDesktopNotification "⚠️ HIGH STORAGE TEMPERATURE WARNING"
               "Storage temperature is above normal" max_now])
      else (s, [])
    else (s, [])
  else (s, []).

(** The running minimum and maximum for the e-mail report. *)
Definition update_min_max (max_now : Q) (s : state) : state :=
  let s1 := if flt (Fin max_now) (min_temp s)
            then set_min_temp (Fin max_now) s else s in
  if fgt (Fin max_now) (max_temp s1)
  then set_max_temp (Fin max_now) s1 else s1.

(** [temp_history.append(max_temp); time_history.append(current_time)] *)
Definition update_history (max_now current_time : Q) (s : state) : state :=
  set_history (deque_append max_now (temp_history s))
              (deque_append current_time (time_history s)) s.

(** The three [log_temperature] calls of an iteration with a reading. *)
Definition log_reading (max_now : Q) (avg_now : option Q) (s : state)
  : list effect :=
  match avg_now with
  | Some avg => [Log "Average Temperature" avg NoMessage]
  | None => []
  end ++
  [Log "Max Temperature" max_now NoMessage] ++
  match storage_temperatures s with
  | Some d => if dict_truthy d then [Log "Storage Details" 0 (StorageDetails d)]
              else []
  | None => []
  end.

(** What one iteration of the loop receives: the answers of WMI to the
    three samples it takes and the two clock readings. *)
Record cycle_input : Type := {
  wmi_temps : Reader.wmi;
  wmi_max : Reader.wmi;
  wmi_avg : Reader.wmi;
  clock_elapsed : Q;
  clock_alert : Q
}.

(** The three samples at the head of an iteration:
    [get_storage_temperatures], [get_max_storage_temperature] and
    [get_average_storage_temperature], each on a fresh WMI query, with
    [ohm_available] threaded through. *)
Definition take_samples (i : cycle_input) (ohm : bool)
  : option (dict Q) * option Q * option Q * bool :=
  let '(temps, ohm1) := Reader.get_storage_temperatures ohm (wmi_temps i) in
  let '(max_now, ohm2) := Reader.get_max_storage_temperature ohm1 (wmi_max i) in
  let '(avg_now, ohm3) := Reader.get_average_storage_temperature ohm2 (wmi_avg i) in
  (temps, max_now, avg_now, ohm3).

(** The local [max_temp] of an iteration. *)
Definition reading (i : cycle_input) (s : state) : option Q :=
  let '(_, max_now, _, _) := take_samples i (ohm_available s) in max_now.

(** The body of the [while] loop of [monitor_temperature] (the [try]
    block up to the sleep), [start_time] being the clock at the start of
    the loop. *)
Definition monitor_cycle (start_time : Q) (i : cycle_input) (s : state)
  : state * list effect :=
  let '(temps, max_now, avg_now, ohm3) := take_samples i (ohm_available s) in
  let s0 := set_ohm_available ohm3 (set_storage_temperatures temps s) in
  let current_time := (clock_elapsed i - start_time)%Q in
  match max_now with
  | Some m =>
      let s1 := update_min_max m s0 in
      let s2 := update_history m current_time s1 in
      let '(s3, alerts) :=
        check_alerts m (clock_alert i) s2 in
      (s3, [UpdateDisplay (Some m) avg_now current_time]
             ++ log_reading m avg_now s2 ++ alerts)
  | None =>
      (s0, [UpdateDisplay None None current_time;
            Log "Error" 0 (Text "No temperature data available from sensors")])
  end.

(** Consecutive iterations. *)
Fixpoint monitor_run (start_time : Q) (inputs : list cycle_input) (s : state)
  : state * list effect :=
  match inputs with
  | [] => (s, [])
  | i :: rest =>
      let '(s1, e1) := monitor_cycle start_time i s in
      let '(s2, e2) := monitor_run start_time rest s1 in
      (s2, e1 ++ e2)
  end.

(** ** The e-mail report *)

(** Whether the f-string of the report body can be formatted: the
    current maximum and both ends of the window go through [:.1f], which
    raises on the ['N/A'] that stands in for a missing number. *)
Definition body_formats (current_max : option Q) (s : state) : bool :=
  match current_max with
  | Some m => negb (Qeq_bool m 0)
  | None => false
  end
  && match min_temp s with PosInf => false | _ => true end
  && match max_temp s with NegInf => false | _ => true end.

(** [send_email_report]: [w] answers the sample it takes, [smtp_ok]
    tells whether the SMTP session goes through.  Returns the boolean of
    the method. *)
Definition send_email_report (w : Reader.wmi) (smtp_ok : bool) (s : state)
  : bool * state * list effect :=
  let '(current_max, ohm') := Reader.get_max_storage_temperature (ohm_available s) w in
  let s' := set_ohm_available ohm' s in
  if body_formats current_max s then
    if smtp_ok
    then (true, s', [SmtpSession true;
                     Log "Email" (default 0%Q current_max)
                         (Text "Scheduled email report sent")])
    else (false, s', [SmtpSession false; Log "Error" 0 EmailFailure])
  else (false, s', [Log "Error" 0 EmailFailure]).

(** One check of [email_scheduler] (the [try] block up to the sleep of
    30 seconds) at clock [current_time]. *)
Definition email_scheduler_check (current_time : Q) (w : Reader.wmi)
    (smtp_ok : bool) (s : state) : state * list effect :=
  if geb (current_time - last_email_time s) (email_interval s) then
    let '(s1, sent) :=
      if opt_dict_truthy (storage_temperatures s) then
        let '(_, s', e) := send_email_report w smtp_ok s in
        (set_last_email_time current_time s', e)
      else (s, []) in
    (set_max_temp NegInf (set_min_temp PosInf s1), sent)
  else (s, []).

(** ** The settings dialog *)

Definition start_alert_monitoring (s : state) : state * list effect :=
  (set_alert_monitoring_active true s,
   [Log "System" 0 (Text "Alert monitoring enabled");
    ShowInfo "Alerts Enabled" "Storage temperature alert monitoring is now active!"]).

Definition stop_alert_monitoring (s : state) : state * list effect :=
  (set_alert_monitoring_active false s,
   [Log "System" 0 (Text "Alert monitoring disabled");
    ShowInfo "Alerts Disabled" "Storage temperature alert monitoring is now inactive."]).

Definition save_settings (s : state) : list effect :=
  [WriteSettings (critical_temp s) (warning_temp s)].

Section Settings.
(** Python's [float(text)]: the number, or [None] for [ValueError].
    Texts that Python reads as [nan] or as an infinity have no value
    here. *)
Variable float : string -> option Q.

(** [update_settings]; [warning_var] and [critical_var] are the texts
    of the two entry fields. *)
Definition update_settings (warning_var critical_var : string) (s : state)
    : state * list effect :=
  match float warning_var with
  | None => (s, [ShowError "Error"
               "Please enter valid numbers for temperature thresholds"])
  | Some new_warning =>
  match float critical_var with
  | None => (s, [ShowError "Error"
                   "Please enter valid numbers for temperature thresholds"])
  | Some new_critical =>
      if geb new_warning new_critical then
        (s, [ShowError "Error"
               "Warning temperature must be lower than critical temperature"])
      else
        let s' := set_thresholds new_warning new_critical s in
        (s', save_settings s' ++
             [Log "System" 0 (SettingsUpdated new_warning new_critical);
              ShowInfo "Success" "Temperature settings updated successfully"])
  end
  end.
End Settings.

(** ** Observations on effect traces *)

Definition is_notification (e : effect) : bool :=
  match e with
  | SendDesktopNotification _ _ _ => true
  | _ => false
  end.

Definition notifications (es : list effect) : nat :=
  length (List.filter is_notification es).


(** ** Buttons *)

(** [send_test_email]: the report is sent at once and the outcome is
    shown in a message box. *)
Definition send_test_email (w : Reader.wmi) (smtp_ok : bool) (s : state)
  : state * list effect :=
  let '(success, s', e) := send_email_report w smtp_ok s in
  (s', e ++ [if success
             then ShowInfo "Success" "Test email sent successfully!"
             else ShowError "Error"
                    "Failed to send test email. Check your email configuration."]).

Section Refresh.
(** Python's [float(text)]: the number, or [None] for [ValueError]. *)
Variable float : string -> option Q.

(** The pause between two iterations of [monitor_temperature]:
    [max(1, float(self.refresh_rate_var.get()))], and 2 when the text is
    not a number. *)
Definition refresh_delay (refresh_rate_var : string) : Q :=
  match float refresh_rate_var with
  | Some rate => if gtb rate 1 then rate else 1
  | None => 2
  end.

(** [manual_refresh]: three fresh samples as in the loop; with a reading
    the display is updated directly, at the position
    [len(self.time_history) * float(self.refresh_rate_var.get())].  A
    text that is not a number raises after the samples were stored. *)
Definition manual_refresh (i : cycle_input) (refresh_rate_var : string) (s : state)
  : state * list effect :=
  let '(temps, max_now, avg_now, ohm3) := take_samples i (ohm_available s) in
  let s0 := set_ohm_available ohm3 (set_storage_temperatures temps s) in
  match max_now with
  | Some m =>
      match float refresh_rate_var with
      | Some rate =>
          (s0, [UpdateDisplay (Some m) avg_now
                  (inject_Z (Z.of_nat (length (dq_items (time_history s0)))) * rate)%Q])
      | None => (s0, [])
      end
  | None => (s0, [])
  end.
End Refresh.

(** The gate of the alert side effects: alerts are on, the reading
    reaches one of the two thresholds, and more than the cooldown has
    passed since [last_warning_time]. *)
Definition alert_fires (max_now current_absolute_time : Q) (s : state) : bool :=
  alert_monitoring_active s
  && (geb max_now (critical_temp s) || geb max_now (warning_temp s))
  && gtb (current_absolute_time - last_warning_time s) (warning_cooldown s).

(** The fields that the alert gate reads, except [last_warning_time]. *)
Definition alert_config (s : state) : bool * Q * Q * Q :=
  (alert_monitoring_active s, warning_cooldown s, critical_temp s, warning_temp s).

(** Both histories respect their capacity of 50 entries. *)
Definition history_ok (s : state) : Prop :=
  dq_maxlen (temp_history s) = 50%nat /\
  dq_maxlen (time_history s) = 50%nat /\
  (length (dq_items (temp_history s)) <= 50)%nat /\
  (length (dq_items (time_history s)) <= 50)%nat.

End Monitor.

(* ===================================================================== *)
(** * Sample data *)
(* ===================================================================== *)

Module Samples.
Import Py Reader Monitor.

(** A temperature sensor below a solid-state disk, with raw value [v]. *)
Definition ssd_sensor (v : Q) : wmi_sensor :=
  {| SensorType := "Temperature";
     Value := Some v;
     Name := "Temperature";
     Parent := Some "Samsung SSD 970 EVO" |}.

(** A WMI namespace that shows this one sensor. *)
Definition one_disk (v : Q) : wmi :=
  {| Sensor := Some [ssd_sensor v]; Hardware := Some [] |}.

(** Two sensors of the same disk, reading 45 and then 50 degrees raw. *)
Definition two_sensors : list wmi_sensor := [ssd_sensor 45; ssd_sensor 50].

(** A disk that only the alternative path recognises: its name carries
    none of the primary keywords, but the hardware node matches [wd]. *)
Definition wd_disk (v : Q) : wmi :=
  {| Sensor := Some [ {| SensorType := "Temperature";
                         Value := Some v;
                         Name := "Temperature";
                         Parent := Some "WDC WD10EZEX" |} ];
     Hardware := Some [ {| hw_Name := "WDC WD10EZEX" |} ] |}.

(** An iteration at clock [t] in which the disk reads 45 degrees raw,
    32 after calibration. *)
Definition spike (t : Q) : cycle_input :=
  {| wmi_temps := one_disk 45;
     wmi_max := one_disk 45;
     wmi_avg := one_disk 45;
     clock_elapsed := t;
     clock_alert := t |}.

(** The monitor right after start-up: no reading has been stored yet
    ([storage_temperatures] is the empty dictionary). *)
Definition no_data : state := init.

(** The monitor after an iteration has stored a reading of the disk. *)
Definition with_data : state :=
  set_storage_temperatures (Some [("Samsung SSD 970 EVO", 32%Q)]) init.

(** A stand-in for [strftime('%Y-%m-%d')]: the decimal numeral of the
    day ordinal, which names different days differently. *)
Definition ordinal_name (date : Z) : string := pretty date.

(** A log manager before its first write. *)
Definition fresh_log : LogManager.t := LogManager.mk "" [] 0.

(** A stand-in for [float(text)] that reads decimal integers such as
    ["30"] or ["-4"] and rejects every other text. *)
Definition float_of_decimal (text : string) : option Q :=
  match DecimalString.NilEmpty.int_of_string text with
  | Some i => Some (inject_Z (Z.of_int i))
  | None => None
  end.

End Samples.

(* ===================================================================== *)
(** * Properties *)
(* ===================================================================== *)

Import Py.

(** ** The bounded history *)

Lemma deque_append_maxlen {A} (x : A) d :
  dq_maxlen (deque_append x d) = dq_maxlen d.
Proof. reflexivity. Qed.

Lemma deque_append_items {A} (x : A) d :
  (length (dq_items d) <= dq_maxlen d)%nat ->
  dq_items (deque_append x d)
  = drop (length (dq_items d ++ [x]) - dq_maxlen d) (dq_items d ++ [x]).
Proof.
  intros Hlen. unfold deque_append. cbn [dq_items dq_maxlen].
  rewrite length_app. cbn [length].
  destruct (Nat.ltb_spec (dq_maxlen d) (length (dq_items d) + 1)) as [Hfull|Hroom].
  - replace (length (dq_items d) + 1 - dq_maxlen d)%nat with 1%nat by lia.
    destruct (dq_items d ++ [x]); reflexivity.
  - replace (length (dq_items d) + 1 - dq_maxlen d)%nat with 0%nat by lia.
    reflexivity.
Qed.

Lemma deque_append_bounded {A} (x : A) d :
  (length (dq_items d) <= dq_maxlen d)%nat ->
  (length (dq_items (deque_append x d)) <= dq_maxlen (deque_append x d))%nat.
Proof.
  intros Hlen. rewrite deque_append_items by exact Hlen.
  rewrite deque_append_maxlen, length_drop, length_app. cbn [length]. lia.
Qed.

Lemma deque_extend_spec {A} (xs : list A) d :
  (length (dq_items d) <= dq_maxlen d)%nat ->
  dq_maxlen (deque_extend xs d) = dq_maxlen d /\
  dq_items (deque_extend xs d)
  = drop (length (dq_items d ++ xs) - dq_maxlen d) (dq_items d ++ xs).
Proof.
  revert d. induction xs as [|x xs IH]; intros d Hlen.
  - split; [reflexivity|]. cbn [deque_extend fold_left].
    rewrite app_nil_r. replace (_ - _)%nat with 0%nat by lia. reflexivity.
  - cbn [deque_extend fold_left]. fold (deque_extend xs (deque_append x d)).
    destruct (IH (deque_append x d) (deque_append_bounded x d Hlen)) as [Hm Hi].
    split; [rewrite Hm; apply deque_append_maxlen|].
    rewrite Hi, deque_append_maxlen, deque_append_items by exact Hlen.
    set (l := dq_items d) in *. set (n := dq_maxlen d) in *.
    replace (l ++ x :: xs) with ((l ++ [x]) ++ xs)
      by (rewrite <- app_assoc; reflexivity).
    rewrite <- (drop_app_le (l ++ [x]) xs) by lia.
    rewrite drop_drop. f_equal.
    rewrite !length_app, length_drop, !length_app. cbn [length]. lia.
Qed.

Import Monitor.

Ltac case_if :=
  match goal with
  | |- context [if ?b then _ else _] => destruct b eqn:?
  end.

Lemma check_alerts_history m t s :
  temp_history (fst (check_alerts m t s)) = temp_history s /\
  time_history (fst (check_alerts m t s)) = time_history s.
Proof. unfold check_alerts. repeat case_if; split; reflexivity. Qed.

Lemma update_min_max_history m s :
  temp_history (update_min_max m s) = temp_history s /\
  time_history (update_min_max m s) = time_history s.
Proof. unfold update_min_max. repeat case_if; split; reflexivity. Qed.

(** What an iteration does to the two histories: nothing without a
    reading, one append to each with a reading. *)
Lemma monitor_cycle_history start i s :
  let s' := fst (monitor_cycle start i s) in
  (temp_history s' = temp_history s /\ time_history s' = time_history s) \/
  (exists m t, temp_history s' = deque_append m (temp_history s) /\
               time_history s' = deque_append t (time_history s)).
Proof.
  unfold monitor_cycle.
  destruct (take_samples i (ohm_available s)) as [[[temps max_now] avg_now] ohm3].
  destruct max_now as [m|]; cbn zeta.
  - right. exists m, (clock_elapsed i - start)%Q.
    match goal with
    | |- context [check_alerts ?a ?b ?c] =>
        pose proof (check_alerts_history a b c) as [H1 H2];
        destruct (check_alerts a b c) as [s3 alerts]
    end.
    cbn [fst] in *. rewrite H1, H2. unfold update_history. cbn.
    match goal with
    | |- context [update_min_max ?a ?b] =>
        destruct (update_min_max_history a b) as [H3 H4]; rewrite H3, H4
    end.
    split; reflexivity.
  - left. split; reflexivity.
Qed.

Lemma monitor_cycle_history_ok start i s :
  history_ok s -> history_ok (fst (monitor_cycle start i s)).
Proof.
  intros (Hm1 & Hm2 & Hl1 & Hl2).
  destruct (monitor_cycle_history start i s) as [[E1 E2]|(m & t & E1 & E2)];
    unfold history_ok; rewrite E1, E2.
  - auto.
  - rewrite !deque_append_maxlen. repeat split; try assumption.
    + pose proof (deque_append_bounded m (temp_history s)) as H.
      rewrite deque_append_maxlen, Hm1 in H. apply H. exact Hl1.
    + pose proof (deque_append_bounded t (time_history s)) as H.
      rewrite deque_append_maxlen, Hm2 in H. apply H. exact Hl2.
Qed.

Lemma monitor_run_history_ok start inputs s :
  history_ok s -> history_ok (fst (monitor_run start inputs s)).
Proof.
  revert s. induction inputs as [|i rest IH]; intros s Hs; [exact Hs|].
  cbn [monitor_run].
  pose proof (monitor_cycle_history_ok start i s Hs) as H1.
  destruct (monitor_cycle start i s) as [s1 e1]. cbn [fst] in H1.
  specialize (IH s1 H1).
  destruct (monitor_run start rest s1) as [s2 e2]. exact IH.
Qed.

Lemma load_settings_history_ok file : history_ok (load_settings file init).
Proof.
  destruct file as [[c w]|]; unfold history_ok; cbn; repeat split; lia.
Qed.

(** C3. The temperature history holds the most recent entries only, at
    most 50 of them.  Whatever sequence [xs] is appended to the empty
    history, the history then holds at most 50 entries, namely the last
    50 of [xs] in the order of insertion; after 51 appends [x, f 0, ...,
    f 49] the first entry [x] is gone and the other fifty remain; and
    after any number of iterations of the monitoring loop, started from
    the initial attributes with any loaded settings, both histories hold
    at most 50 entries. *)
Theorem history_fifo_capacity :
  (forall (xs : list Q),
      let h := deque_extend xs (deque_new 50) in
      (length (dq_items h) <= 50)%nat /\
      dq_items h = drop (length xs - 50) xs) /\
  (forall (x : Q) (f : nat -> Q),
      dq_items (deque_extend (x :: map f (seq 0 50)) (deque_new 50))
      = map f (seq 0 50)) /\
  (forall file start inputs,
      let s := fst (monitor_run start inputs (load_settings file init)) in
      (length (dq_items (temp_history s)) <= 50)%nat /\
      (length (dq_items (time_history s)) <= 50)%nat).
Proof.
  assert (Hspec : forall xs : list Q,
             dq_items (deque_extend xs (deque_new 50)) = drop (length xs - 50) xs).
  { intros xs.
    destruct (deque_extend_spec xs (deque_new 50)) as [_ Hi]; [cbn; lia|].
    exact Hi. }
  split; [|split].
  - intros xs h. subst h. rewrite Hspec. split; [|reflexivity].
    rewrite length_drop. lia.
  - intros x f. rewrite Hspec. cbn [length].
    rewrite length_map, length_seq. reflexivity.
  - intros file start inputs s.
    destruct (monitor_run_history_ok start inputs _ (load_settings_history_ok file))
      as (_ & _ & H1 & H2).
    split; assumption.
Qed.

(** ** The alert cooldown *)

Lemma geb_true_iff a b : geb a b = true <-> (b <= a)%Q.
Proof. unfold geb. apply Qle_bool_iff. Qed.

Lemma gtb_true_iff a b : gtb a b = true <-> (b < a)%Q.
Proof.
  unfold gtb. rewrite negb_true_iff. split.
  - intros H. apply Qnot_le_lt. intros Hle.
    apply Qle_bool_iff in Hle. congruence.
  - intros H. destruct (Qle_bool a b) eqn:E; [|reflexivity].
    apply Qle_bool_iff in E. lra.
Qed.

Lemma gtb_false_iff a b : gtb a b = false <-> (a <= b)%Q.
Proof.
  unfold gtb. rewrite negb_false_iff. apply Qle_bool_iff.
Qed.

Lemma notifications_app es1 es2 :
  notifications (es1 ++ es2) = (notifications es1 + notifications es2)%nat.
Proof. unfold notifications. rewrite List.filter_app, length_app. reflexivity. Qed.

Lemma log_reading_silent m avg s : notifications (log_reading m avg s) = 0%nat.
Proof.
  unfold log_reading.
  destruct avg, (storage_temperatures s) as [[|? ?]|]; reflexivity.
Qed.

(** The two branches of the alert check share one gate and one clock. *)
Lemma check_alerts_gate m t s :
  fst (check_alerts m t s)
  = (if alert_fires m t s then set_last_warning_time t s else s) /\
  notifications (snd (check_alerts m t s))
  = (if alert_fires m t s then 1%nat else 0%nat) /\
  (alert_fires m t s = false -> snd (check_alerts m t s) = []).
Proof.
  unfold check_alerts, alert_fires.
  destruct (alert_monitoring_active s); cbn [andb]; [|auto].
  destruct (geb m (critical_temp s)); cbn [orb andb].
  - destruct (gtb _ _); cbn; repeat split; auto; discriminate.
  - destruct (geb m (warning_temp s)); cbn [andb]; [|auto].
    destruct (gtb _ _); cbn; repeat split; auto; discriminate.
Qed.

Lemma update_min_max_alert_fields m s :
  alert_config (update_min_max m s) = alert_config s /\
  last_warning_time (update_min_max m s) = last_warning_time s.
Proof. unfold update_min_max. repeat case_if; split; reflexivity. Qed.

Lemma alert_fires_ext m t s s' :
  alert_config s' = alert_config s ->
  last_warning_time s' = last_warning_time s ->
  alert_fires m t s' = alert_fires m t s.
Proof.
  unfold alert_config, alert_fires. intros H1 H2.
  injection H1 as -> -> -> ->. rewrite H2. reflexivity.
Qed.

(** An iteration of the loop notifies exactly when the gate opens on its
    reading, and then moves [last_warning_time] to its clock. *)
Lemma monitor_cycle_alerts start i s :
  let r := monitor_cycle start i s in
  alert_config (fst r) = alert_config s /\
  match reading i s with
  | Some m =>
      notifications (snd r)
      = (if alert_fires m (clock_alert i) s then 1%nat else 0%nat) /\
      last_warning_time (fst r)
      = (if alert_fires m (clock_alert i) s then clock_alert i
         else last_warning_time s)
  | None =>
      notifications (snd r) = 0%nat /\
      last_warning_time (fst r) = last_warning_time s
  end.
Proof.
  unfold monitor_cycle, reading.
  destruct (take_samples i (ohm_available s)) as [[[temps max_now] avg_now] ohm3].
  destruct max_now as [m|]; cbn zeta; [|repeat split; reflexivity].
  set (s0 := set_ohm_available ohm3 (set_storage_temperatures temps s)).
  set (s2 := update_history m (clock_elapsed i - start) (update_min_max m s0)).
  assert (Hc : alert_config s2 = alert_config s).
  { unfold s2, update_history.
    destruct (update_min_max_alert_fields m s0) as [H _].
    unfold alert_config in *. cbn. exact H. }
  assert (Hl : last_warning_time s2 = last_warning_time s).
  { unfold s2, update_history.
    destruct (update_min_max_alert_fields m s0) as [_ H]. cbn. exact H. }
  destruct (check_alerts_gate m (clock_alert i) s2) as (Hs & Hn & _).
  rewrite (alert_fires_ext _ _ _ _ Hc Hl) in Hs, Hn.
  destruct (check_alerts m (clock_alert i) s2) as [s3 alerts].
  cbn [fst snd] in *. subst s3.
  rewrite !notifications_app, log_reading_silent, Hn. cbn [notifications].
  destruct (alert_fires m (clock_alert i) s); cbn; repeat split; auto.
Qed.

Lemma alert_fires_true_iff m t s :
  alert_fires m t s = true <->
  alert_monitoring_active s = true /\
  ((critical_temp s <= m)%Q \/ (warning_temp s <= m)%Q) /\
  (warning_cooldown s < t - last_warning_time s)%Q.
Proof.
  unfold alert_fires.
  rewrite !andb_true_iff, orb_true_iff, !geb_true_iff, gtb_true_iff.
  tauto.
Qed.

Lemma monitor_run_cons start i rest s :
  monitor_run start (i :: rest) s
  = (fst (monitor_run start rest (fst (monitor_cycle start i s))),
     snd (monitor_cycle start i s)
       ++ snd (monitor_run start rest (fst (monitor_cycle start i s)))).
Proof.
  cbn [monitor_run].
  destruct (monitor_cycle start i s) as [s1 e1]. cbn [fst snd].
  destruct (monitor_run start rest s1) as [s2 e2]. reflexivity.
Qed.

(** C1. The cooldown is one clock for both alert classes and gates every
    alert side effect.  (1) In any iteration of the monitoring loop with
    a reading [m], the alert side effects (the scheduled
    [send_desktop_notification], which notifies, logs the alert and plays
    the sound) occur exactly once when alerts are on, [m] reaches the
    critical or the warning threshold and more than [warning_cooldown] has
    passed since [last_warning_time], and not at all otherwise; when they
    occur [last_warning_time] becomes the clock of the iteration, whichever
    threshold triggered, and otherwise it keeps its value.  (2) With a
    cooldown of 30 s, alerts on and the first spike outside the cooldown,
    three iterations whose readings reach the critical threshold, the
    second 10 s and the third 35 s after the first, give exactly one
    notification after the first two and exactly two after all three. *)
Theorem alert_cooldown_global :
  (forall start i s,
      let r := monitor_cycle start i s in
      match reading i s with
      | Some m =>
          let fires := alert_fires m (clock_alert i) s in
          (fires = true <->
           alert_monitoring_active s = true /\
           ((critical_temp s <= m)%Q \/ (warning_temp s <= m)%Q) /\
           (warning_cooldown s < clock_alert i - last_warning_time s)%Q) /\
          notifications (snd r) = (if fires then 1%nat else 0%nat) /\
          last_warning_time (fst r)
          = (if fires then clock_alert i else last_warning_time s)
      | None =>
          notifications (snd r) = 0%nat /\
          last_warning_time (fst r) = last_warning_time s
      end) /\
  (forall start s i1 i2 i3 m1 m2 m3,
      alert_monitoring_active s = true ->
      (warning_cooldown s == 30)%Q ->
      (warning_cooldown s < clock_alert i1 - last_warning_time s)%Q ->
      (clock_alert i2 == clock_alert i1 + 10)%Q ->
      (clock_alert i3 == clock_alert i1 + 35)%Q ->
      reading i1 s = Some m1 ->
      reading i2 (fst (monitor_run start [i1] s)) = Some m2 ->
      reading i3 (fst (monitor_run start [i1; i2] s)) = Some m3 ->
      (critical_temp s <= m1)%Q ->
      (critical_temp s <= m2)%Q ->
      (critical_temp s <= m3)%Q ->
      notifications (snd (monitor_run start [i1; i2] s)) = 1%nat /\
      notifications (snd (monitor_run start [i1; i2; i3] s)) = 2%nat).
Proof.
  split.
  - intros start i s r.
    pose proof (monitor_cycle_alerts start i s) as [_ H]. fold r in H.
    destruct (reading i s) as [m|]; [|exact H].
    cbn zeta. split; [apply alert_fires_true_iff|exact H].
  - intros start s i1 i2 i3 m1 m2 m3 Hon Hcd Hfirst H12 H13 R1 R2 R3 C1 C2 C3.
    rewrite !monitor_run_cons in *. cbn [monitor_run fst snd] in *.
    rewrite !app_nil_r in *.
    set (r1 := monitor_cycle start i1 s) in *.
    set (r2 := monitor_cycle start i2 (fst r1)) in *.
    set (r3 := monitor_cycle start i3 (fst r2)) in *.
    pose proof (monitor_cycle_alerts start i1 s) as [K1 A1].
    pose proof (monitor_cycle_alerts start i2 (fst r1)) as [K2 A2].
    pose proof (monitor_cycle_alerts start i3 (fst r2)) as [K3 A3].
    fold r1 in K1, A1, K2, A2. fold r2 in K2, A2, K3, A3. fold r3 in K3, A3.
    rewrite R1 in A1. rewrite R2 in A2. rewrite R3 in A3.
    assert (F1 : alert_fires m1 (clock_alert i1) s = true).
    { apply alert_fires_true_iff. auto. }
    rewrite F1 in A1. destruct A1 as [N1 L1].
    unfold alert_config in K1, K2. injection K1 as Ka1 Kc1 Kt1 Kw1.
    assert (F2 : alert_fires m2 (clock_alert i2) (fst r1) = false).
    { destruct (alert_fires m2 (clock_alert i2) (fst r1)) eqn:E; [|reflexivity].
      apply alert_fires_true_iff in E. destruct E as (_ & _ & E).
      rewrite L1, Kc1 in E. lra. }
    rewrite F2 in A2. destruct A2 as [N2 L2].
    injection K2 as Ka2 Kc2 Kt2 Kw2.
    assert (F3 : alert_fires m3 (clock_alert i3) (fst r2) = true).
    { apply alert_fires_true_iff. rewrite Ka2, Ka1, Kc2, Kc1, Kt2, Kt1, L2, L1.
      repeat split; auto. lra. }
    rewrite F3 in A3. destruct A3 as [N3 L3].
    rewrite !notifications_app, N1, N2, N3. split; reflexivity.
Qed.

Lemma alert_cooldown_global_witness :
  notifications (snd (monitor_run 1990 [Samples.spike 2000; Samples.spike 2010] init))
  = 1%nat /\
  notifications
    (snd (monitor_run 1990
            [Samples.spike 2000; Samples.spike 2010; Samples.spike 2035] init))
  = 2%nat.
Proof.
  apply (proj2 alert_cooldown_global 1990%Q init
           (Samples.spike 2000) (Samples.spike 2010) (Samples.spike 2035)
           32%Q 32%Q 32%Q);
    vm_compute; try reflexivity; intro; discriminate.
Defined.

(** ** Threshold settings *)



(** ** The e-mail scheduler *)

Lemma geb_false_iff a b : geb a b = false <-> (a < b)%Q.
Proof.
  unfold geb. split.
  - intros H. apply Qnot_le_lt. intros Hle.
    apply Qle_bool_iff in Hle. congruence.
  - intros H. destruct (Qle_bool b a) eqn:E; [|reflexivity].
    apply Qle_bool_iff in E. lra.
Qed.

(** [send_email_report] leaves the schedule and the window alone. *)
Lemma send_email_report_fields w ok s :
  let s' := snd (fst (send_email_report w ok s)) in
  last_email_time s' = last_email_time s /\
  email_interval s' = email_interval s /\
  min_temp s' = min_temp s /\
  max_temp s' = max_temp s /\
  snd (send_email_report w ok s) <> [].
Proof.
  unfold send_email_report.
  destruct (Reader.get_max_storage_temperature _ _) as [current_max ohm'].
  destruct (body_formats current_max s), ok; cbn; repeat split; discriminate.
Qed.

(** A check before the interval has elapsed does nothing. *)
Lemma email_scheduler_check_early now w ok s :
  (now - last_email_time s < email_interval s)%Q ->
  email_scheduler_check now w ok s = (s, []).
Proof.
  intros H. unfold email_scheduler_check.
  apply geb_false_iff in H. rewrite H. reflexivity.
Qed.

(** A check once the interval has elapsed: the window is reset; with data
    a report is attempted and the schedule restarts from this check,
    without data nothing else happens. *)
Lemma email_scheduler_check_due now w ok s :
  (email_interval s <= now - last_email_time s)%Q ->
  let r := email_scheduler_check now w ok s in
  min_temp (fst r) = PosInf /\
  max_temp (fst r) = NegInf /\
  email_interval (fst r) = email_interval s /\
  (if opt_dict_truthy (storage_temperatures s)
   then snd r = snd (send_email_report w ok s) /\ last_email_time (fst r) = now
   else snd r = [] /\ last_email_time (fst r) = last_email_time s).
Proof.
  intros H. unfold email_scheduler_check.
  apply geb_true_iff in H. rewrite H.
  destruct (opt_dict_truthy (storage_temperatures s)).
  - pose proof (send_email_report_fields w ok s) as (_ & Hi & _).
    destruct (send_email_report w ok s) as [[b s'] e]. cbn in *.
    repeat split; auto.
  - cbn. repeat split; reflexivity.
Qed.

(** An iteration of the monitoring loop does not touch the schedule. *)
Lemma monitor_cycle_schedule start i s :
  last_email_time (fst (monitor_cycle start i s)) = last_email_time s /\
  email_interval (fst (monitor_cycle start i s)) = email_interval s.
Proof.
  unfold monitor_cycle.
  destruct (take_samples i (ohm_available s)) as [[[temps max_now] avg_now] ohm3].
  destruct max_now as [m|]; cbn zeta; [|split; reflexivity].
  match goal with
  | |- context [check_alerts ?a ?b ?c] =>
      unfold check_alerts, update_history, update_min_max
  end.
  repeat case_if; split; reflexivity.
Qed.

(** C6. At a scheduler check at which the reporting interval has elapsed
    since [last_email_time], the window of the digest is reset
    ([min_temp] to plus infinity, [max_temp] to minus infinity) whatever
    the outcome of the delivery; and when a report was attempted, failed
    or not, [last_email_time] is the clock of this check, so that every
    later check that comes before a further full interval has elapsed does
    nothing: no second attempt. *)
Theorem email_window_reset_no_retry (now : Q) (w : Reader.wmi) (smtp_ok : bool)
    (s : state) :
  (email_interval s <= now - last_email_time s)%Q ->
  let r := email_scheduler_check now w smtp_ok s in
  min_temp (fst r) = PosInf /\
  max_temp (fst r) = NegInf /\
  (opt_dict_truthy (storage_temperatures s) = true ->
   snd r = snd (send_email_report w smtp_ok s) /\
   snd r <> [] /\
   last_email_time (fst r) = now /\
   forall s' now' w' smtp_ok',
     last_email_time s' = last_email_time (fst r) ->
     email_interval s' = email_interval (fst r) ->
     (now' - now < email_interval s)%Q ->
     email_scheduler_check now' w' smtp_ok' s' = (s', [])).
Proof.
  intros H r.
  destruct (email_scheduler_check_due now w smtp_ok s H) as (Hmin & Hmax & Hint & Hd).
  fold r in Hmin, Hmax, Hint, Hd.
  split; [exact Hmin|]. split; [exact Hmax|].
  intros Hdata. rewrite Hdata in Hd. destruct Hd as [He Hl].
  split; [exact He|]. split.
  { rewrite He. apply send_email_report_fields. }
  split; [exact Hl|].
  intros s' now' w' ok' Hl' Hi' Hlt.
  apply email_scheduler_check_early. rewrite Hl', Hi', Hl, Hint. exact Hlt.
Qed.

Lemma email_window_reset_no_retry_witness :
  (email_interval Samples.with_data
   <= 5000 - last_email_time Samples.with_data)%Q /\
  let r := email_scheduler_check 5000 (Samples.one_disk 45) false Samples.with_data in
  min_temp (fst r) = PosInf /\
  max_temp (fst r) = NegInf /\
  (opt_dict_truthy (storage_temperatures Samples.with_data) = true ->
   snd r = snd (send_email_report (Samples.one_disk 45) false Samples.with_data) /\
   snd r <> [] /\
   last_email_time (fst r) = 5000%Q /\
   forall s' now' w' smtp_ok',
     last_email_time s' = last_email_time (fst r) ->
     email_interval s' = email_interval (fst r) ->
     (now' - 5000 < email_interval Samples.with_data)%Q ->
     email_scheduler_check now' w' smtp_ok' s' = (s', [])).
Proof.
  assert (H : (email_interval Samples.with_data
               <= 5000 - last_email_time Samples.with_data)%Q)
    by (vm_compute; intro; discriminate).
  split; [exact H|].
  exact (email_window_reset_no_retry 5000%Q (Samples.one_disk 45) false
           Samples.with_data H).
Defined.

(** C10. At a scheduler check at which the interval has elapsed while
    [storage_temperatures] is empty or [None], nothing is sent and
    [last_email_time] keeps its value, yet the window is reset.  Hence at
    every later check, as long as nothing has moved [last_email_time] or
    [email_interval], the interval counts as elapsed again: the window is
    reset once more, and as soon as [storage_temperatures] holds data the
    report is attempted at that very check and [last_email_time] becomes
    its clock. *)
Theorem email_check_without_data (now : Q) (w : Reader.wmi) (smtp_ok : bool)
    (s : state) :
  (email_interval s <= now - last_email_time s)%Q ->
  opt_dict_truthy (storage_temperatures s) = false ->
  let r := email_scheduler_check now w smtp_ok s in
  snd r = [] /\
  last_email_time (fst r) = last_email_time s /\
  email_interval (fst r) = email_interval s /\
  min_temp (fst r) = PosInf /\
  max_temp (fst r) = NegInf /\
  forall s' now' w' smtp_ok',
    last_email_time s' = last_email_time (fst r) ->
    email_interval s' = email_interval (fst r) ->
    (now <= now')%Q ->
    let r' := email_scheduler_check now' w' smtp_ok' s' in
    min_temp (fst r') = PosInf /\
    max_temp (fst r') = NegInf /\
    (opt_dict_truthy (storage_temperatures s') = false ->
     snd r' = [] /\
     last_email_time (fst r') = last_email_time s /\
     email_interval (fst r') = email_interval s) /\
    (opt_dict_truthy (storage_temperatures s') = true ->
     snd r' = snd (send_email_report w' smtp_ok' s') /\
     snd r' <> [] /\
     last_email_time (fst r') = now').
Proof.
  intros H Hno r.
  destruct (email_scheduler_check_due now w smtp_ok s H) as (Hmin & Hmax & Hint & Hd).
  fold r in Hmin, Hmax, Hint, Hd. rewrite Hno in Hd. destruct Hd as [He Hl].
  repeat (split; [assumption|]).
  intros s' now' w' ok' Hl' Hi' Hlater r'.
  assert (H' : (email_interval s' <= now' - last_email_time s')%Q).
  { rewrite Hl', Hi', Hl, Hint. lra. }
  destruct (email_scheduler_check_due now' w' ok' s' H')
    as (Hmin' & Hmax' & Hint' & Hd').
  fold r' in Hmin', Hmax', Hint', Hd'.
  split; [exact Hmin'|]. split; [exact Hmax'|]. split.
  - intros E. rewrite E in Hd'. destruct Hd' as [A B].
    split; [exact A|]. rewrite B, Hint', Hl', Hi', Hl, Hint. split; reflexivity.
  - intros E. rewrite E in Hd'. destruct Hd' as [A B].
    split; [exact A|]. split; [|exact B].
    rewrite A. apply send_email_report_fields.
Qed.

Lemma email_check_without_data_witness :
  (email_interval Samples.no_data <= 5000 - last_email_time Samples.no_data)%Q /\
  opt_dict_truthy (storage_temperatures Samples.no_data) = false /\
  let r := email_scheduler_check 5000 (Samples.one_disk 45) true Samples.no_data in
  snd r = [] /\
  last_email_time (fst r) = last_email_time Samples.no_data.
Proof.
  assert (H : (email_interval Samples.no_data
               <= 5000 - last_email_time Samples.no_data)%Q)
    by (vm_compute; intro; discriminate).
  split; [exact H|]. split; [reflexivity|].
  pose proof (email_check_without_data 5000%Q (Samples.one_disk 45) true
                Samples.no_data H eq_refl) as K.
  cbv zeta in K. destruct K as (K1 & K2 & _).
  split; [exact K1 | exact K2].
Defined.

(** ** Dictionaries *)

Section DictFacts.
Context {V : Type}.
Implicit Types (d : dict V) (k : string) (v : V).

Lemma dict_get_set_eq k v d : dict_get k (dict_set k v d) = Some v.
Proof.
  induction d as [|[k' v'] d IH]; cbn.
  - rewrite String.eqb_refl. reflexivity.
  - destruct (String.eqb k k') eqn:E; cbn.
    + rewrite String.eqb_refl. reflexivity.
    + rewrite E. exact IH.
Qed.

Lemma dict_get_set_ne k k' v d :
  k <> k' -> dict_get k' (dict_set k v d) = dict_get k' d.
Proof.
  intros Hne. induction d as [|[k0 v0] d IH]; cbn.
  - apply String.eqb_neq in Hne. rewrite String.eqb_sym, Hne. reflexivity.
  - destruct (String.eqb k k0) eqn:E; cbn.
    + apply String.eqb_eq in E. subst k0.
      assert (E' : String.eqb k' k = false)
        by (apply String.eqb_neq; congruence).
      rewrite E'. reflexivity.
    + destruct (String.eqb k' k0); [reflexivity|exact IH].
Qed.

Lemma dict_get_set k k' v d :
  dict_get k' (dict_set k v d)
  = if String.eqb k k' then Some v else dict_get k' d.
Proof.
  destruct (String.eqb_spec k k') as [->|Hne].
  - apply dict_get_set_eq.
  - apply dict_get_set_ne, Hne.
Qed.

Lemma dict_get_None k d : dict_get k d = None <-> ~ In k (keys d).
Proof.
  induction d as [|[k' v'] d IH]; cbn.
  - tauto.
  - destruct (String.eqb_spec k k') as [->|Hne].
    + split; [discriminate|]. intros H. exfalso. apply H. left. reflexivity.
    + rewrite IH. split.
      * intros H [E|Hin]; [congruence|tauto].
      * intros H Hin. apply H. right. exact Hin.
Qed.

Lemma dict_get_In k v d : dict_get k d = Some v -> In (k, v) d.
Proof.
  induction d as [|[k' v'] d IH]; cbn; [discriminate|].
  destruct (String.eqb_spec k k') as [->|Hne].
  - intros [= ->]. left. reflexivity.
  - intros H. right. apply IH, H.
Qed.

Lemma In_dict_get k v d : NoDup (keys d) -> In (k, v) d -> dict_get k d = Some v.
Proof.
  induction d as [|[k' v'] d IH]; cbn; [tauto|].
  rewrite NoDup_cons. intros [Hnotin Hnd] [E|Hin].
  - injection E as -> ->. rewrite String.eqb_refl. reflexivity.
  - destruct (String.eqb_spec k k') as [->|Hne].
    + exfalso. apply Hnotin. apply list_elem_of_In.
      change (In (fst (k', v)) (map fst d)). apply in_map, Hin.
    + apply IH; assumption.
Qed.

(** A new key goes to the end, a present key stays where it is. *)
Lemma keys_dict_set k v d :
  keys (dict_set k v d)
  = match dict_get k d with
    | Some _ => keys d
    | None => keys d ++ [k]
    end.
Proof.
  induction d as [|[k' v'] d IH]; cbn; [reflexivity|].
  destruct (String.eqb_spec k k') as [->|Hne]; cbn; [reflexivity|].
  unfold keys in IH. rewrite IH. destruct (dict_get k d); reflexivity.
Qed.

Lemma NoDup_keys_dict_set k v d :
  NoDup (keys d) -> NoDup (keys (dict_set k v d)).
Proof.
  intros Hnd. rewrite keys_dict_set.
  destruct (dict_get k d) eqn:E; [exact Hnd|].
  apply NoDup_app. split; [exact Hnd|]. split.
  - intros x Hx Hx'. apply list_elem_of_In in Hx.
    apply list_elem_of_In in Hx'. destruct Hx' as [<-|[]].
    apply dict_get_None in E. tauto.
  - apply NoDup_singleton.
Qed.

Lemma In_dict_set k v k' v' d :
  In (k', v') (dict_set k v d) -> (k', v') = (k, v) \/ In (k', v') d.
Proof.
  induction d as [|[k0 v0] d IH]; cbn.
  - intros [E|[]]. left. congruence.
  - destruct (String.eqb k k0); cbn.
    + intros [E|H]; [left; congruence|right; right; exact H].
    + intros [E|H]; [right; left; exact E|].
      destruct (IH H) as [E|Hin]; [left; exact E|right; right; exact Hin].
Qed.

Lemma dict_truthy_true d : dict_truthy d = true <-> d <> [].
Proof. destruct d; cbn; split; congruence. Qed.

End DictFacts.

(** ** The sensor reader *)

Import Reader.

Lemma organize_step (sensors : list temp_sensor) (d0 : dict Q) (k : string) :
  dict_get k
    (fold_left
       (fun storage_temps sensor =>
          dict_set (device_name sensor) (value sensor - primary_offset)%Q storage_temps)
       sensors d0)
  = match last_reading k sensors with
    | Some sensor => Some (value sensor - primary_offset)%Q
    | None => dict_get k d0
    end.
Proof.
  revert d0. induction sensors as [|x rest IH]; intros d0; [reflexivity|].
  cbn [fold_left last_reading]. rewrite IH.
  destruct (last_reading k rest); [reflexivity|].
  rewrite dict_get_set. destruct (String.eqb (device_name x) k); reflexivity.
Qed.

Lemma organize_get (sensors : list temp_sensor) (k : string) :
  dict_get k (organize sensors)
  = match last_reading k sensors with
    | Some sensor => Some (value sensor - primary_offset)%Q
    | None => None
    end.
Proof. unfold organize. rewrite organize_step. reflexivity. Qed.

Lemma organize_NoDup (sensors : list temp_sensor) : NoDup (keys (organize sensors)).
Proof.
  unfold organize.
  assert (H : forall d0 : dict Q, NoDup (keys d0) ->
            NoDup (keys (fold_left
              (fun storage_temps sensor =>
                 dict_set (device_name sensor) (value sensor - primary_offset)%Q
                          storage_temps) sensors d0))).
  { induction sensors as [|x rest IH]; intros d0 Hd; [exact Hd|].
    cbn [fold_left]. apply IH, NoDup_keys_dict_set, Hd. }
  apply H. constructor.
Qed.

Lemma last_reading_Some k sensors x :
  last_reading k sensors = Some x -> In x sensors /\ device_name x = k.
Proof.
  induction sensors as [|y rest IH]; cbn; [discriminate|].
  destruct (last_reading k rest) as [z|].
  - intros [= <-]. destruct (IH eq_refl) as [Hin Hk]. auto.
  - destruct (String.eqb_spec (device_name y) k) as [E|E]; [|discriminate].
    intros [= <-]. auto.
Qed.

Lemma last_reading_None k sensors :
  last_reading k sensors = None <-> ~ In k (map device_name sensors).
Proof.
  induction sensors as [|y rest IH]; cbn; [tauto|].
  destruct (last_reading k rest) as [z|].
  - split; [discriminate|]. intros H. exfalso.
    assert (Hz : ~ In k (map device_name rest)) by tauto.
    apply IH in Hz. discriminate.
  - destruct (String.eqb_spec (device_name y) k) as [E|E].
    + split; [discriminate|]. tauto.
    + split; [|reflexivity]. intros _ [H|H]; [congruence|].
      apply IH in H; [exact H|reflexivity].
Qed.

(** The device names of the mapping are those of the sensors. *)
Lemma organize_keys (sensors : list temp_sensor) (k : string) :
  In k (keys (organize sensors)) <-> In k (map device_name sensors).
Proof.
  destruct (dict_get k (organize sensors)) eqn:E.
  - split; intros _.
    + rewrite organize_get in E.
      destruct (last_reading k sensors) as [x|] eqn:L; [|discriminate].
      apply last_reading_Some in L. destruct L as [Hin <-].
      apply in_map, Hin.
    + apply dict_get_In in E.
      change (In (fst (k, q)) (map fst (organize sensors))). apply in_map, E.
  - pose proof E as E'. apply dict_get_None in E'.
    rewrite organize_get in E.
    destruct (last_reading k sensors) as [x|] eqn:L; [discriminate|].
    apply last_reading_None in L. tauto.
Qed.

Lemma organize_length (sensors : list temp_sensor) :
  length (organize sensors) = length (remove_dups (map device_name sensors)).
Proof.
  transitivity (length (keys (organize sensors))).
  { unfold keys. rewrite length_map. reflexivity. }
  apply Permutation_length, NoDup_Permutation.
  - apply organize_NoDup.
  - apply NoDup_remove_dups.
  - intros k. rewrite elem_of_remove_dups, !list_elem_of_In. apply organize_keys.
Qed.

Lemma organize_nonempty (sensors : list temp_sensor) :
  sensors <> [] -> dict_truthy (organize sensors) = true.
Proof.
  intros H. destruct sensors as [|x rest]; [congruence|].
  apply dict_truthy_true. intros E.
  assert (Hin : In (device_name x) (keys (organize (x :: rest)))).
  { apply organize_keys. left. reflexivity. }
  rewrite E in Hin. exact Hin.
Qed.

Lemma organize_In (sensors : list temp_sensor) (k : string) (v : Q) :
  In (k, v) (organize sensors) ->
  exists x, In x sensors /\ device_name x = k /\ v = (value x - primary_offset)%Q.
Proof.
  intros Hin. apply In_dict_get in Hin; [|apply organize_NoDup].
  rewrite organize_get in Hin.
  destruct (last_reading k sensors) as [x|] eqn:L; [|discriminate].
  injection Hin as <-. apply last_reading_Some in L. destruct L. eauto.
Qed.

Lemma all_temp_sensors_In (sensors : list wmi_sensor) (x : temp_sensor) :
  In x (all_temp_sensors sensors) ->
  exists sensor, In sensor sensors /\
    SensorType sensor = "Temperature" /\
    Value sensor = Some (value x) /\
    Name sensor = name x /\
    parent x = default "Unknown" (Parent sensor).
Proof.
  induction sensors as [|s rest IH]; cbn; [tauto|].
  destruct (Value s) as [v|] eqn:Ev.
  - destruct (String.eqb_spec (SensorType s) "Temperature") as [Et|Et].
    + intros [<-|Hin].
      * exists s. cbn. destruct (Parent s); auto 6.
      * destruct (IH Hin) as (s' & H & H'). exists s'. auto.
    + intros Hin. destruct (IH Hin) as (s' & H & H'). exists s'. auto.
  - intros Hin. destruct (IH Hin) as (s' & H & H'). exists s'. auto.
Qed.

Lemma alternative_scan_inv (devices : list string) (sensors : list wmi_sensor) :
  NoDup (keys (alternative_scan devices sensors)) /\
  forall k v, In (k, v) (alternative_scan devices sensors) ->
    exists sensor raw, In sensor sensors /\
      SensorType sensor = "Temperature" /\
      Value sensor = Some raw /\
      Parent sensor = Some k /\
      in_list k devices = true /\
      v = (raw - alternative_offset)%Q.
Proof.
  unfold alternative_scan.
  set (step := fun (storage_temps : dict Q) (sensor : wmi_sensor) => _).
  assert (H : forall d0 : dict Q,
    NoDup (keys d0) ->
    NoDup (keys (fold_left step sensors d0)) /\
    forall k v, In (k, v) (fold_left step sensors d0) ->
      In (k, v) d0 \/
      exists sensor raw, In sensor sensors /\
        SensorType sensor = "Temperature" /\
        Value sensor = Some raw /\
        Parent sensor = Some k /\
        in_list k devices = true /\
        v = (raw - alternative_offset)%Q).
  { induction sensors as [|s rest IH]; intros d0 Hd; cbn [fold_left].
    - split; [exact Hd|]. auto.
    - assert (Hstep : NoDup (keys (step d0 s)) /\
               forall k v, In (k, v) (step d0 s) ->
                 In (k, v) d0 \/
                 (SensorType s = "Temperature" /\
                  exists raw, Value s = Some raw /\ Parent s = Some k /\
                    in_list k devices = true /\
                    v = (raw - alternative_offset)%Q)).
      { unfold step.
        destruct (Value s) as [raw|], (Parent s) as [p|]; auto.
        destruct (String.eqb_spec (SensorType s) "Temperature") as [Et|Et];
          cbn [andb]; auto.
        destruct (in_list p devices) eqn:Ep; auto.
        split; [apply NoDup_keys_dict_set, Hd|].
        intros k v Hin. apply In_dict_set in Hin.
        destruct Hin as [[= -> ->]|Hin]; [right|left; exact Hin].
        split; [exact Et|]. exists raw. auto. }
      destruct Hstep as [Hnd Hin0].
      destruct (IH (step d0 s) Hnd) as [Hnd' Hin'].
      split; [exact Hnd'|].
      intros k v Hin. destruct (Hin' k v Hin) as [Hs|(s' & raw & Hs' & Hrest)].
      + destruct (Hin0 k v Hs) as [Hd0|(Et & raw & Hv & Hp & Hl & Hval)];
          [left; exact Hd0|].
        right. exists s, raw. cbn. auto 10.
      + right. exists s', raw. cbn. auto. }
  destruct (H [] ltac:(constructor)) as [Hnd Hin].
  split; [exact Hnd|].
  intros k v Hkv. destruct (Hin k v Hkv) as [[]|Hex]. exact Hex.
Qed.

(** The shape of a successful sample: it comes from the primary path
    when some sensor matches, from the alternative path otherwise. *)
Lemma get_storage_temperatures_Some (ohm : bool) (w : wmi) (d : dict Q) :
  fst (get_storage_temperatures ohm w) = Some d ->
  exists sensors, Sensor w = Some sensors /\
    let matched := storage_sensors (all_temp_sensors sensors) in
    (matched <> [] /\ d = organize matched) \/
    (matched = [] /\ exists hardware_items,
        Hardware w = Some hardware_items /\
        d = alternative_scan (storage_devices hardware_items) sensors /\
        d <> []).
Proof.
  unfold get_storage_temperatures.
  destruct ohm; cbn [negb]; [|discriminate].
  destruct (Sensor w) as [sensors|]; [|discriminate].
  intros H. exists sensors. split; [reflexivity|]. cbn zeta.
  destruct (storage_sensors (all_temp_sensors sensors)) as [|x rest] eqn:Em.
  - right. split; [reflexivity|].
    cbn in H. unfold _find_storage_temps_alternative in H.
    destruct (Hardware w) as [hardware_items|]; [|discriminate].
    exists hardware_items. split; [reflexivity|].
    destruct (dict_truthy _) eqn:Et; [|discriminate].
    injection H as <-. split; [reflexivity|]. apply dict_truthy_true, Et.
  - left. split; [discriminate|].
    rewrite organize_nonempty in H by discriminate. cbn [fst] in H.
    injection H as <-. reflexivity.
Qed.

(** A sample with readings is a non-empty mapping with distinct names. *)
Lemma sample_NoDup (ohm : bool) (w : wmi) (d : dict Q) :
  fst (get_storage_temperatures ohm w) = Some d -> d <> [] /\ NoDup (keys d).
Proof.
  intros H. apply get_storage_temperatures_Some in H.
  destruct H as (sensors & _ & [[Hne ->]|(_ & hw & _ & -> & Hne)]).
  - split; [|apply organize_NoDup].
    apply dict_truthy_true, organize_nonempty, Hne.
  - split; [exact Hne|]. apply alternative_scan_inv.
Qed.

Lemma alternative_scan_get (devices : list string) (sensors : list wmi_sensor)
    (k : string) :
  dict_get k (alternative_scan devices sensors)
  = match last_under k devices sensors with
    | Some raw => Some (raw - alternative_offset)%Q
    | None => None
    end.
Proof.
  unfold alternative_scan.
  set (step := fun (storage_temps : dict Q) (sensor : wmi_sensor) => _).
  assert (H : forall d0 : dict Q,
    dict_get k (fold_left step sensors d0)
    = match last_under k devices sensors with
      | Some raw => Some (raw - alternative_offset)%Q
      | None => dict_get k d0
      end).
  { induction sensors as [|s rest IH]; intros d0; [reflexivity|].
    cbn [fold_left last_under]. rewrite IH.
    destruct (last_under k devices rest); [reflexivity|].
    unfold step.
    destruct (Value s) as [v|], (Parent s) as [p|]; try reflexivity.
    destruct (String.eqb (SensorType s) "Temperature"); cbn [andb];
      [|reflexivity].
    destruct (in_list p devices); cbn [andb]; [|reflexivity].
    rewrite dict_get_set. destruct (String.eqb p k); reflexivity. }
  rewrite H. reflexivity.
Qed.

(** The raw value that the alternative path keeps for a node comes from a
    temperature sensor below that node. *)
Lemma last_under_Some (p : string) (devices : list string)
    (sensors : list wmi_sensor) (raw : Q) :
  last_under p devices sensors = Some raw ->
  exists sensor, In sensor sensors /\
    SensorType sensor = "Temperature" /\
    Value sensor = Some raw /\
    Parent sensor = Some p /\
    in_list p devices = true.
Proof.
  induction sensors as [|s rest IH]; [discriminate|].
  cbn [last_under]. destruct (last_under p devices rest) as [later|].
  - intros [= <-]. destruct (IH eq_refl) as (sensor & Hin & H).
    exists sensor. split; [right; exact Hin | exact H].
  - destruct (Value s) as [v|] eqn:Ev; [|discriminate].
    destruct (Parent s) as [p'|] eqn:Ep; [|discriminate].
    destruct (String.eqb (SensorType s) "Temperature") eqn:Et; [|discriminate].
    destruct (in_list p' devices) eqn:Ed; [|discriminate].
    destruct (String.eqb p' p) eqn:Epp; [|discriminate].
    cbn [andb]. intros [= <-].
    apply String.eqb_eq in Et. apply String.eqb_eq in Epp. subst p'.
    exists s. split; [left; reflexivity|]. auto.
Qed.

(** A temperature sensor below a storage node always leaves a reading
    for that node. *)
Lemma last_under_found (p : string) (devices : list string)
    (sensors : list wmi_sensor) (sensor : wmi_sensor) (raw : Q) :
  In sensor sensors ->
  SensorType sensor = "Temperature" ->
  Value sensor = Some raw ->
  Parent sensor = Some p ->
  in_list p devices = true ->
  exists raw', last_under p devices sensors = Some raw'.
Proof.
  intros Hin Ht Hv Hp Hd.
  induction sensors as [|s rest IH]; [destruct Hin|].
  cbn [last_under]. destruct (last_under p devices rest) as [later|] eqn:El.
  - exists later. reflexivity.
  - destruct Hin as [->|Hin].
    + rewrite Hv, Hp, Ht, Hd. change (String.eqb "Temperature" "Temperature") with true.
      cbn [andb]. rewrite String.eqb_refl. exists raw. reflexivity.
    + destruct (IH Hin) as (raw' & E). discriminate E.
Qed.

(** A hardware node whose name carries a keyword of the alternative path
    is one of the storage devices. *)
Lemma storage_devices_in (hardware_items : list wmi_hardware)
    (hardware : wmi_hardware) :
  In hardware hardware_items ->
  any_keyword_in alternative_keywords (lower (hw_Name hardware)) = true ->
  in_list (hw_Name hardware) (storage_devices hardware_items) = true.
Proof.
  intros Hin Hk. unfold in_list, storage_devices.
  apply existsb_exists. exists (hw_Name hardware).
  split; [|apply String.eqb_refl].
  apply in_map, List.filter_In. auto.
Qed.

(** C2. Every value that a sample returns is a raw sensor value minus one
    fixed constant, and each path applies its constant to every reading
    it matches.  (1) On any successful sample: when some sensor matches
    the storage vocabulary (primary path) each returned value is the raw
    value of a temperature sensor minus 13; otherwise (alternative path)
    each returned value is the raw value of a temperature sensor below
    the device it is filed under, minus 10; the two constants differ.
    (2) The primary path is taken as soon as one sensor matches: the
    sample then has an entry for the device of every matched sensor, and
    the entry is the value of a matched sensor of that device minus 13.
    (3) The alternative path is taken when no sensor matches: for every
    temperature sensor with a value whose parent is a hardware node with
    a keyword of the alternative vocabulary in its name, the sample has
    an entry for that node, and the entry is the raw value of a
    temperature sensor below that node minus 10. *)
Theorem calibration_offsets :
  (forall (ohm : bool) (w : wmi) (d : dict Q),
     fst (get_storage_temperatures ohm w) = Some d ->
     exists sensors, Sensor w = Some sensors /\
       let matched := storage_sensors (all_temp_sensors sensors) in
       (matched <> [] ->
        forall k v, In (k, v) d ->
          exists sensor raw, In sensor sensors /\
            SensorType sensor = "Temperature" /\
            Value sensor = Some raw /\
            v = (raw - 13)%Q) /\
       (matched = [] ->
        forall k v, In (k, v) d ->
          exists sensor raw, In sensor sensors /\
            SensorType sensor = "Temperature" /\
            Value sensor = Some raw /\
            Parent sensor = Some k /\
            v = (raw - 10)%Q) /\
       primary_offset = 13%Q /\
       alternative_offset = 10%Q /\
       ~ (primary_offset == alternative_offset)%Q) /\
  (forall (w : wmi) (sensors : list wmi_sensor),
     Sensor w = Some sensors ->
     let matched := storage_sensors (all_temp_sensors sensors) in
     (forall x, In x matched ->
        exists d y,
          fst (get_storage_temperatures true w) = Some d /\
          In y matched /\
          device_name y = device_name x /\
          dict_get (device_name x) d = Some (value y - 13)%Q) /\
     (matched = [] ->
      forall hardware_items hardware sensor raw,
        Hardware w = Some hardware_items ->
        In hardware hardware_items ->
        any_keyword_in alternative_keywords (lower (hw_Name hardware)) = true ->
        In sensor sensors ->
        SensorType sensor = "Temperature" ->
        Value sensor = Some raw ->
        Parent sensor = Some (hw_Name hardware) ->
        exists d sensor' raw',
          fst (get_storage_temperatures true w) = Some d /\
          In sensor' sensors /\
          SensorType sensor' = "Temperature" /\
          Value sensor' = Some raw' /\
          Parent sensor' = Some (hw_Name hardware) /\
          dict_get (hw_Name hardware) d = Some (raw' - 10)%Q)).
Proof.
  split.
  - intros ohm w d H. apply get_storage_temperatures_Some in H.
    destruct H as (sensors & Hs & H). exists sensors. split; [exact Hs|].
    cbn zeta in *. split; [|split; [|repeat split; [intro E; discriminate E]]].
    + intros Hne k v Hin.
      destruct H as [[_ ->]|[E _]]; [|contradiction].
      apply organize_In in Hin. destruct Hin as (x & Hx & _ & ->).
      apply List.filter_In in Hx. destruct Hx as [Hx _].
      apply all_temp_sensors_In in Hx.
      destruct Hx as (sensor & Hin & Ht & Hv & _). exists sensor, (value x). auto.
    + intros He k v Hin.
      destruct H as [[Hne _]|(_ & hw & _ & -> & _)]; [contradiction|].
      apply alternative_scan_inv in Hin.
      destruct Hin as (sensor & raw & H1 & H2 & H3 & H4 & _ & H6).
      exists sensor, raw. auto 6.
  - intros w sensors Hs matched. split.
    + intros x Hx.
      assert (Hne : matched <> []) by (intros E; rewrite E in Hx; destruct Hx).
      destruct (last_reading (device_name x) matched) as [y|] eqn:El.
      * exists (organize matched), y.
        destruct (last_reading_Some _ _ _ El) as [Hin Hdn].
        split; [|split; [exact Hin|split; [exact Hdn|]]].
        -- unfold get_storage_temperatures. cbn [negb]. rewrite Hs.
           fold matched. rewrite organize_nonempty by exact Hne. reflexivity.
        -- rewrite organize_get, El. reflexivity.
      * exfalso. apply last_reading_None in El. apply El, in_map, Hx.
    + intros He hardware_items hardware sensor raw Hh Hin Hk Hsin Ht Hv Hp.
      pose proof (storage_devices_in hardware_items hardware Hin Hk) as Hd.
      destruct (last_under_found _ _ sensors sensor raw Hsin Ht Hv Hp Hd)
        as (raw' & Hl).
      destruct (last_under_Some _ _ _ _ Hl) as (sensor' & H1 & H2 & H3 & H4 & _).
      exists (alternative_scan (storage_devices hardware_items) sensors),
        sensor', raw'.
      assert (Hg : dict_get (hw_Name hardware)
                     (alternative_scan (storage_devices hardware_items) sensors)
                   = Some (raw' - 10)%Q)
        by (rewrite alternative_scan_get, Hl; reflexivity).
      split; [|auto 6].
      unfold get_storage_temperatures. cbn [negb]. rewrite Hs.
      fold matched. rewrite He. cbn [organize fold_left dict_truthy fst].
      unfold _find_storage_temps_alternative. rewrite Hh.
      destruct (alternative_scan (storage_devices hardware_items) sensors);
        [discriminate Hg | reflexivity].
Qed.

Lemma calibration_offsets_witness :
  (exists d, fst (get_storage_temperatures true (Samples.one_disk 45)) = Some d /\
     dict_get "Samsung SSD 970 EVO" d = Some (45 - 13)%Q) /\
  (exists d, fst (get_storage_temperatures true (Samples.wd_disk 45)) = Some d /\
     dict_get "WDC WD10EZEX" d = Some (45 - 10)%Q).
Proof.
  destruct calibration_offsets as [_ H]. split.
  - destruct (H (Samples.one_disk 45) _ eq_refl) as [Hp _].
    destruct (Hp {| name := "Temperature"; value := 45;
                    parent := "Samsung SSD 970 EVO" |})
      as (d & y & Hd & Hy & _ & Hg).
    { vm_compute. left. reflexivity. }
    vm_compute in Hy. destruct Hy as [<-|[]].
    exists d. split; [exact Hd | exact Hg].
  - destruct (H (Samples.wd_disk 45) _ eq_refl) as [_ Ha].
    destruct (Ha eq_refl [ {| hw_Name := "WDC WD10EZEX" |} ]
                {| hw_Name := "WDC WD10EZEX" |}
                {| SensorType := "Temperature"; Value := Some 45%Q;
                   Name := "Temperature"; Parent := Some "WDC WD10EZEX" |}
                45%Q eq_refl (or_introl eq_refl) eq_refl (or_introl eq_refl)
                eq_refl eq_refl eq_refl)
      as (d & sensor' & raw' & Hd & Hin & _ & Hv & _ & Hg).
    destruct Hin as [<-|[]]. injection Hv as <-.
    exists d. split; [exact Hd | exact Hg].
Defined.

Lemma last_reading_app k pre x post :
  device_name x = k ->
  (forall y, In y post -> device_name y <> k) ->
  last_reading k (pre ++ x :: post) = Some x.
Proof.
  intros Hx Hpost. induction pre as [|a pre IH]; cbn.
  - assert (Hn : last_reading k post = None).
    { apply last_reading_None. intros Hin. apply in_map_iff in Hin.
      destruct Hin as (y & Hy & Hin). exact (Hpost y Hin Hy). }
    rewrite Hn. apply String.eqb_eq in Hx. rewrite Hx. reflexivity.
  - rewrite IH. reflexivity.
Qed.

(** C9. Sensors that resolve to the same device name share one entry of
    the sample, and the last of them in enumeration order decides its
    value.  (1) For a WMI answer in which some sensor matches: the
    returned mapping has no two entries with the same device name; the
    entry of a name holds the calibrated value of the last matching sensor
    filed under that name (in particular when two sensors [s1], then
    [s2], are filed under one name and no later one is, the entry holds the
    value of [s2]); the mapping has as many entries as there are distinct
    device names; and the average and the maximum are taken over these
    entries: the average divides by the number of distinct names.  (2) A
    mapping that comes from the alternative path has no two entries with
    the same name either, and the entry of a hardware node holds the
    calibrated value of the last temperature sensor below it. *)
Theorem last_write_wins (sensors : list wmi_sensor)
    (hardware : option (list wmi_hardware)) :
  let w := {| Sensor := Some sensors; Hardware := hardware |} in
  let matched := storage_sensors (all_temp_sensors sensors) in
  (matched <> [] ->
   exists d,
     get_storage_temperatures true w = (Some d, true) /\
     NoDup (keys d) /\
     (forall k, dict_get k d
                = match last_reading k matched with
                  | Some sensor => Some (value sensor - 13)%Q
                  | None => None
                  end) /\
     (forall pre s1 mid s2 post,
         matched = pre ++ s1 :: mid ++ s2 :: post ->
         device_name s1 = device_name s2 ->
         (forall y, In y post -> device_name y <> device_name s2) ->
         dict_get (device_name s2) d = Some (value s2 - 13)%Q) /\
     length d = length (remove_dups (map device_name matched)) /\
     fst (get_average_storage_temperature true w)
     = Some (sum (values d)
             / inject_Z (Z.of_nat (length (remove_dups (map device_name matched)))))%Q /\
     fst (get_max_storage_temperature true w) = max_by (fun v => v) (values d)) /\
  (matched = [] ->
   forall d,
     fst (get_storage_temperatures true w) = Some d ->
     NoDup (keys d) /\
     exists hardware_items,
       hardware = Some hardware_items /\
       forall k, dict_get k d
                 = match last_under k (storage_devices hardware_items) sensors with
                   | Some raw => Some (raw - 10)%Q
                   | None => None
                   end).
Proof.
  intros w matched. split.
  - intros Hne. exists (organize matched).
    assert (Hs : get_storage_temperatures true w = (Some (organize matched), true)).
    { unfold get_storage_temperatures, w. cbn [negb Sensor].
      fold matched. rewrite organize_nonempty by exact Hne. reflexivity. }
    split; [exact Hs|]. split; [apply organize_NoDup|].
    split; [intros k; apply organize_get|]. split.
    { intros pre s1 mid s2 post Hm Hsame Hpost.
      rewrite organize_get, Hm.
      replace (pre ++ s1 :: mid ++ s2 :: post) with ((pre ++ s1 :: mid) ++ s2 :: post)
        by (rewrite <- app_assoc; reflexivity).
      rewrite (last_reading_app _ _ s2 post eq_refl Hpost). reflexivity. }
    split; [apply organize_length|].
    unfold get_average_storage_temperature, get_max_storage_temperature.
    rewrite Hs, organize_nonempty by exact Hne. cbn [fst].
    split; [|reflexivity].
    unfold average, len. rewrite organize_length. reflexivity.
  - intros He d Hd.
    split; [apply (sample_NoDup true w d Hd)|].
    apply get_storage_temperatures_Some in Hd.
    destruct Hd as (sensors' & Hs & [[Hne _]|(_ & hw & Hh & -> & _)]).
    + cbn in Hs. injection Hs as <-. contradiction.
    + cbn in Hs, Hh. injection Hs as <-.
      exists hw. split; [exact Hh|]. intros k. apply alternative_scan_get.
Qed.

Lemma last_write_wins_witness :
  storage_sensors (all_temp_sensors Samples.two_sensors) <> [] /\
  exists d,
    get_storage_temperatures true
      {| Sensor := Some Samples.two_sensors; Hardware := Some [] |}
    = (Some d, true) /\
    dict_get "Samsung SSD 970 EVO" d = Some (50 - 13)%Q /\
    length d = 1%nat.
Proof.
  assert (H : storage_sensors (all_temp_sensors Samples.two_sensors) <> [])
    by (vm_compute; discriminate).
  split; [exact H|].
  destruct (proj1 (last_write_wins Samples.two_sensors (Some [])) H)
    as (d & Hs & _ & Hget & _ & Hlen & _).
  exists d. split; [exact Hs|]. split.
  - rewrite Hget. reflexivity.
  - rewrite Hlen. reflexivity.
Defined.

(** ** Average and maximum *)

Lemma max_from_In {A} (key : A -> Q) (b : A) (xs : list A) :
  In (max_from key b xs) (b :: xs).
Proof.
  revert b. induction xs as [|x xs IH]; intros b; cbn [max_from].
  - left. reflexivity.
  - destruct (IH (if gtb (key x) (key b) then x else b)) as [E|Hin].
    + rewrite <- E. destruct (gtb (key x) (key b)); cbn; auto.
    + right. right. exact Hin.
Qed.

Lemma max_from_ge {A} (key : A -> Q) (b : A) (xs : list A) (y : A) :
  In y (b :: xs) -> (key y <= key (max_from key b xs))%Q.
Proof.
  revert b y. induction xs as [|x xs IH]; intros b y; cbn [max_from].
  - intros [<-|[]]. lra.
  - set (b' := if gtb (key x) (key b) then x else b).
    assert (Hb : (key b <= key b')%Q /\ (key x <= key b')%Q).
    { unfold b'. destruct (gtb (key x) (key b)) eqn:E.
      - apply gtb_true_iff in E. lra.
      - apply gtb_false_iff in E. lra. }
    pose proof (IH b' b' (or_introl eq_refl)) as Hb'.
    intros [<-|[<-|Hin]].
    + lra.
    + lra.
    + apply IH. right. exact Hin.
Qed.

Lemma max_from_map {A B} (f : A -> B) (key : B -> Q) (b : A) (xs : list A) :
  max_from key (f b) (map f xs) = f (max_from (fun x => key (f x)) b xs).
Proof.
  revert b. induction xs as [|x xs IH]; intros b; cbn [max_from map];
    [reflexivity|].
  rewrite <- IH. destruct (gtb (key (f x)) (key (f b))); reflexivity.
Qed.

Lemma max_from_ext {A} (key1 key2 : A -> Q) (b : A) (xs : list A) :
  (forall x, In x (b :: xs) -> key1 x = key2 x) ->
  max_from key1 b xs = max_from key2 b xs.
Proof.
  revert b. induction xs as [|x xs IH]; intros b H; cbn [max_from];
    [reflexivity|].
  rewrite (H b), (H x) by (cbn; auto).
  apply IH. intros y [<-|Hin].
  - destruct (gtb (key2 x) (key2 b)); apply H; cbn; auto.
  - apply H. cbn. auto.
Qed.

Lemma sum_fold_right (vs : list Q) : (sum vs == fold_right Qplus 0 vs)%Q.
Proof.
  unfold sum.
  assert (H : forall acc, (fold_left Qplus vs acc == acc + fold_right Qplus 0 vs)%Q).
  { induction vs as [|v vs IH]; intros acc; cbn [fold_left fold_right].
    - lra.
    - rewrite IH. lra. }
  rewrite H. lra.
Qed.

Lemma average_is_mean (d : dict Q) : (average d == arithmetic_mean (values d))%Q.
Proof.
  unfold average, arithmetic_mean, len, values.
  rewrite sum_fold_right, length_map. reflexivity.
Qed.

(** The hottest device carries the maximum. *)
Lemma hottest_device (d : dict Q) :
  d <> [] -> NoDup (keys d) ->
  exists m k,
    max_temp_of d = Some m /\
    In m (values d) /\
    (forall v, In v (values d) -> (v <= m)%Q) /\
    max_device_of d = Some k /\
    dict_get k d = Some m.
Proof.
  intros Hne Hnd. destruct d as [|item rest]; [congruence|].
  set (d := item :: rest) in *.
  set (it := max_from snd item rest).
  exists (snd it), (fst it).
  assert (Hv : max_from (fun v : Q => v) (snd item) (map snd rest) = snd it).
  { apply (max_from_map snd (fun v : Q => v)). }
  assert (Hk : max_from (get_key d) (fst item) (map fst rest) = fst it).
  { rewrite (max_from_map fst (get_key d)). unfold it. f_equal.
    apply max_from_ext. intros [k v] Hin. unfold get_key. cbn [fst snd].
    rewrite (In_dict_get k v d Hnd Hin). reflexivity. }
  assert (Hit : In it d) by apply max_from_In.
  unfold max_temp_of, max_device_of, values, keys. cbn [map max_by d].
  rewrite Hv, Hk. split; [reflexivity|]. split.
  { change (In (snd it) (map snd d)). apply in_map, Hit. }
  split.
  { intros v Hin. change (In v (map snd d)) in Hin.
    apply in_map_iff in Hin. destruct Hin as (y & <- & Hy).
    apply (max_from_ge snd item rest y Hy). }
  split; [reflexivity|].
  apply In_dict_get; [exact Hnd|]. destruct it; exact Hit.
Qed.

(** C8. On a sample with readings, the average query returns the
    arithmetic mean of the calibrated values, the maximum query returns a
    value of the mapping that no other value exceeds, and the hottest
    device is filed with exactly that value; on a sample without readings
    both queries return [None].  For the readings A: 25, B: 31, C: 28 the
    average is 28, the maximum 31 and the hottest device B. *)
Theorem average_and_max_queries :
  (forall (ohm : bool) (w : wmi),
      match fst (get_storage_temperatures ohm w) with
      | Some d =>
          d <> [] /\
          (exists avg,
              fst (get_average_storage_temperature ohm w) = Some avg /\
              (avg == arithmetic_mean (values d))%Q) /\
          (exists m k,
              fst (get_max_storage_temperature ohm w) = Some m /\
              In m (values d) /\
              (forall v, In v (values d) -> (v <= m)%Q) /\
              max_device_of d = Some k /\
              dict_get k d = Some m)
      | None =>
          fst (get_average_storage_temperature ohm w) = None /\
          fst (get_max_storage_temperature ohm w) = None
      end) /\
  (let d := [("A", 25%Q); ("B", 31%Q); ("C", 28%Q)] in
   (average d == 28)%Q /\
   max_temp_of d = Some 31%Q /\
   max_device_of d = Some "B").
Proof.
  split; [|cbn zeta; repeat split; reflexivity].
  intros ohm w.
  unfold get_average_storage_temperature, get_max_storage_temperature.
  destruct (get_storage_temperatures ohm w) as [[d|] ohm'] eqn:E; cbn [fst];
    [|split; reflexivity].
  destruct (sample_NoDup ohm w d) as [Hne Hnd]; [rewrite E; reflexivity|].
  apply dict_truthy_true in Hne. rewrite Hne. cbn [fst].
  apply dict_truthy_true in Hne.
  split; [exact Hne|]. split.
  - exists (average d). split; [reflexivity|apply average_is_mean].
  - destruct (hottest_device d Hne Hnd) as (m & k & Hm & H).
    exists m, k. split; [exact Hm|exact H].
Qed.

(** ** Strings and lines *)

Lemma append_cons (x : ascii) (a b : string) :
  String x a +:+ b = String x (a +:+ b).
Proof. reflexivity. Qed.

Lemma append_nil_l (a : string) : "" +:+ a = a.
Proof. reflexivity. Qed.

Lemma append_assoc (a b c : string) : (a +:+ b) +:+ c = a +:+ (b +:+ c).
Proof.
  induction a as [|x a IH]; [reflexivity|].
  rewrite !append_cons, IH. reflexivity.
Qed.

Lemma append_nil_r (a : string) : a +:+ "" = a.
Proof.
  induction a as [|x a IH]; [reflexivity|].
  rewrite append_cons, IH. reflexivity.
Qed.

Lemma append_length (a b : string) :
  String.length (a +:+ b) = (String.length a + String.length b)%nat.
Proof.
  induction a as [|x a IH]; [reflexivity|].
  rewrite append_cons. cbn [String.length]. rewrite IH. reflexivity.
Qed.

Lemma append_inv_tail (a b t : string) : a +:+ t = b +:+ t -> a = b.
Proof.
  revert b. induction a as [|x a IH]; intros [|y b] H.
  - reflexivity.
  - apply (f_equal String.length) in H.
    rewrite append_cons, append_nil_l in H. cbn [String.length] in H.
    rewrite append_length in H. lia.
  - apply (f_equal String.length) in H.
    rewrite append_cons, append_nil_l in H. cbn [String.length] in H.
    rewrite append_length in H. lia.
  - rewrite !append_cons in H. injection H as -> H. f_equal. apply IH, H.
Qed.

Lemma contains_NL_cons (c : ascii) (s : string) :
  contains NL (String c s) = Ascii.eqb c LF || contains NL s.
Proof.
  cbn [contains]. f_equal. unfold NL. cbn [String.prefix].
  destruct (ascii_dec LF c) as [<-|Hne].
  - rewrite Ascii.eqb_refl. destruct s; reflexivity.
  - symmetry. apply Ascii.eqb_neq. congruence.
Qed.

(** A text that starts with a line and its newline. *)
Lemma readlines_line (e rest : string) :
  contains NL e = false ->
  readlines (e +:+ NL +:+ rest) = (e +:+ NL) :: readlines rest.
Proof.
  induction e as [|c e IH]; intros H.
  - reflexivity.
  - rewrite contains_NL_cons in H. apply orb_false_iff in H. destruct H as [Hc He].
    rewrite !append_cons. cbn [readlines]. rewrite Hc, (IH He). reflexivity.
Qed.

Lemma rstrip_app_NL (s : string) : rstrip (s +:+ NL) = rstrip s.
Proof.
  induction s as [|c s IH]; [reflexivity|].
  rewrite append_cons. cbn [rstrip]. rewrite IH. reflexivity.
Qed.

Lemma lstrip_length (s : string) : (String.length (lstrip s) <= String.length s)%nat.
Proof.
  induction s as [|c s IH]; cbn; [lia|]. destruct (isspace c); cbn; lia.
Qed.

Lemma rstrip_length (s : string) : (String.length (rstrip s) <= String.length s)%nat.
Proof.
  induction s as [|c s IH]; cbn; [lia|].
  destruct (rstrip s); [destruct (isspace c)|]; cbn in *; lia.
Qed.

(** A string that [strip] leaves alone starts and ends with a character
    that is not white space. *)
Lemma strip_fixed (s : string) :
  strip s = s -> lstrip s = s /\ rstrip s = s.
Proof.
  intros H. assert (Hl : lstrip s = s).
  { destruct s as [|c s]; [reflexivity|]. cbn [lstrip].
    destruct (isspace c) eqn:Ec; [|reflexivity]. exfalso.
    unfold strip in H. cbn [lstrip] in H. rewrite Ec in H.
    apply (f_equal String.length) in H. cbn [String.length] in H.
    pose proof (rstrip_length (lstrip s)). pose proof (lstrip_length s). lia. }
  split; [exact Hl|]. unfold strip in H. rewrite Hl in H. exact H.
Qed.

Lemma lstrip_app (s t : string) :
  truthy s = true -> lstrip s = s -> lstrip (s +:+ t) = s +:+ t.
Proof.
  destruct s as [|c s]; [discriminate|]. intros _ H. cbn [lstrip] in H.
  rewrite append_cons. cbn [lstrip]. destruct (isspace c) eqn:Ec; [|reflexivity].
  exfalso. apply (f_equal String.length) in H. cbn [String.length] in H.
  pose proof (lstrip_length s). lia.
Qed.

Lemma is_log_line_spec (e : string) :
  LogManager.is_log_line e = true ->
  truthy e = true /\ contains NL e = false /\ strip e = e.
Proof.
  unfold LogManager.is_log_line. rewrite !andb_true_iff, !negb_true_iff.
  intros [[[H1 H2] _] H3]. apply String.eqb_eq in H3. auto.
Qed.

(** Writing a log line with its newline and reading it back through
    [strip] gives the line. *)
Lemma strip_log_line (e : string) :
  LogManager.is_log_line e = true -> strip (e +:+ NL) = e.
Proof.
  intros H. apply is_log_line_spec in H. destruct H as (Ht & _ & Hs).
  apply strip_fixed in Hs. destruct Hs as [Hl Hr].
  unfold strip. rewrite (lstrip_app e NL Ht Hl), rstrip_app_NL. exact Hr.
Qed.

(** The round trip of a file: the lines written come back. *)
Lemma read_text_of (entries : list string) :
  Forall (fun e => LogManager.is_log_line e = true) entries ->
  LogManager.stripped_lines (readlines (LogManager.text_of entries)) = entries.
Proof.
  induction 1 as [|e rest He _ IH]; [reflexivity|].
  cbn [LogManager.text_of].
  rewrite readlines_line by (apply is_log_line_spec in He; tauto).
  unfold LogManager.stripped_lines in *. cbn [List.filter].
  rewrite (strip_log_line e He).
  destruct (is_log_line_spec e He) as (-> & _). cbn [map].
  rewrite (strip_log_line e He), IH. reflexivity.
Qed.

(** ** Daily files and range queries *)

Section LogFiles.
Variable strftime_ymd : Z -> string.
Variable home : string.

Local Abbreviation daily_log_file := (LogManager.daily_log_file strftime_ymd).
Local Abbreviation file_lines := (LogManager.file_lines strftime_ymd).
Local Abbreviation days_lines := (LogManager.days_lines strftime_ymd).
Local Abbreviation range_loop := (LogManager.range_loop strftime_ymd).
Local Abbreviation get_logs_for_date_range := (LogManager.get_logs_for_date_range strftime_ymd).
Local Abbreviation write_day := (LogManager.write_day strftime_ymd).
Local Abbreviation _write_to_file := (LogManager._write_to_file strftime_ymd).

(** The loop visits the days from [current_date] to [end_date] in
    order, and the fuel given by [days_in_range] (or more) is enough. *)
Lemma range_loop_spec (fs : gmap string string) (end_date : Z) :
  forall fuel current_date logs,
    (LogManager.days_in_range current_date end_date <= fuel)%nat ->
    range_loop fuel fs current_date end_date logs
    = logs ++ days_lines fs current_date
                (LogManager.days_in_range current_date end_date).
Proof.
  unfold LogManager.days_in_range.
  induction fuel as [|fuel IH]; intros cur logs Hfuel.
  - replace (Z.to_nat (end_date - cur + 1)) with 0%nat by lia.
    cbn. rewrite app_nil_r. reflexivity.
  - cbn [LogManager.range_loop].
    destruct (Z.leb_spec cur end_date) as [Hle|Hgt].
    + replace (Z.to_nat (end_date - cur + 1))
        with (S (Z.to_nat (end_date - (cur + 1) + 1))) by lia.
      cbn [LogManager.days_lines]. rewrite IH by lia.
      unfold LogManager.file_lines.
      destruct (fs !! daily_log_file cur).
      * rewrite <- app_assoc. reflexivity.
      * reflexivity.
    + replace (Z.to_nat (end_date - cur + 1)) with 0%nat by lia.
      cbn. rewrite app_nil_r. reflexivity.
Qed.

Lemma range_days (fs : gmap string string) (start_date end_date : Z) :
  get_logs_for_date_range fs start_date end_date
  = days_lines fs start_date (LogManager.days_in_range start_date end_date).
Proof.
  unfold LogManager.get_logs_for_date_range.
  rewrite range_loop_spec by lia. reflexivity.
Qed.

Lemma days_lines_app (fs : gmap string string) (n m : nat) :
  forall start_date,
    days_lines fs start_date (n + m)
    = days_lines fs start_date n ++ days_lines fs (start_date + Z.of_nat n) m.
Proof.
  induction n as [|n IH]; intros a.
  - cbn [Nat.add LogManager.days_lines app Z.of_nat]. rewrite Z.add_0_r. reflexivity.
  - cbn [Nat.add LogManager.days_lines]. rewrite IH, <- app_assoc.
    replace (a + 1 + Z.of_nat n)%Z with (a + Z.of_nat (S n))%Z by lia.
    reflexivity.
Qed.

Lemma days_lines_nil (fs : gmap string string) (n : nat) :
  forall start_date,
    (forall d, (start_date <= d < start_date + Z.of_nat n)%Z -> file_lines fs d = []) ->
    days_lines fs start_date n = [].
Proof.
  induction n as [|n IH]; intros a H; [reflexivity|].
  cbn [LogManager.days_lines]. rewrite (H a) by lia.
  apply IH. intros d Hd. apply H. lia.
Qed.

(** A range query is the query before a day, the lines of that day, and
    the query after it. *)
Lemma range_split (fs : gmap string string) (start_date end_date d : Z) :
  (start_date <= d <= end_date)%Z ->
  get_logs_for_date_range fs start_date end_date
  = get_logs_for_date_range fs start_date (d - 1)
    ++ file_lines fs d
    ++ get_logs_for_date_range fs (d + 1) end_date.
Proof.
  intros Hd. rewrite !range_days. unfold LogManager.days_in_range.
  replace (Z.to_nat (end_date - start_date + 1))
    with (Z.to_nat (d - 1 - start_date + 1) + (1 + Z.to_nat (end_date - (d + 1) + 1)))%nat
    by lia.
  rewrite days_lines_app. f_equal.
  replace (start_date + Z.of_nat (Z.to_nat (d - 1 - start_date + 1)))%Z with d by lia.
  reflexivity.
Qed.

Lemma range_nil (fs : gmap string string) (start_date end_date : Z) :
  (forall d, (start_date <= d <= end_date)%Z -> file_lines fs d = []) ->
  get_logs_for_date_range fs start_date end_date = [].
Proof.
  intros H. rewrite range_days. apply days_lines_nil.
  unfold LogManager.days_in_range. intros d Hd. apply H. lia.
Qed.

Lemma file_lines_missing (fs : gmap string string) (d : Z) :
  fs !! daily_log_file d = None -> file_lines fs d = [].
Proof. unfold LogManager.file_lines. intros ->. reflexivity. Qed.

(** ** Writing *)

Lemma write_to_file_spec (today : Z) (log_entry : string)
    (lm : LogManager.t) (fs : gmap string string) :
  snd (_write_to_file today log_entry lm fs)
  = LogManager.append_file (daily_log_file today) (log_entry +:+ NL) fs.
Proof.
  unfold LogManager._write_to_file, LogManager.get_current_log_file. cbn [snd].
  destruct (String.eqb_spec (daily_log_file today) (LogManager.current_log_file lm))
    as [E|E]; cbn [negb]; [rewrite <- E|]; reflexivity.
Qed.

(** The files after the entries of a day have been written. *)
Lemma write_day_spec (today : Z) (entries : list string) :
  forall (s : LogManager.t * gmap string string),
    snd (write_day today entries s)
    = match entries with
      | [] => snd s
      | _ :: _ =>
          <[daily_log_file today :=
              default "" (snd s !! daily_log_file today) +:+ LogManager.text_of entries]>
            (snd s)
      end.
Proof.
  induction entries as [|e rest IH]; intros s; [reflexivity|].
  unfold LogManager.write_day in *. cbn [fold_left]. rewrite IH.
  rewrite write_to_file_spec. unfold LogManager.append_file.
  destruct rest as [|e' rest'].
  - cbn [snd LogManager.text_of]. rewrite append_nil_r. reflexivity.
  - cbn [snd]. rewrite lookup_insert_eq. cbn [default from_option id].
    rewrite insert_insert_eq. f_equal.
    change (LogManager.text_of (e :: e' :: rest'))
      with (e +:+ NL +:+ LogManager.text_of (e' :: rest')).
    rewrite !append_assoc. reflexivity.
Qed.

End LogFiles.

Lemma daily_log_file_inj (strftime_ymd : Z -> string) :
  (forall a b, strftime_ymd a = strftime_ymd b -> a = b) ->
  forall a b,
    LogManager.daily_log_file strftime_ymd a = LogManager.daily_log_file strftime_ymd b ->
    a = b.
Proof.
  intros Hinj a b H. apply Hinj.
  unfold LogManager.daily_log_file, LogManager.path_join in H.
  do 3 apply String.app_inj in H.
  apply append_inv_tail in H. exact H.
Qed.

Lemma file_lines_ext (strftime_ymd : Z -> string) (fs fs' : gmap string string) (d : Z) :
  fs !! LogManager.daily_log_file strftime_ymd d
  = fs' !! LogManager.daily_log_file strftime_ymd d ->
  LogManager.file_lines strftime_ymd fs d = LogManager.file_lines strftime_ymd fs' d.
Proof. unfold LogManager.file_lines. intros ->. reflexivity. Qed.

(** Writing a day leaves the files of the other days alone. *)
Lemma write_day_other (strftime_ymd : Z -> string) (today : Z)
    (entries : list string) (s : LogManager.t * gmap string string) (p : string) :
  p <> LogManager.daily_log_file strftime_ymd today ->
  snd (LogManager.write_day strftime_ymd today entries s) !! p = snd s !! p.
Proof.
  intros Hp. rewrite write_day_spec. destruct entries; [reflexivity|].
  rewrite lookup_insert_ne by congruence. reflexivity.
Qed.

(** Writing the first lines of a day: they are what a query of that day
    gives back. *)
Lemma write_day_lines (strftime_ymd : Z -> string) (today : Z)
    (entries : list string) (s : LogManager.t * gmap string string) :
  snd s !! LogManager.daily_log_file strftime_ymd today = None ->
  Forall (fun e => LogManager.is_log_line e = true) entries ->
  LogManager.file_lines strftime_ymd
    (snd (LogManager.write_day strftime_ymd today entries s)) today
  = entries.
Proof.
  intros Hnew Hlines. unfold LogManager.file_lines. rewrite write_day_spec.
  destruct entries as [|e rest]; [rewrite Hnew; reflexivity|].
  rewrite lookup_insert_eq, Hnew. cbn [default from_option id].
  rewrite append_nil_l. apply read_text_of, Hlines.
Qed.

(** C5. Entries written on three days [d1 < d2 < d3], into a log folder
    that had no file for any day from [d1] to [d3], are read back by date:
    the range query from [d1] to [d3] returns the entries of the three
    days, in the order of the days and, within a day, in the order of
    writing; the query from [d2] to [d2] returns exactly the entries of
    [d2]; and a day of a range that has no file contributes nothing: the
    query is the query before that day followed by the query after it.
    Entries are log lines (non-empty, without line break, without white
    space at either end), and [strftime] gives different dates different
    names. *)
Theorem log_round_trip (strftime_ymd : Z -> string) (lm : LogManager.t)
    (fs : gmap string string) (d1 d2 d3 : Z) (es1 es2 es3 : list string) :
  (forall a b, strftime_ymd a = strftime_ymd b -> a = b) ->
  (d1 < d2 < d3)%Z ->
  (forall d, (d1 <= d <= d3)%Z ->
             fs !! LogManager.daily_log_file strftime_ymd d = None) ->
  Forall (fun e => LogManager.is_log_line e = true) es1 ->
  Forall (fun e => LogManager.is_log_line e = true) es2 ->
  Forall (fun e => LogManager.is_log_line e = true) es3 ->
  let after :=
    snd (LogManager.write_day strftime_ymd d3 es3
           (LogManager.write_day strftime_ymd d2 es2
              (LogManager.write_day strftime_ymd d1 es1 (lm, fs)))) in
  LogManager.get_logs_for_date_range strftime_ymd after d1 d3 = es1 ++ es2 ++ es3 /\
  LogManager.get_logs_for_date_range strftime_ymd after d2 d2 = es2 /\
  forall a b d,
    (a <= d <= b)%Z ->
    after !! LogManager.daily_log_file strftime_ymd d = None ->
    LogManager.get_logs_for_date_range strftime_ymd after a b
    = LogManager.get_logs_for_date_range strftime_ymd after a (d - 1)
      ++ LogManager.get_logs_for_date_range strftime_ymd after (d + 1) b.
Proof.
  intros Hinj Hd Hfresh H1 H2 H3 after.
  set (s1 := LogManager.write_day strftime_ymd d1 es1 (lm, fs)) in *.
  set (s2 := LogManager.write_day strftime_ymd d2 es2 s1) in *.
  set (file := LogManager.daily_log_file strftime_ymd) in *.
  assert (Hne : forall a b, a <> b -> file a <> file b).
  { intros a b Hab E. apply Hab. exact (daily_log_file_inj _ Hinj a b E). }
  assert (L1 : forall d, d <> d1 -> snd s1 !! file d = fs !! file d).
  { intros d Hdd. apply write_day_other, Hne, Hdd. }
  assert (L2 : forall d, d <> d2 -> snd s2 !! file d = snd s1 !! file d).
  { intros d Hdd. apply write_day_other, Hne, Hdd. }
  assert (L3 : forall d, d <> d3 -> after !! file d = snd s2 !! file d).
  { intros d Hdd. apply write_day_other, Hne, Hdd. }
  assert (F1 : LogManager.file_lines strftime_ymd after d1 = es1).
  { rewrite (file_lines_ext _ after (snd s1)).
    - apply write_day_lines; [apply Hfresh; lia|exact H1].
    - fold file. rewrite L3, L2 by lia. reflexivity. }
  assert (F2 : LogManager.file_lines strftime_ymd after d2 = es2).
  { rewrite (file_lines_ext _ after (snd s2)).
    - apply write_day_lines; [|exact H2]. fold file. rewrite L1 by lia.
      apply Hfresh. lia.
    - fold file. rewrite L3 by lia. reflexivity. }
  assert (F3 : LogManager.file_lines strftime_ymd after d3 = es3).
  { apply write_day_lines; [|exact H3]. fold file. rewrite L2, L1 by lia.
    apply Hfresh. lia. }
  assert (F0 : forall d, (d1 <= d <= d3)%Z -> d <> d1 -> d <> d2 -> d <> d3 ->
                         LogManager.file_lines strftime_ymd after d = []).
  { intros d Hin N1 N2 N3. apply file_lines_missing. fold file.
    rewrite L3, L2, L1 by assumption. apply Hfresh, Hin. }
  assert (R2 : LogManager.get_logs_for_date_range strftime_ymd after d2 d2 = es2).
  { rewrite (range_split _ after d2 d2 d2) by lia.
    rewrite !range_nil by (intros; lia). rewrite F2, app_nil_r. reflexivity. }
  split; [|split; [exact R2|]].
  - rewrite (range_split _ after d1 d3 d1) by lia.
    rewrite (range_nil _ after d1 (d1 - 1)) by (intros; lia).
    rewrite (range_split _ after (d1 + 1) d3 d2) by lia.
    rewrite (range_nil _ after (d1 + 1) (d2 - 1)) by (intros; apply F0; lia).
    rewrite (range_split _ after (d2 + 1) d3 d3) by lia.
    rewrite (range_nil _ after (d2 + 1) (d3 - 1)) by (intros; apply F0; lia).
    rewrite (range_nil _ after (d3 + 1) d3) by (intros; lia).
    rewrite F1, F2, F3. cbn [app]. rewrite app_nil_r. reflexivity.
  - intros a b d Hin Hmiss.
    rewrite (range_split _ after a b d Hin).
    rewrite (file_lines_missing _ after d Hmiss). reflexivity.
Qed.

Lemma log_round_trip_witness :
  let after :=
    snd (LogManager.write_day Samples.ordinal_name 7
           ["[2024-01-07 09:00:00] Max Temperature: 31.0°C"]
           (LogManager.write_day Samples.ordinal_name 3
              ["[2024-01-03 09:00:00] Alert monitoring enabled";
               "[2024-01-03 09:00:02] Max Temperature: 28.5°C"]
              (LogManager.write_day Samples.ordinal_name 1
                 ["[2024-01-01 09:00:00] Average Temperature: 25.0°C"]
                 (Samples.fresh_log, ∅)))) in
  LogManager.get_logs_for_date_range Samples.ordinal_name after 1 7
  = ["[2024-01-01 09:00:00] Average Temperature: 25.0°C";
     "[2024-01-03 09:00:00] Alert monitoring enabled";
     "[2024-01-03 09:00:02] Max Temperature: 28.5°C";
     "[2024-01-07 09:00:00] Max Temperature: 31.0°C"] /\
  LogManager.get_logs_for_date_range Samples.ordinal_name after 3 3
  = ["[2024-01-03 09:00:00] Alert monitoring enabled";
     "[2024-01-03 09:00:02] Max Temperature: 28.5°C"].
Proof.
  pose proof (log_round_trip Samples.ordinal_name Samples.fresh_log ∅ 1 3 7
    ["[2024-01-01 09:00:00] Average Temperature: 25.0°C"]
    ["[2024-01-03 09:00:00] Alert monitoring enabled";
     "[2024-01-03 09:00:02] Max Temperature: 28.5°C"]
    ["[2024-01-07 09:00:00] Max Temperature: 31.0°C"]) as H.
  destruct H as (Ha & Hb & _).
  - intros a b E. exact (pretty_Z_inj a b E).
  - lia.
  - intros d _. apply lookup_empty.
  - repeat constructor.
  - repeat constructor.
  - repeat constructor.
  - split; [exact Ha | exact Hb].
Defined.

(** Without the condition on the entries the round trip fails, and on a
    line that the program composes: the monitoring loop logs
    [f"Monitoring error: {e}"], which ends in a space when the exception
    has no text.  The entry goes to the buffer and to the file as
    composed, and the reader strips it: the range queries return another
    line. *)
Lemma log_round_trip_counterexample :
  let e1 := "[2024-01-01 09:00:00] Average Temperature: 25.0°C" in
  let e2 := LogManager.format_entry "2024-01-03 09:00:00" "Error" "0"
              "Monitoring error: " in
  let e3 := "[2024-01-07 09:00:00] Max Temperature: 31.0°C" in
  let s1 := LogManager.write_day Samples.ordinal_name 1 [e1]
              (Samples.fresh_log, ∅) in
  let s2 := LogManager.log_temperature Samples.ordinal_name 3
              "2024-01-03 09:00:00" "Error" "0" "Monitoring error: "
              (fst s1) (snd s1) in
  let after := snd (LogManager.write_day Samples.ordinal_name 7 [e3] s2) in
  LogManager.log_buffer (fst s2) = [e2] /\
  LogManager.get_logs_for_date_range Samples.ordinal_name after 1 7
  <> [e1] ++ [e2] ++ [e3] /\
  LogManager.get_logs_for_date_range Samples.ordinal_name after 3 3 <> [e2] /\
  LogManager.get_logs_for_date_range Samples.ordinal_name after 3 3
  = ["[2024-01-03 09:00:00] Monitoring error:"].
Proof.
  cbv zeta. split; [vm_compute; reflexivity|].
  split; [intros H; vm_compute in H; discriminate H|].
  split; [intros H; vm_compute in H; discriminate H|].
  vm_compute. reflexivity.
Qed.

(** ** Export *)

(** C7. When the daily files of a range yield no line (as for a single
    day that has no file because nothing was written on it), the range
    query returns the empty list and the export returns [False] and leaves
    every file as it was: no export file is written. *)
Theorem export_empty_range (strftime_ymd : Z -> string) (home : string)
    (fs : gmap string string) (start_date end_date : Z) (now : string)
    (writable : bool) :
  (forall d, (start_date <= d <= end_date)%Z ->
             fs !! LogManager.daily_log_file strftime_ymd d = None \/
             LogManager.file_lines strftime_ymd fs d = []) ->
  LogManager.get_logs_for_date_range strftime_ymd fs start_date end_date = [] /\
  LogManager.export_logs_to_file strftime_ymd home fs start_date end_date now writable
  = (false, fs).
Proof.
  intros H.
  assert (E : LogManager.get_logs_for_date_range strftime_ymd fs start_date end_date = []).
  { apply range_nil. intros d Hd.
    destruct (H d Hd) as [Hm|Hl]; [apply file_lines_missing, Hm|exact Hl]. }
  split; [exact E|].
  unfold LogManager.export_logs_to_file. rewrite E. reflexivity.
Qed.

Lemma export_empty_range_witness :
  LogManager.get_logs_for_date_range Samples.ordinal_name ∅ 5 5 = [] /\
  LogManager.export_logs_to_file Samples.ordinal_name "C:/Users/ops" ∅ 5 5
    "2024-01-05 10:00:00" true
  = (false, ∅).
Proof.
  apply (export_empty_range Samples.ordinal_name "C:/Users/ops" ∅ 5 5
           "2024-01-05 10:00:00" true).
  intros d _. left. apply lookup_empty.
Defined.

(** ** Worked examples *)

Example storage_sensor_by_parent :
  _is_storage_sensor "Temperature" "Samsung SSD 970 EVO" = true.
Proof. reflexivity. Qed.

Example storage_sensor_by_name : _is_storage_sensor "NVMe Temperature" "" = true.
Proof. reflexivity. Qed.

Example not_a_storage_sensor : _is_storage_sensor "CPU Package" "Intel Core i7" = false.
Proof. reflexivity. Qed.

Example primary_path_sample :
  get_storage_temperatures true (Samples.one_disk 45)
  = (Some [("Samsung SSD 970 EVO", 32%Q)], true).
Proof. reflexivity. Qed.

Example alternative_path_sample :
  get_storage_temperatures true (Samples.wd_disk 45)
  = (Some [("WDC WD10EZEX", 35%Q)], true).
Proof. reflexivity. Qed.

Example unavailable_sample :
  get_storage_temperatures true {| Sensor := None; Hardware := None |} = (None, false).
Proof. reflexivity. Qed.

Example history_keeps_the_latest :
  dq_items (deque_extend [1%Q; 2%Q; 3%Q] (deque_new 2)) = [2%Q; 3%Q].
Proof. reflexivity. Qed.

Example composed_entry_is_a_log_line :
  LogManager.is_log_line
    (LogManager.format_entry "2024-01-07 09:00:00" "Max Temperature" "31.0" "")
  = true.
Proof. reflexivity. Qed.

(** A line that ends in white space is read back without it: the reason
    why the round trip is stated for log lines. *)
Example trailing_space_is_stripped :
  LogManager.stripped_lines (readlines (LogManager.text_of ["disk full "]))
  = ["disk full"].
Proof. reflexivity. Qed.

Example accepted_update :
  update_settings Samples.float_of_decimal "25" "30" init
  = (set_thresholds 25 30 init,
     [WriteSettings 30 25;
      Log "System" 0 (SettingsUpdated 25 30);
      ShowInfo "Success" "Temperature settings updated successfully"]).
Proof. reflexivity. Qed.

Example non_numeric_update :
  update_settings Samples.float_of_decimal "hot" "30" init
  = (init, [ShowError "Error" "Please enter valid numbers for temperature thresholds"]).
Proof. reflexivity. Qed.

(* ===================================================================== *)
(** * Further properties of the code *)
(* ===================================================================== *)

(** ** The reader once OpenHardwareMonitor has failed *)

(** X1. The reader does not recover from a failed query.  When
    [w.Sensor()] raises, the sample is [None] and [ohm_available]
    becomes false; from then on every query (the mapping, the maximum,
    the average) answers [None] without looking at WMI, and the flag
    stays false.  In the monitoring loop: an iteration whose first sample
    meets the failure has no reading, although its other two samples
    would have found the disks, and leaves the reader unavailable. *)
Theorem reader_stays_unavailable (w : wmi) :
  Sensor w = None ->
  get_storage_temperatures true w = (None, false) /\
  (forall w',
      get_storage_temperatures false w' = (None, false) /\
      get_max_storage_temperature false w' = (None, false) /\
      get_average_storage_temperature false w' = (None, false)) /\
  forall start i s,
    wmi_temps i = w ->
    reading i s = None /\
    ohm_available (fst (monitor_cycle start i s)) = false /\
    storage_temperatures (fst (monitor_cycle start i s)) = None.
Proof.
  intros H.
  assert (H1 : forall ohm, get_storage_temperatures ohm w = (None, false)).
  { intros [|]; unfold get_storage_temperatures; cbn [negb];
      [rewrite H|]; reflexivity. }
  split; [apply H1|]. split; [intros w'; repeat split; reflexivity|].
  intros start i s <-.
  unfold reading, monitor_cycle, take_samples. rewrite H1. cbn.
  repeat split; reflexivity.
Qed.

Lemma reader_stays_unavailable_witness :
  Sensor {| Sensor := None; Hardware := None |} = None /\
  get_storage_temperatures true {| Sensor := None; Hardware := None |} = (None, false) /\
  get_max_storage_temperature false (Samples.one_disk 45) = (None, false).
Proof.
  split; [reflexivity|].
  destruct (reader_stays_unavailable {| Sensor := None; Hardware := None |} eq_refl)
    as (H1 & H2 & _).
  split; [exact H1|]. exact (proj1 (proj2 (H2 (Samples.one_disk 45)))).
Defined.

Lemma monitor_cycle_unavailable start i s :
  ohm_available s = false ->
  monitor_cycle start i s
  = (set_ohm_available false (set_storage_temperatures None s),
     [UpdateDisplay None None (clock_elapsed i - start)%Q;
      Log "Error" 0 (Text "No temperature data available from sensors")]).
Proof.
  intros H. unfold monitor_cycle, take_samples. rewrite H. reflexivity.
Qed.

(** X2. With the reader unavailable the loop keeps running and reports
    it: each iteration asks the display to show "no data" and writes one
    error line, in this order and nothing else; no entry is added to
    either history, the window of the digest and the alert clock keep
    their values, and the reader stays unavailable. *)
Theorem monitor_run_unavailable (start : Q) (inputs : list cycle_input) (s : state) :
  ohm_available s = false ->
  let r := monitor_run start inputs s in
  snd r = flat_map
            (fun i => [UpdateDisplay None None (clock_elapsed i - start)%Q;
                       Log "Error" 0 (Text "No temperature data available from sensors")])
            inputs /\
  notifications (snd r) = 0%nat /\
  temp_history (fst r) = temp_history s /\
  time_history (fst r) = time_history s /\
  min_temp (fst r) = min_temp s /\
  max_temp (fst r) = max_temp s /\
  last_warning_time (fst r) = last_warning_time s /\
  ohm_available (fst r) = false.
Proof.
  revert s. induction inputs as [|i rest IH]; intros s H r; subst r.
  - cbn. rewrite H. repeat split; reflexivity.
  - rewrite monitor_run_cons, monitor_cycle_unavailable by exact H.
    cbn [fst snd flat_map].
    set (s1 := set_ohm_available false (set_storage_temperatures None s)).
    destruct (IH s1 eq_refl) as (E & N & H1 & H2 & H3 & H4 & H5 & H6).
    rewrite E, H1, H2, H3, H4, H5, H6.
    split; [reflexivity|]. split; [|repeat split; reflexivity].
    rewrite <- E in *. cbn [app]. unfold notifications in *. cbn. exact N.
Qed.

Lemma monitor_run_unavailable_witness :
  ohm_available (set_ohm_available false init) = false /\
  notifications
    (snd (monitor_run 0 [Samples.spike 10; Samples.spike 12; Samples.spike 14]
            (set_ohm_available false init))) = 0%nat /\
  temp_history
    (fst (monitor_run 0 [Samples.spike 10; Samples.spike 12; Samples.spike 14]
            (set_ohm_available false init)))
  = temp_history (set_ohm_available false init).
Proof.
  split; [reflexivity|].
  destruct (monitor_run_unavailable 0%Q
              [Samples.spike 10; Samples.spike 12; Samples.spike 14]
              (set_ohm_available false init) eq_refl)
    as (_ & N & H & _).
  split; [exact N | exact H].
Defined.

(** ** Alerts switched off, and how often they can fire *)

Lemma monitor_run_alert_config start inputs s :
  alert_config (fst (monitor_run start inputs s)) = alert_config s.
Proof.
  revert s. induction inputs as [|i rest IH]; intros s; [reflexivity|].
  rewrite monitor_run_cons. cbn [fst]. rewrite IH.
  apply (monitor_cycle_alerts start i s).
Qed.

Lemma alert_fires_off m t s :
  alert_monitoring_active s = false -> alert_fires m t s = false.
Proof. unfold alert_fires. intros ->. reflexivity. Qed.

(** X3. Switching the alerts off silences the loop: after
    [stop_alert_monitoring], whatever the readings and the clocks, no
    iteration schedules a notification and [last_warning_time] keeps its
    value.  Both switches are idempotent on the state. *)
Theorem alerts_off_silent (start : Q) (inputs : list cycle_input) (s : state) :
  let off := fst (stop_alert_monitoring s) in
  notifications (snd (monitor_run start inputs off)) = 0%nat /\
  last_warning_time (fst (monitor_run start inputs off)) = last_warning_time s /\
  fst (stop_alert_monitoring off) = off /\
  fst (start_alert_monitoring (fst (start_alert_monitoring s)))
  = fst (start_alert_monitoring s).
Proof.
  cbn zeta. split; [|split; [|split; reflexivity]].
  - assert (H : forall s0, alert_monitoring_active s0 = false ->
                           notifications (snd (monitor_run start inputs s0)) = 0%nat).
    { induction inputs as [|i rest IH]; intros s0 Hoff; [reflexivity|].
      rewrite monitor_run_cons. cbn [snd]. rewrite notifications_app.
      pose proof (monitor_cycle_alerts start i s0) as [Hc Ha].
      cbn zeta in Hc, Ha.
      rewrite IH.
      - destruct (reading i s0) as [m|].
        + rewrite (alert_fires_off _ _ _ Hoff) in Ha. destruct Ha as [-> _].
          reflexivity.
        + destruct Ha as [-> _]. reflexivity.
      - unfold alert_config in Hc. injection Hc as -> _ _ _. exact Hoff. }
    apply H. reflexivity.
  - assert (H : forall s0, alert_monitoring_active s0 = false ->
                           last_warning_time (fst (monitor_run start inputs s0))
                           = last_warning_time s0).
    { induction inputs as [|i rest IH]; intros s0 Hoff; [reflexivity|].
      rewrite monitor_run_cons. cbn [fst].
      pose proof (monitor_cycle_alerts start i s0) as [Hc Ha].
      cbn zeta in Hc, Ha.
      rewrite IH.
      - destruct (reading i s0) as [m|].
        + rewrite (alert_fires_off _ _ _ Hoff) in Ha. apply Ha.
        + apply Ha.
      - unfold alert_config in Hc. injection Hc as -> _ _ _. exact Hoff. }
    rewrite H by reflexivity. reflexivity.
Qed.

(** X4. Alerts cannot flood.  In any run of the loop whose alert clocks
    do not exceed [T], if [n > 0] notifications were scheduled then
    [n * warning_cooldown < T - last_warning_time]: with the cooldown of
    30 s, [n] alerts need more than [30 n] seconds since the last alert
    before the run. *)
Theorem alerts_rate_limited (start : Q) (inputs : list cycle_input) (s : state)
    (T : Q) :
  Forall (fun i => (clock_alert i <= T)%Q) inputs ->
  let n := notifications (snd (monitor_run start inputs s)) in
  (0 < n)%nat ->
  (inject_Z (Z.of_nat n) * warning_cooldown s < T - last_warning_time s)%Q.
Proof.
  intros Hclk. revert s. induction Hclk as [|i rest Hi Hrest IH]; intros s n Hn.
  - subst n. cbn in Hn. lia.
  - subst n. rewrite monitor_run_cons in *. cbn [fst snd] in *.
    rewrite notifications_app in *.
    pose proof (monitor_cycle_alerts start i s) as [Hc Ha]. cbn zeta in Hc, Ha.
    set (s1 := fst (monitor_cycle start i s)) in *.
    set (k := notifications (snd (monitor_run start rest s1))) in *.
    specialize (IH s1). cbn zeta in IH. fold k in IH.
    assert (Hcd : warning_cooldown s1 = warning_cooldown s).
    { unfold alert_config in Hc. injection Hc as _ -> _ _. reflexivity. }
    rewrite Hcd in IH.
    assert (Hcase :
      (notifications (snd (monitor_cycle start i s)) = 0%nat /\
       last_warning_time s1 = last_warning_time s) \/
      (notifications (snd (monitor_cycle start i s)) = 1%nat /\
       last_warning_time s1 = clock_alert i /\
       (warning_cooldown s < clock_alert i - last_warning_time s)%Q)).
    { destruct (reading i s) as [m|]; [|left; exact Ha].
      destruct (alert_fires m (clock_alert i) s) eqn:F; [right|left; exact Ha].
      apply alert_fires_true_iff in F. destruct Ha as [-> ->]. tauto. }
    destruct Hcase as [[HN HL]|(HN & HL & Hgap)];
      rewrite HL in IH; rewrite HN in Hn |- *.
    + cbn [Nat.add] in *. apply IH, Hn.
    + destruct k as [|k'].
      * change (inject_Z (Z.of_nat (1 + 0))) with 1%Q. lra.
      * specialize (IH ltac:(lia)).
        replace (1 + S k')%nat with (S (S k')) by lia.
        rewrite (Nat2Z.inj_succ (S k')). unfold Z.succ.
        rewrite inject_Z_plus. change (inject_Z 1) with 1%Q.
        set (x := inject_Z (Z.of_nat (S k'))) in *. lra.
Qed.

Lemma alerts_rate_limited_witness :
  Forall (fun i => (clock_alert i <= 2035)%Q)
    [Samples.spike 2000; Samples.spike 2010; Samples.spike 2035] /\
  (inject_Z (Z.of_nat
     (notifications
        (snd (monitor_run 1990
                [Samples.spike 2000; Samples.spike 2010; Samples.spike 2035] init))))
   * warning_cooldown init < 2035 - last_warning_time init)%Q.
Proof.
  assert (H : Forall (fun i => (clock_alert i <= 2035)%Q)
                [Samples.spike 2000; Samples.spike 2010; Samples.spike 2035]).
  { repeat constructor; vm_compute; intro; discriminate. }
  split; [exact H|].
  apply (alerts_rate_limited 1990%Q _ init 2035%Q H).
  vm_compute. lia.
Defined.

(** ** The window of the digest *)

Lemma fle_refl_fin m : fle (Fin m) (Fin m) = true.
Proof.
  unfold fle, flt. apply negb_true_iff, gtb_false_iff. lra.
Qed.

Lemma update_min_max_window m s :
  let s' := update_min_max m s in
  fle (min_temp s') (Fin m) = true /\
  fle (Fin m) (max_temp s') = true /\
  fle (min_temp s') (min_temp s) = true /\
  fle (max_temp s) (max_temp s') = true /\
  (min_temp s = PosInf -> max_temp s = NegInf ->
   min_temp s' = Fin m /\ max_temp s' = Fin m).
Proof.
  unfold update_min_max, fgt.
  destruct (flt (Fin m) (min_temp s)) eqn:E1; cbn [max_temp min_temp set_min_temp];
    destruct (flt (max_temp s) (Fin m)) eqn:E2;
    cbn [max_temp min_temp set_min_temp set_max_temp];
    destruct (min_temp s) as [|x|] eqn:Hmin, (max_temp s) as [|y|] eqn:Hmax;
    cbn [flt] in E1, E2; try discriminate;
    unfold fle; cbn [flt];
    repeat match goal with
           | H : gtb _ _ = true |- _ => apply gtb_true_iff in H
           | H : gtb _ _ = false |- _ => apply gtb_false_iff in H
           end;
    repeat split;
    try reflexivity; try (intros; discriminate); try (intros; congruence);
    try (apply negb_true_iff, gtb_false_iff; lra).
Qed.

Lemma update_min_max_ext m a b :
  min_temp a = min_temp b -> max_temp a = max_temp b ->
  min_temp (update_min_max m a) = min_temp (update_min_max m b) /\
  max_temp (update_min_max m a) = max_temp (update_min_max m b).
Proof.
  intros E1 E2. unfold update_min_max, fgt. rewrite E1.
  destruct (flt (Fin m) (min_temp b)); cbn [max_temp min_temp set_min_temp];
    rewrite E2; destruct (flt (max_temp b) (Fin m)); cbn; auto.
Qed.

Lemma monitor_cycle_window start i s m :
  reading i s = Some m ->
  min_temp (fst (monitor_cycle start i s)) = min_temp (update_min_max m s) /\
  max_temp (fst (monitor_cycle start i s)) = max_temp (update_min_max m s).
Proof.
  unfold reading, monitor_cycle.
  destruct (take_samples i (ohm_available s)) as [[[temps max_now] avg_now] ohm3].
  intros ->. cbn zeta.
  match goal with
  | |- context [check_alerts ?a ?b ?c] =>
      assert (Hk : min_temp (fst (check_alerts a b c)) = min_temp c /\
                   max_temp (fst (check_alerts a b c)) = max_temp c)
        by (unfold check_alerts; repeat case_if; split; reflexivity);
      destruct (check_alerts a b c) as [s3 alerts]
  end.
  cbn [fst] in *. destruct Hk as [-> ->].
  unfold update_history. cbn [min_temp max_temp set_history].
  apply update_min_max_ext; reflexivity.
Qed.

(** X5. The window of the digest follows the readings: after an
    iteration with reading [m], [min_temp <= m <= max_temp]; the minimum
    never rises and the maximum never falls within a window; and the
    first reading after a reset (minimum at plus infinity, maximum at
    minus infinity) becomes both the minimum and the maximum. *)
Theorem digest_window_brackets (start : Q) (i : cycle_input) (s : state) (m : Q) :
  reading i s = Some m ->
  let s' := fst (monitor_cycle start i s) in
  fle (min_temp s') (Fin m) = true /\
  fle (Fin m) (max_temp s') = true /\
  fle (min_temp s') (min_temp s) = true /\
  fle (max_temp s) (max_temp s') = true /\
  (min_temp s = PosInf -> max_temp s = NegInf ->
   min_temp s' = Fin m /\ max_temp s' = Fin m).
Proof.
  intros H s'. subst s'.
  destruct (monitor_cycle_window start i s m H) as [-> ->].
  apply update_min_max_window.
Qed.

Lemma digest_window_brackets_witness :
  reading (Samples.spike 2000) init = Some 32%Q /\
  min_temp (fst (monitor_cycle 1990 (Samples.spike 2000) init)) = Fin 32 /\
  max_temp (fst (monitor_cycle 1990 (Samples.spike 2000) init)) = Fin 32.
Proof.
  assert (H : reading (Samples.spike 2000) init = Some 32%Q) by reflexivity.
  split; [exact H|].
  destruct (digest_window_brackets 1990%Q (Samples.spike 2000) init 32%Q H)
    as (_ & _ & _ & _ & K).
  exact (K eq_refl eq_refl).
Defined.

(** ** The e-mail report *)

Lemma body_formats_false (current_max : option Q) (s : state) :
  current_max = None \/
  (exists m, current_max = Some m /\ (m == 0)%Q) \/
  min_temp s = PosInf \/
  max_temp s = NegInf ->
  body_formats current_max s = false.
Proof.
  intros H. unfold body_formats.
  destruct H as [E|[(m & E & Hm)|[E|E]]]; rewrite E.
  - reflexivity.
  - apply Qeq_bool_iff in Hm. rewrite Hm. reflexivity.
  - rewrite andb_false_r. reflexivity.
  - apply andb_false_r.
Qed.

(** X6. The report cannot be composed without numbers.  When the fresh
    sample of [send_email_report] has no reading, or the reading is 0, or
    the window of the digest is empty ([min_temp] at plus infinity or
    [max_temp] at minus infinity), formatting the body raises: the method
    returns [False], logs the failure and opens no SMTP session, whether
    the mail server is reachable or not. *)
Theorem email_report_needs_numbers (w : wmi) (smtp_ok : bool) (s : state) :
  fst (get_max_storage_temperature (ohm_available s) w) = None \/
  (exists m, fst (get_max_storage_temperature (ohm_available s) w) = Some m /\
             (m == 0)%Q) \/
  min_temp s = PosInf \/
  max_temp s = NegInf ->
  fst (fst (send_email_report w smtp_ok s)) = false /\
  snd (send_email_report w smtp_ok s) = [Log "Error" 0 EmailFailure].
Proof.
  intros H. unfold send_email_report.
  destruct (get_max_storage_temperature (ohm_available s) w) as [current_max ohm'].
  cbn [fst] in H. rewrite (body_formats_false current_max s H).
  split; reflexivity.
Qed.

Lemma email_report_needs_numbers_witness :
  min_temp init = PosInf /\
  fst (fst (send_email_report (Samples.one_disk 45) true init)) = false /\
  snd (send_email_report (Samples.one_disk 45) true init)
  = [Log "Error" 0 EmailFailure].
Proof.
  split; [reflexivity|].
  apply (email_report_needs_numbers (Samples.one_disk 45) true init).
  right. right. left. reflexivity.
Defined.

(** X7. The test e-mail reuses the report without touching the
    schedule: [send_test_email] leaves [last_email_time],
    [email_interval], the window of the digest, both thresholds and both
    histories as they were, schedules no alert, and ends with a message
    box: the success box when the SMTP session went through, the error
    box in every other case. *)
Theorem test_email_keeps_schedule (w : wmi) (smtp_ok : bool) (s : state) :
  let r := send_test_email w smtp_ok s in
  last_email_time (fst r) = last_email_time s /\
  email_interval (fst r) = email_interval s /\
  min_temp (fst r) = min_temp s /\
  max_temp (fst r) = max_temp s /\
  warning_temp (fst r) = warning_temp s /\
  critical_temp (fst r) = critical_temp s /\
  temp_history (fst r) = temp_history s /\
  time_history (fst r) = time_history s /\
  notifications (snd r) = 0%nat /\
  ((In (SmtpSession true) (snd r) /\
    last (snd r) = Some (ShowInfo "Success" "Test email sent successfully!")) \/
   (~ In (SmtpSession true) (snd r) /\
    last (snd r)
    = Some (ShowError "Error"
              "Failed to send test email. Check your email configuration."))).
Proof.
  unfold send_test_email, send_email_report.
  destruct (get_max_storage_temperature (ohm_available s) w) as [current_max ohm'].
  destruct (body_formats current_max s), smtp_ok; cbn;
    repeat (split; [reflexivity|]).
  - left. split; [left; reflexivity|reflexivity].
  - right. split; [|reflexivity]. intros [E|[E|[E|[]]]]; discriminate.
  - right. split; [|reflexivity]. intros [E|[E|[]]]; discriminate.
  - right. split; [|reflexivity]. intros [E|[E|[]]]; discriminate.
Qed.

(** X8. Right after the scheduler has reset the window, and until the
    next reading arrives, a test e-mail fails even when the mail server
    works: the body has no minimum and maximum to print.  The user sees
    the error box and no SMTP session is opened. *)
Theorem test_email_after_reset_fails (now : Q) (w0 w : wmi) (ok0 smtp_ok : bool)
    (s : state) :
  (email_interval s <= now - last_email_time s)%Q ->
  let reset := fst (email_scheduler_check now w0 ok0 s) in
  snd (send_test_email w smtp_ok reset)
  = [Log "Error" 0 EmailFailure;
     ShowError "Error" "Failed to send test email. Check your email configuration."].
Proof.
  intros H reset.
  destruct (email_scheduler_check_due now w0 ok0 s H) as (Hmin & _).
  fold reset in Hmin.
  unfold send_test_email, send_email_report.
  destruct (get_max_storage_temperature (ohm_available reset) w) as [current_max ohm'].
  rewrite (body_formats_false current_max reset) by auto.
  reflexivity.
Qed.

Lemma test_email_after_reset_fails_witness :
  (email_interval Samples.with_data <= 5000 - last_email_time Samples.with_data)%Q /\
  snd (send_test_email (Samples.one_disk 45) true
         (fst (email_scheduler_check 5000 (Samples.one_disk 45) true Samples.with_data)))
  = [Log "Error" 0 EmailFailure;
     ShowError "Error" "Failed to send test email. Check your email configuration."].
Proof.
  assert (H : (email_interval Samples.with_data
               <= 5000 - last_email_time Samples.with_data)%Q)
    by (vm_compute; intro; discriminate).
  split; [exact H|].
  exact (test_email_after_reset_fails 5000%Q (Samples.one_disk 45)
           (Samples.one_disk 45) true true Samples.with_data H).
Defined.

(** ** The two histories together *)

Lemma deque_append_length {A} (x : A) (d : deque A) :
  length (dq_items (deque_append x d))
  = if (dq_maxlen d <? length (dq_items d) + 1)%nat
    then length (dq_items d) else (length (dq_items d) + 1)%nat.
Proof.
  unfold deque_append. cbn [dq_items dq_maxlen]. rewrite length_app. cbn [length].
  destruct (dq_maxlen d <? length (dq_items d) + 1)%nat.
  - destruct (dq_items d); cbn; [reflexivity|]. rewrite length_app. cbn. lia.
  - rewrite length_app. reflexivity.
Qed.

(** X9. The temperature history and the time history stay aligned: after
    any number of iterations of the monitoring loop from start-up, with
    any loaded settings and whatever the samples were, both hold the same
    number of entries, so that the chart always has one time for each
    temperature. *)
Theorem histories_aligned (file : option (option Q * option Q)) (start : Q)
    (inputs : list cycle_input) :
  let s := fst (monitor_run start inputs (load_settings file init)) in
  length (dq_items (temp_history s)) = length (dq_items (time_history s)) /\
  dq_maxlen (temp_history s) = dq_maxlen (time_history s).
Proof.
  assert (H : forall s0,
    length (dq_items (temp_history s0)) = length (dq_items (time_history s0)) /\
    dq_maxlen (temp_history s0) = dq_maxlen (time_history s0) ->
    let s := fst (monitor_run start inputs s0) in
    length (dq_items (temp_history s)) = length (dq_items (time_history s)) /\
    dq_maxlen (temp_history s) = dq_maxlen (time_history s)).
  { induction inputs as [|i rest IH]; intros s0 Hs0; [exact Hs0|].
    cbn zeta. rewrite monitor_run_cons. cbn [fst]. apply IH.
    destruct Hs0 as [Hl Hm].
    destruct (monitor_cycle_history start i s0) as [[E1 E2]|(m & t & E1 & E2)];
      rewrite E1, E2; [auto|].
    rewrite !deque_append_length, !deque_append_maxlen, Hl, Hm. auto. }
  apply H. destruct file as [[c w]|]; split; reflexivity.
Qed.

(** ** Thresholds *)

Lemma email_scheduler_check_thresholds now w ok s :
  warning_temp (fst (email_scheduler_check now w ok s)) = warning_temp s /\
  critical_temp (fst (email_scheduler_check now w ok s)) = critical_temp s.
Proof.
  unfold email_scheduler_check, send_email_report.
  destruct (geb _ _); [|split; reflexivity].
  destruct (opt_dict_truthy _); [|split; reflexivity].
  destruct (get_max_storage_temperature _ _) as [current_max ohm'].
  destruct (body_formats current_max s), ok; split; reflexivity.
Qed.

(** X10. The thresholds change only through the settings dialog.  Any
    run of the monitoring loop, a check of the e-mail scheduler and either
    alert switch leave [warning_temp] and [critical_temp] exactly as they
    were.  An update whose two texts are read as the numbers [nw < nc]
    stores exactly these two numbers, changes no other attribute and asks
    for the settings file to be written with them. *)
Theorem thresholds_change_only_by_update (float : string -> option Q)
    (warning_var critical_var : string) (start now : Q)
    (inputs : list cycle_input) (w : wmi) (smtp_ok : bool) (s : state) :
  let thresholds := fun s' : state => (warning_temp s', critical_temp s') in
  let r := update_settings float warning_var critical_var s in
  thresholds (fst (monitor_run start inputs s)) = thresholds s /\
  thresholds (fst (email_scheduler_check now w smtp_ok s)) = thresholds s /\
  thresholds (fst (start_alert_monitoring s)) = thresholds s /\
  thresholds (fst (stop_alert_monitoring s)) = thresholds s /\
  (forall nw nc,
      float warning_var = Some nw ->
      float critical_var = Some nc ->
      (nw < nc)%Q ->
      fst r = set_thresholds nw nc s /\
      thresholds (fst r) = (nw, nc) /\
      In (WriteSettings nc nw) (snd r)).
Proof.
  cbn zeta. split; [|split; [|split; [reflexivity|split; [reflexivity|]]]].
  - pose proof (monitor_run_alert_config start inputs s) as Hc.
    unfold alert_config in Hc. injection Hc as _ _ -> ->. reflexivity.
  - destruct (email_scheduler_check_thresholds now w smtp_ok s) as [-> ->].
    reflexivity.
  - intros nw nc Hw Hc Hlt. unfold update_settings. rewrite Hw, Hc.
    destruct (geb nw nc) eqn:E.
    + apply geb_true_iff in E. exfalso. apply (Qlt_not_le _ _ Hlt E).
    + cbn [fst snd]. split; [reflexivity|]. split; [reflexivity|].
      left. reflexivity.
Qed.

(** ** Manual refresh and the pace of the loop *)

(** X11. A manual refresh only refreshes: it stores the fresh sample in
    [storage_temperatures] and asks for at most one update of the display;
    it adds nothing to the histories, leaves the window of the digest,
    the alert clock, the e-mail schedule and the thresholds untouched,
    schedules no notification and writes no log line, whatever the
    reading is. *)
Theorem manual_refresh_only_refreshes (float : string -> option Q)
    (i : cycle_input) (refresh_rate_var : string) (s : state) :
  let r := manual_refresh float i refresh_rate_var s in
  storage_temperatures (fst r)
  = fst (get_storage_temperatures (ohm_available s) (wmi_temps i)) /\
  temp_history (fst r) = temp_history s /\
  time_history (fst r) = time_history s /\
  min_temp (fst r) = min_temp s /\
  max_temp (fst r) = max_temp s /\
  last_warning_time (fst r) = last_warning_time s /\
  last_email_time (fst r) = last_email_time s /\
  warning_temp (fst r) = warning_temp s /\
  critical_temp (fst r) = critical_temp s /\
  notifications (snd r) = 0%nat /\
  (length (snd r) <= 1)%nat /\
  forall e, In e (snd r) -> exists m avg t, e = UpdateDisplay (Some m) avg t.
Proof.
  unfold manual_refresh, take_samples.
  destruct (get_storage_temperatures (ohm_available s) (wmi_temps i)) as [temps ohm1].
  destruct (get_max_storage_temperature ohm1 (wmi_max i)) as [max_now ohm2].
  destruct (get_average_storage_temperature ohm2 (wmi_avg i)) as [avg_now ohm3].
  destruct max_now as [m|]; [destruct (float refresh_rate_var) as [rate|]|];
    cbn [fst snd set_ohm_available set_storage_temperatures storage_temperatures
         temp_history time_history min_temp max_temp last_warning_time
         last_email_time warning_temp critical_temp];
    repeat match goal with |- _ = _ /\ _ => split; [reflexivity|] end;
    (split; [cbn; lia|]); intros e He; cbn in He; try contradiction.
  destruct He as [<-|[]]. eauto.
Qed.

(** X12. The loop never polls faster than once a second: whatever the
    text of the refresh-rate field is, the pause between two iterations is
    at least 1 s; it is the number typed when that is at least 1, and 2 s
    when the text is not a number. *)
Theorem refresh_delay_at_least_one (float : string -> option Q)
    (refresh_rate_var : string) :
  (1 <= refresh_delay float refresh_rate_var)%Q /\
  (forall rate, float refresh_rate_var = Some rate -> (1 <= rate)%Q ->
                (refresh_delay float refresh_rate_var == rate)%Q) /\
  (float refresh_rate_var = None -> refresh_delay float refresh_rate_var = 2%Q).
Proof.
  unfold refresh_delay. destruct (float refresh_rate_var) as [rate|].
  - destruct (gtb rate 1) eqn:E.
    + apply gtb_true_iff in E. repeat split; try lra; try discriminate.
      intros r [= <-] _. lra.
    + apply gtb_false_iff in E. repeat split; try lra; try discriminate.
      intros r [= <-] Hr. lra.
  - repeat split; try lra; try discriminate.
Qed.

(** ** Lines of a text *)

Lemma stripped_lines_app (l1 l2 : list string) :
  LogManager.stripped_lines (l1 ++ l2)
  = LogManager.stripped_lines l1 ++ LogManager.stripped_lines l2.
Proof.
  unfold LogManager.stripped_lines. rewrite List.filter_app, map_app. reflexivity.
Qed.

(** A text made of terminated lines, followed by more text. *)
Lemma readlines_text_of_app (old : list string) (rest : string) :
  Forall (fun e => contains NL e = false) old ->
  readlines (LogManager.text_of old +:+ rest)
  = map (fun e => e +:+ NL) old ++ readlines rest.
Proof.
  induction 1 as [|e old He _ IH]; [reflexivity|].
  cbn [LogManager.text_of map app].
  rewrite !append_assoc, (readlines_line e _ He), IH. reflexivity.
Qed.

Lemma readlines_text_of (old : list string) :
  Forall (fun e => contains NL e = false) old ->
  readlines (LogManager.text_of old) = map (fun e => e +:+ NL) old.
Proof.
  intros H. rewrite <- (append_nil_r (LogManager.text_of old)).
  rewrite (readlines_text_of_app old "" H). cbn [readlines]. apply app_nil_r.
Qed.

Lemma is_stored_line_spec (e : string) :
  LogManager.is_stored_line e = true ->
  truthy e = true /\ contains NL e = false /\ strip e = e.
Proof.
  unfold LogManager.is_stored_line. rewrite !andb_true_iff, !negb_true_iff.
  intros [[H1 H2] H3]. apply String.eqb_eq in H3. auto.
Qed.

Lemma strip_stored_line (e : string) :
  LogManager.is_stored_line e = true -> strip (e +:+ NL) = e.
Proof.
  intros H. apply is_stored_line_spec in H. destruct H as (Ht & _ & Hs).
  apply strip_fixed in Hs. destruct Hs as [Hl Hr].
  unfold strip. rewrite (lstrip_app e NL Ht Hl), rstrip_app_NL. exact Hr.
Qed.

Lemma stripped_stored_lines (entries : list string) :
  Forall (fun e => LogManager.is_stored_line e = true) entries ->
  LogManager.stripped_lines (map (fun e => e +:+ NL) entries) = entries.
Proof.
  induction 1 as [|e rest He _ IH]; [reflexivity|].
  unfold LogManager.stripped_lines in *. cbn [map List.filter].
  rewrite (strip_stored_line e He).
  destruct (is_stored_line_spec e He) as (-> & _). cbn [map].
  rewrite (strip_stored_line e He), IH. reflexivity.
Qed.

Lemma log_line_is_stored (e : string) :
  LogManager.is_log_line e = true -> LogManager.is_stored_line e = true.
Proof.
  intros H. apply is_log_line_spec in H. destruct H as (H1 & H2 & H3).
  unfold LogManager.is_stored_line. rewrite H1, H2, H3, String.eqb_refl. reflexivity.
Qed.

(** ** Range queries compose *)

Lemma days_lines_ext (strftime_ymd : Z -> string) (fs fs' : gmap string string)
    (n : nat) :
  forall start_date,
    (forall d, (start_date <= d < start_date + Z.of_nat n)%Z ->
               LogManager.file_lines strftime_ymd fs d
               = LogManager.file_lines strftime_ymd fs' d) ->
    LogManager.days_lines strftime_ymd fs start_date n
    = LogManager.days_lines strftime_ymd fs' start_date n.
Proof.
  induction n as [|n IH]; intros a H; [reflexivity|].
  cbn [LogManager.days_lines]. rewrite (H a) by lia. f_equal.
  apply IH. intros d Hd. apply H. lia.
Qed.

(** X13. Range queries concatenate: for [start - 1 <= mid <= end], the
    query from [start] to [end] is the query from [start] to [mid]
    followed by the query from [mid + 1] to [end]; and a range whose end
    is before its start yields nothing.  No file is read twice and none
    is skipped. *)
Theorem range_query_concatenates (strftime_ymd : Z -> string)
    (fs : gmap string string) (start_date mid end_date : Z) :
  (start_date - 1 <= mid <= end_date)%Z ->
  LogManager.get_logs_for_date_range strftime_ymd fs start_date end_date
  = LogManager.get_logs_for_date_range strftime_ymd fs start_date mid
    ++ LogManager.get_logs_for_date_range strftime_ymd fs (mid + 1) end_date /\
  (forall a b, (b < a)%Z ->
               LogManager.get_logs_for_date_range strftime_ymd fs a b = []).
Proof.
  intros H. split.
  - rewrite !range_days. unfold LogManager.days_in_range.
    replace (Z.to_nat (end_date - start_date + 1))
      with (Z.to_nat (mid - start_date + 1) + Z.to_nat (end_date - (mid + 1) + 1))%nat
      by lia.
    rewrite days_lines_app. f_equal. f_equal. lia.
  - intros a b Hab. apply range_nil. intros d Hd. lia.
Qed.

Lemma range_query_concatenates_witness :
  (1 - 1 <= 3 <= 7)%Z /\
  LogManager.get_logs_for_date_range Samples.ordinal_name
    (<[LogManager.daily_log_file Samples.ordinal_name 2 := "a" +:+ NL]>
       (<[LogManager.daily_log_file Samples.ordinal_name 5 := "b" +:+ NL]> ∅)) 1 7
  = LogManager.get_logs_for_date_range Samples.ordinal_name
      (<[LogManager.daily_log_file Samples.ordinal_name 2 := "a" +:+ NL]>
         (<[LogManager.daily_log_file Samples.ordinal_name 5 := "b" +:+ NL]> ∅)) 1 3
    ++ LogManager.get_logs_for_date_range Samples.ordinal_name
         (<[LogManager.daily_log_file Samples.ordinal_name 2 := "a" +:+ NL]>
            (<[LogManager.daily_log_file Samples.ordinal_name 5 := "b" +:+ NL]> ∅)) 4 7.
Proof.
  split; [lia|].
  apply (range_query_concatenates Samples.ordinal_name _ 1 3 7). lia.
Defined.

(** X14. Writing on a day does not disturb the other days: a range
    query that does not include the day of the write returns the same
    lines before and after it, provided [strftime] names different dates
    differently. *)
Theorem write_leaves_other_days (strftime_ymd : Z -> string) (today : Z)
    (entries : list string) (s : LogManager.t * gmap string string)
    (start_date end_date : Z) :
  (forall a b, strftime_ymd a = strftime_ymd b -> a = b) ->
  (today < start_date \/ end_date < today)%Z ->
  LogManager.get_logs_for_date_range strftime_ymd
    (snd (LogManager.write_day strftime_ymd today entries s)) start_date end_date
  = LogManager.get_logs_for_date_range strftime_ymd (snd s) start_date end_date.
Proof.
  intros Hinj Hout. rewrite !range_days. apply days_lines_ext.
  unfold LogManager.days_in_range. intros d Hd.
  apply file_lines_ext, write_day_other.
  intros E. apply (daily_log_file_inj _ Hinj) in E. lia.
Qed.

Lemma write_leaves_other_days_witness :
  (5 < 1 \/ 3 < 5)%Z /\
  LogManager.get_logs_for_date_range Samples.ordinal_name
    (snd (LogManager.write_day Samples.ordinal_name 5 ["late"]
            (Samples.fresh_log, ∅))) 1 3
  = LogManager.get_logs_for_date_range Samples.ordinal_name
      (snd (Samples.fresh_log, (∅ : gmap string string))) 1 3.
Proof.
  split; [lia|].
  apply (write_leaves_other_days Samples.ordinal_name 5 ["late"]
           (Samples.fresh_log, ∅) 1 3).
  - intros a b E. exact (pretty_Z_inj a b E).
  - lia.
Defined.

(** X15. The daily file is append-only: when the file of the day holds
    terminated lines (or does not exist yet), writing log lines on that
    day keeps every line that a query of the day returned before, in the
    same order, and adds the new lines after them. *)
Theorem write_appends_to_day (strftime_ymd : Z -> string) (today : Z)
    (old entries : list string) (s : LogManager.t * gmap string string) :
  snd s !! LogManager.daily_log_file strftime_ymd today
  = (match old with [] => None | _ :: _ => Some (LogManager.text_of old) end) ->
  Forall (fun e => contains NL e = false) old ->
  Forall (fun e => LogManager.is_log_line e = true) entries ->
  LogManager.file_lines strftime_ymd
    (snd (LogManager.write_day strftime_ymd today entries s)) today
  = LogManager.file_lines strftime_ymd (snd s) today ++ entries /\
  LogManager.get_logs_for_date_range strftime_ymd
    (snd (LogManager.write_day strftime_ymd today entries s)) today today
  = LogManager.get_logs_for_date_range strftime_ymd (snd s) today today ++ entries.
Proof.
  intros Hfile Hold Hnew.
  assert (Hstored : Forall (fun e => LogManager.is_stored_line e = true) entries).
  { eapply Forall_impl; [exact Hnew|]. apply log_line_is_stored. }
  assert (Hnl : Forall (fun e => contains NL e = false) entries).
  { eapply Forall_impl; [exact Hnew|]. intros e He.
    apply is_log_line_spec in He. tauto. }
  assert (F : LogManager.file_lines strftime_ymd
                (snd (LogManager.write_day strftime_ymd today entries s)) today
              = LogManager.file_lines strftime_ymd (snd s) today ++ entries).
  { unfold LogManager.file_lines. rewrite write_day_spec.
    destruct entries as [|e rest]; [rewrite app_nil_r; reflexivity|].
    rewrite lookup_insert_eq, Hfile.
    destruct old as [|o old'].
    - cbn [default from_option id app]. rewrite append_nil_l.
      rewrite readlines_text_of by exact Hnl.
      apply stripped_stored_lines, Hstored.
    - cbn [default from_option id].
      rewrite readlines_text_of_app by exact Hold.
      rewrite (readlines_text_of (e :: rest)) by exact Hnl.
      rewrite (readlines_text_of (o :: old')) by exact Hold.
      rewrite stripped_lines_app. f_equal.
      apply stripped_stored_lines, Hstored. }
  split; [exact F|].
  rewrite !(range_split strftime_ymd _ today today today) by lia.
  rewrite !range_nil by (intros; lia). rewrite F, !app_nil_r. reflexivity.
Qed.

Lemma write_appends_to_day_witness :
  let s := LogManager.write_day Samples.ordinal_name 5 ["first"; "second"]
             (Samples.fresh_log, ∅) in
  LogManager.get_logs_for_date_range Samples.ordinal_name
    (snd (LogManager.write_day Samples.ordinal_name 5 ["third"] s)) 5 5
  = LogManager.get_logs_for_date_range Samples.ordinal_name (snd s) 5 5 ++ ["third"].
Proof.
  cbv zeta.
  apply (write_appends_to_day Samples.ordinal_name 5 ["first"; "second"] ["third"]
           (LogManager.write_day Samples.ordinal_name 5 ["first"; "second"]
              (Samples.fresh_log, ∅))).
  - reflexivity.
  - repeat constructor.
  - repeat constructor.
Defined.

(** ** The lines that [log_temperature] composes *)

Lemma contains_char_cons (c x : ascii) (s : string) :
  contains (String c "") (String x s) = Ascii.eqb x c || contains (String c "") s.
Proof.
  cbn [contains]. f_equal. cbn [String.prefix].
  destruct (ascii_dec c x) as [<-|Hne].
  - rewrite Ascii.eqb_refl. destruct s; reflexivity.
  - symmetry. apply Ascii.eqb_neq. congruence.
Qed.

Lemma contains_char_app (c : ascii) (a b : string) :
  contains (String c "") (a +:+ b)
  = contains (String c "") a || contains (String c "") b.
Proof.
  induction a as [|x a IH]; [reflexivity|].
  rewrite append_cons, !contains_char_cons, IH, orb_assoc. reflexivity.
Qed.

Lemma rstrip_app_fixed (a b : string) :
  truthy b = true -> rstrip b = b -> rstrip (a +:+ b) = a +:+ b.
Proof.
  intros Ht Hb. induction a as [|x a IH]; [exact Hb|].
  rewrite append_cons. cbn [rstrip]. rewrite IH.
  destruct (a +:+ b) eqn:E; [|reflexivity].
  destruct a; [|discriminate]. rewrite append_nil_l in E. subst b. discriminate.
Qed.

(** The text between two characters that are not white space is not
    touched by [strip]. *)
Lemma strip_bracketed (x : ascii) (a b : string) :
  isspace x = false -> truthy b = true -> rstrip b = b ->
  strip (String x a +:+ b) = String x a +:+ b.
Proof.
  intros Hx Ht Hb. unfold strip.
  rewrite append_cons. cbn [lstrip]. rewrite Hx, <- append_cons.
  apply rstrip_app_fixed; assumption.
Qed.

(** X16. What [log_temperature] composes is a log line, and it is read
    back as written.  When the timestamp, the category, the value and the
    message contain no line break and the message does not end in white
    space, the composed entry is a log line; the call appends it to the
    live buffer, and when it is the first write of the day the range query
    of that day returns exactly this entry. *)
Theorem composed_entry_round_trip (strftime_ymd : Z -> string) (today : Z)
    (timestamp temp_type value message : string)
    (lm : LogManager.t) (fs : gmap string string) :
  let clean := fun s : string =>
    contains NL s = false /\ contains (String CR "") s = false in
  let entry := LogManager.format_entry timestamp temp_type value message in
  let r := LogManager.log_temperature strftime_ymd today timestamp temp_type value
             message lm fs in
  clean timestamp -> clean temp_type -> clean value -> clean message ->
  rstrip message = message ->
  fs !! LogManager.daily_log_file strftime_ymd today = None ->
  LogManager.is_log_line entry = true /\
  LogManager.log_buffer (fst r) = LogManager.log_buffer lm ++ [entry] /\
  LogManager.get_logs_for_date_range strftime_ymd (snd r) today today = [entry].
Proof.
  intros clean entry r [T1 T2] [C1 C2] [V1 V2] [M1 M2] Hm Hnew.
  assert (Hline : LogManager.is_log_line entry = true).
  { unfold entry, LogManager.format_entry, LogManager.is_log_line.
    destruct (truthy message) eqn:Ht.
    - rewrite !andb_true_iff, !negb_true_iff. repeat split.
      + unfold NL. rewrite !contains_char_app. fold NL. rewrite T1, M1. reflexivity.
      + rewrite !contains_char_app, T2, M2. reflexivity.
      + apply String.eqb_eq.
        replace ("[" +:+ timestamp +:+ "] " +:+ message)
          with (String "[" (timestamp +:+ "] ") +:+ message)
          by (rewrite append_cons, append_assoc; reflexivity).
        apply strip_bracketed; [reflexivity|exact Ht|exact Hm].
    - rewrite !andb_true_iff, !negb_true_iff. repeat split.
      + unfold NL. rewrite !contains_char_app. fold NL.
        rewrite T1, C1, V1. reflexivity.
      + rewrite !contains_char_app, T2, C2, V2. reflexivity.
      + apply String.eqb_eq.
        replace ("[" +:+ timestamp +:+ "] " +:+ temp_type +:+ ": " +:+ value +:+ "°C")
          with (String "[" (timestamp +:+ "] " +:+ temp_type +:+ ": " +:+ value)
                +:+ "°C")
          by (rewrite append_cons, !append_assoc; reflexivity).
        apply strip_bracketed; reflexivity. }
  split; [exact Hline|].
  unfold r, LogManager.log_temperature. fold entry.
  set (lm1 := LogManager.mk _ _ _).
  split.
  - unfold LogManager._write_to_file. cbn [fst].
    destruct (negb _); reflexivity.
  - change (LogManager._write_to_file strftime_ymd today entry lm1 fs)
      with (LogManager.write_day strftime_ymd today [entry] (lm1, fs)).
    rewrite (range_split strftime_ymd _ today today today) by lia.
    rewrite !range_nil by (intros; lia).
    rewrite (write_day_lines strftime_ymd today [entry] (lm1, fs) Hnew)
      by (repeat constructor; exact Hline).
    reflexivity.
Qed.

Lemma composed_entry_round_trip_witness :
  let entry :=
    LogManager.format_entry "2024-01-07 09:00:00" "Max Temperature" "31.0" "" in
  let r := LogManager.log_temperature Samples.ordinal_name 7 "2024-01-07 09:00:00"
             "Max Temperature" "31.0" "" Samples.fresh_log ∅ in
  LogManager.is_log_line entry = true /\
  LogManager.log_buffer (fst r) = LogManager.log_buffer Samples.fresh_log ++ [entry] /\
  LogManager.get_logs_for_date_range Samples.ordinal_name (snd r) 7 7 = [entry].
Proof.
  cbv zeta.
  apply (composed_entry_round_trip Samples.ordinal_name 7 "2024-01-07 09:00:00"
           "Max Temperature" "31.0" "" Samples.fresh_log ∅);
    try (split; reflexivity); reflexivity.
Defined.

(** ** What a range query returns *)

Lemma lstrip_idem (s : string) : lstrip (lstrip s) = lstrip s.
Proof.
  induction s as [|c s IH]; [reflexivity|].
  cbn [lstrip]. destruct (isspace c) eqn:E; [exact IH|].
  cbn [lstrip]. rewrite E. reflexivity.
Qed.

Lemma rstrip_idem (s : string) : rstrip (rstrip s) = rstrip s.
Proof.
  induction s as [|c s IH]; [reflexivity|].
  cbn [rstrip]. destruct (rstrip s) as [|x r] eqn:E.
  - destruct (isspace c) eqn:Ec; [reflexivity|].
    cbn [rstrip]. rewrite Ec. reflexivity.
  - cbn [rstrip]. cbn [rstrip] in IH. rewrite IH. reflexivity.
Qed.

(** [rstrip] keeps the first character of a string that does not start
    with white space. *)
Lemma lstrip_rstrip (s : string) : lstrip s = s -> lstrip (rstrip s) = rstrip s.
Proof.
  destruct s as [|c s]; [reflexivity|]. intros H.
  assert (Ec : isspace c = false).
  { cbn [lstrip] in H. destruct (isspace c) eqn:E; [|reflexivity]. exfalso.
    apply (f_equal String.length) in H. cbn [String.length] in H.
    pose proof (lstrip_length s). lia. }
  cbn [rstrip]. destruct (rstrip s); [rewrite Ec|]; cbn [lstrip]; rewrite Ec;
    reflexivity.
Qed.

Lemma strip_idem (s : string) : strip (strip s) = strip s.
Proof.
  unfold strip. rewrite (lstrip_rstrip (lstrip s) (lstrip_idem s)).
  apply rstrip_idem.
Qed.

Lemma contains_NL_lstrip (s : string) :
  contains NL s = false -> contains NL (lstrip s) = false.
Proof.
  induction s as [|c s IH]; [reflexivity|]. intros H.
  cbn [lstrip]. destruct (isspace c); [|exact H].
  rewrite contains_NL_cons in H. apply orb_false_iff in H. apply IH, H.
Qed.

Lemma contains_NL_rstrip (s : string) :
  contains NL s = false -> contains NL (rstrip s) = false.
Proof.
  induction s as [|c s IH]; [reflexivity|]. intros H.
  rewrite contains_NL_cons in H. apply orb_false_iff in H. destruct H as [Hc Hs].
  cbn [rstrip]. destruct (rstrip s) as [|x r] eqn:E.
  - destruct (isspace c); [reflexivity|].
    rewrite contains_NL_cons, Hc. reflexivity.
  - rewrite contains_NL_cons, Hc. apply IH, Hs.
Qed.

(** The newline at the end of a line does not survive [strip]. *)
Lemma strip_app_NL (e : string) : strip (e +:+ NL) = strip e.
Proof.
  unfold strip.
  assert (H : lstrip (e +:+ NL)
              = match lstrip e with
                | EmptyString => EmptyString
                | String _ _ => lstrip e +:+ NL
                end).
  { induction e as [|c e IH]; [reflexivity|].
    rewrite append_cons. cbn [lstrip]. destruct (isspace c); [exact IH|].
    rewrite append_cons. reflexivity. }
  rewrite H. destruct (lstrip e) eqn:E; [reflexivity|].
  apply rstrip_app_NL.
Qed.

(** Every line of [readlines] is free of line feeds, except for the one
    that may end it. *)
Lemma readlines_shape (s : string) :
  Forall (fun l => exists e, contains NL e = false /\ (l = e +:+ NL \/ l = e))
         (readlines s).
Proof.
  induction s as [|c s IH]; [constructor|].
  cbn [readlines]. destruct (Ascii.eqb c LF) eqn:Ec.
  - constructor; [|exact IH]. exists "". split; [reflexivity|].
    left. apply Ascii.eqb_eq in Ec. subst c. reflexivity.
  - destruct (readlines s) as [|l ls].
    + constructor; [|constructor]. exists (String c "").
      split; [|right; reflexivity]. rewrite contains_NL_cons, Ec. reflexivity.
    + inversion IH as [|? ? (e & He & Hl) Hls]; subst.
      constructor; [|exact Hls]. exists (String c e). split.
      * rewrite contains_NL_cons, Ec. exact He.
      * destruct Hl as [->| ->]; [left|right]; reflexivity.
Qed.

Lemma stripped_lines_stored (file_logs : list string) :
  Forall (fun l => exists e, contains NL e = false /\ (l = e +:+ NL \/ l = e))
         file_logs ->
  Forall (fun l => LogManager.is_stored_line l = true)
         (LogManager.stripped_lines file_logs).
Proof.
  induction 1 as [|l ls (e & He & Hl) _ IH]; [constructor|].
  unfold LogManager.stripped_lines in *. cbn [List.filter].
  destruct (truthy (strip l)) eqn:Ht; [|exact IH].
  cbn [map]. constructor; [|exact IH].
  unfold LogManager.is_stored_line.
  rewrite Ht, strip_idem, String.eqb_refl, andb_true_r. cbn [andb].
  apply negb_true_iff.
  assert (Hs : strip l = strip e).
  { destruct Hl as [->| ->]; [apply strip_app_NL|reflexivity]. }
  rewrite Hs. unfold strip. apply contains_NL_rstrip, contains_NL_lstrip, He.
Qed.

Lemma days_lines_stored (strftime_ymd : Z -> string) (fs : gmap string string)
    (n : nat) :
  forall start_date,
    Forall (fun l => LogManager.is_stored_line l = true)
           (LogManager.days_lines strftime_ymd fs start_date n).
Proof.
  induction n as [|n IH]; intros a; [constructor|].
  cbn [LogManager.days_lines]. apply Forall_app. split; [|apply IH].
  unfold LogManager.file_lines.
  destruct (fs !! LogManager.daily_log_file strftime_ymd a); [|constructor].
  apply stripped_lines_stored, readlines_shape.
Qed.

(** X17. A range query never returns a blank line or a line with
    surrounding white space: whatever the daily files contain, every line
    returned is non-empty, contains no line feed and is left unchanged by
    [strip]. *)
Theorem range_lines_are_clean (strftime_ymd : Z -> string)
    (fs : gmap string string) (start_date end_date : Z) (line : string) :
  In line (LogManager.get_logs_for_date_range strftime_ymd fs start_date end_date) ->
  truthy line = true /\ contains NL line = false /\ strip line = line.
Proof.
  intros Hin. rewrite range_days in Hin.
  pose proof (days_lines_stored strftime_ymd fs
                (LogManager.days_in_range start_date end_date) start_date) as H.
  rewrite Forall_forall in H. apply list_elem_of_In in Hin.
  apply is_stored_line_spec, H, Hin.
Qed.

Lemma range_lines_are_clean_witness :
  In "kept"
     (LogManager.get_logs_for_date_range Samples.ordinal_name
        (<[LogManager.daily_log_file Samples.ordinal_name 2 :=
             "  kept  " +:+ NL +:+ "   " +:+ NL]> ∅) 1 3) /\
  truthy "kept" = true /\ contains NL "kept" = false /\ strip "kept" = "kept".
Proof.
  assert (H : In "kept"
     (LogManager.get_logs_for_date_range Samples.ordinal_name
        (<[LogManager.daily_log_file Samples.ordinal_name 2 :=
             "  kept  " +:+ NL +:+ "   " +:+ NL]> ∅) 1 3))
    by (vm_compute; left; reflexivity).
  split; [exact H|].
  exact (range_lines_are_clean Samples.ordinal_name _ 1 3 "kept" H).
Defined.

(** ** The export file *)

Lemma concat_lines_text_of (logs : list string) :
  String.concat "" (map (fun log_entry => log_entry +:+ NL) logs)
  = LogManager.text_of logs.
Proof.
  induction logs as [|e rest IH]; [reflexivity|].
  cbn [map String.concat LogManager.text_of].
  destruct rest as [|e' rest'].
  - cbn [map LogManager.text_of]. reflexivity.
  - cbn [map] in *. rewrite IH, append_nil_l, append_assoc. reflexivity.
Qed.

(** X18. An export of a range that has lines writes one file in the
    Downloads folder and nothing else: the method returns [True], every
    other file is as before, and the new file consists of the six header
    lines followed by the lines of the range query, one per line and in
    the same order.  When the file cannot be written the method returns
    [False] and no file changes. *)
Theorem export_writes_header_and_lines (strftime_ymd : Z -> string) (home : string)
    (fs : gmap string string) (start_date end_date : Z) (now : string) :
  let logs := LogManager.get_logs_for_date_range strftime_ymd fs start_date end_date in
  let path := LogManager.path_join (LogManager.path_join home "Downloads")
                (LogManager.export_filename strftime_ymd start_date end_date) in
  let header :=
    [ "# Temperature Logs Export";
      "# Date Range: " +:+ strftime_ymd start_date +:+ " to " +:+ strftime_ymd end_date;
      "# Exported on: " +:+ now;
      "# Format: [TIMESTAMP] LOG_ENTRY";
      "# Source: Storage Temperature Monitor";
      LogManager.separator ] in
  logs <> [] ->
  contains NL (strftime_ymd start_date) = false ->
  contains NL (strftime_ymd end_date) = false ->
  contains NL now = false ->
  exists text,
    LogManager.export_logs_to_file strftime_ymd home fs start_date end_date now true
    = (true, <[path := text]> fs) /\
    readlines text = map (fun l => l +:+ NL) (header ++ logs) /\
    LogManager.export_logs_to_file strftime_ymd home fs start_date end_date now false
    = (false, fs).
Proof.
  intros logs path header Hne Hs He Hn.
  exists (LogManager.export_text strftime_ymd start_date end_date now logs).
  unfold LogManager.export_logs_to_file. fold logs.
  destruct logs as [|l0 ls] eqn:El; [congruence|]. rewrite <- El in *.
  split; [reflexivity|]. split; [|reflexivity].
  assert (Ht : LogManager.export_text strftime_ymd start_date end_date now logs
               = LogManager.text_of header +:+ LogManager.text_of logs).
  { unfold LogManager.export_text, header. rewrite concat_lines_text_of.
    cbn [LogManager.text_of]. rewrite !append_assoc. reflexivity. }
  rewrite Ht, readlines_text_of_app, map_app.
  - f_equal. apply readlines_text_of.
    unfold logs. rewrite range_days.
    eapply Forall_impl; [apply days_lines_stored|].
    intros l Hl. apply is_stored_line_spec in Hl. tauto.
  - unfold header. repeat constructor.
    + unfold NL. rewrite !contains_char_app. fold NL. rewrite Hs, He. reflexivity.
    + unfold NL. rewrite !contains_char_app. fold NL. rewrite Hn. reflexivity.
Qed.

Lemma export_writes_header_and_lines_witness :
  let fs : gmap string string :=
    <[LogManager.daily_log_file Samples.ordinal_name 2 := "kept" +:+ NL]> ∅ in
  LogManager.get_logs_for_date_range Samples.ordinal_name fs 1 3 <> [] /\
  exists text,
    LogManager.export_logs_to_file Samples.ordinal_name "C:/Users/ops" fs 1 3
      "2024-01-05 10:00:00" true
    = (true,
       <[LogManager.path_join (LogManager.path_join "C:/Users/ops" "Downloads")
           (LogManager.export_filename Samples.ordinal_name 1 3) := text]> fs) /\
    length (readlines text) = 7%nat.
Proof.
  cbv zeta.
  assert (H : LogManager.get_logs_for_date_range Samples.ordinal_name
                (<[LogManager.daily_log_file Samples.ordinal_name 2 := "kept" +:+ NL]> ∅)
                1 3 <> [])
    by (vm_compute; discriminate).
  split; [exact H|].
  destruct (export_writes_header_and_lines Samples.ordinal_name "C:/Users/ops"
              _ 1 3 "2024-01-05 10:00:00" H eq_refl eq_refl eq_refl)
    as (text & E & R & _).
  exists text. split; [exact E|]. rewrite R. reflexivity.
Defined.

(** ** More on the sensor reader *)

Lemma all_temp_sensors_filter (sensors : list wmi_sensor) :
  all_temp_sensors (List.filter has_temperature sensors) = all_temp_sensors sensors.
Proof.
  induction sensors as [|s rest IH]; [reflexivity|].
  cbn [List.filter all_temp_sensors]. unfold has_temperature at 1.
  destruct (Value s) as [v|] eqn:Ev,
           (String.eqb (SensorType s) "Temperature") eqn:Et; cbn [andb].
  - cbn [all_temp_sensors]. rewrite Ev, Et, IH. reflexivity.
  - exact IH.
  - exact IH.
  - exact IH.
Qed.

Lemma alternative_scan_filter (devices : list string) (sensors : list wmi_sensor) :
  alternative_scan devices (List.filter has_temperature sensors)
  = alternative_scan devices sensors.
Proof.
  unfold alternative_scan.
  set (step := fun (storage_temps : dict Q) (sensor : wmi_sensor) => _).
  assert (H : forall d0, fold_left step (List.filter has_temperature sensors) d0
                         = fold_left step sensors d0).
  { induction sensors as [|s rest IH]; intros d0; [reflexivity|].
    cbn [List.filter fold_left]. unfold has_temperature at 1.
    destruct (Value s) as [v|] eqn:Ev,
             (String.eqb (SensorType s) "Temperature") eqn:Et; cbn [andb].
    - cbn [fold_left]. apply IH.
    - rewrite IH. f_equal. unfold step. rewrite Ev, Et.
      destruct (Parent s); reflexivity.
    - rewrite IH. f_equal. unfold step. rewrite Ev. reflexivity.
    - rewrite IH. f_equal. unfold step. rewrite Ev. reflexivity. }
  apply H.
Qed.

(** X20. Only temperature sensors that carry a value count, and the
    hardware list is consulted only as a last resort.  A sample is the
    same whether or not the sensors of other types and the sensors
    without a value are in the answer of WMI; and as soon as one sensor
    matches the storage vocabulary, the sample does not depend on what
    [w.Hardware()] answers, not even on whether that query fails. *)
Theorem sample_depends_on_temperature_sensors (ohm : bool)
    (sensors : list wmi_sensor) (hardware hardware' : option (list wmi_hardware)) :
  get_storage_temperatures ohm
    {| Sensor := Some (List.filter has_temperature sensors); Hardware := hardware |}
  = get_storage_temperatures ohm {| Sensor := Some sensors; Hardware := hardware |} /\
  (storage_sensors (all_temp_sensors sensors) <> [] ->
   get_storage_temperatures ohm {| Sensor := Some sensors; Hardware := hardware |}
   = get_storage_temperatures ohm {| Sensor := Some sensors; Hardware := hardware' |}).
Proof.
  split.
  - unfold get_storage_temperatures, _find_storage_temps_alternative.
    destruct ohm; cbn [negb Sensor Hardware]; [|reflexivity].
    rewrite all_temp_sensors_filter.
    destruct hardware as [hw|]; [|reflexivity].
    rewrite alternative_scan_filter. reflexivity.
  - intros Hne. unfold get_storage_temperatures.
    destruct ohm; cbn [negb Sensor]; [|reflexivity].
    rewrite organize_nonempty by exact Hne. reflexivity.
Qed.

Lemma sample_depends_on_temperature_sensors_witness :
  storage_sensors (all_temp_sensors Samples.two_sensors) <> [] /\
  get_storage_temperatures true
    {| Sensor := Some Samples.two_sensors; Hardware := Some [] |}
  = get_storage_temperatures true
      {| Sensor := Some Samples.two_sensors; Hardware := None |}.
Proof.
  assert (H : storage_sensors (all_temp_sensors Samples.two_sensors) <> [])
    by (vm_compute; discriminate).
  split; [exact H|].
  exact (proj2 (sample_depends_on_temperature_sensors true Samples.two_sensors
                  (Some []) None) H).
Defined.

Lemma lower_ascii_idem (c : ascii) : lower_ascii (lower_ascii c) = lower_ascii c.
Proof.
  destruct c as [[|] [|] [|] [|] [|] [|] [|] [|]]; reflexivity.
Qed.

Lemma lower_idem (s : string) : lower (lower s) = lower s.
Proof.
  induction s as [|c s IH]; [reflexivity|].
  cbn [lower]. rewrite lower_ascii_idem, IH. reflexivity.
Qed.

Lemma truthy_lower (s : string) : truthy (lower s) = truthy s.
Proof. destruct s; reflexivity. Qed.

(** X21. The classification of a sensor is blind to letter case: two
    sensors whose names agree up to case, and whose parents agree up to
    case, are both storage sensors or both not.  In particular a sensor
    is classified like its lower-case spelling. *)
Theorem storage_match_ignores_case (sensor_name sensor_name' parent_name parent_name'
    : string) :
  lower sensor_name = lower sensor_name' ->
  lower parent_name = lower parent_name' ->
  _is_storage_sensor sensor_name parent_name
  = _is_storage_sensor sensor_name' parent_name' /\
  _is_storage_sensor sensor_name parent_name
  = _is_storage_sensor (lower sensor_name) (lower parent_name).
Proof.
  intros Hs Hp.
  assert (Ht : truthy parent_name = truthy parent_name').
  { rewrite <- (truthy_lower parent_name), Hp. apply truthy_lower. }
  split.
  - unfold _is_storage_sensor. rewrite Hs, Ht, Hp. reflexivity.
  - unfold _is_storage_sensor. rewrite !lower_idem, truthy_lower. reflexivity.
Qed.

Lemma storage_match_ignores_case_witness :
  lower "TEMPERATURE" = lower "Temperature" /\
  lower "SAMSUNG SSD 970 EVO" = lower "Samsung SSD 970 EVO" /\
  _is_storage_sensor "TEMPERATURE" "SAMSUNG SSD 970 EVO"
  = _is_storage_sensor "Temperature" "Samsung SSD 970 EVO".
Proof.
  split; [reflexivity|]. split; [reflexivity|].
  exact (proj1 (storage_match_ignores_case "TEMPERATURE" "Temperature"
                  "SAMSUNG SSD 970 EVO" "Samsung SSD 970 EVO" eq_refl eq_refl)).
Defined.

(** ** The folder of daily files, sorted *)

Lemma name_in_Some (dir path x : string) :
  LogManager.name_in dir path = Some x <->
  path = LogManager.path_join dir x /\ contains "/" x = false.
Proof.
  unfold LogManager.path_join. revert path.
  induction dir as [|a dir IH]; intros path.
  - rewrite append_nil_l. change ("/" +:+ x) with (String "/" x).
    destruct path as [|sep name]; cbn [LogManager.name_in].
    + split; [discriminate|]. intros [H _]. discriminate.
    + destruct (Ascii.eqb_spec sep "/") as [->|Hsep]; cbn [andb].
      * destruct (contains "/" name) eqn:Ec; cbn [negb].
        -- split; [discriminate|]. intros [E H]. injection E as ->. congruence.
        -- split.
           ++ intros [= ->]. auto.
           ++ intros [E _]. injection E as ->. reflexivity.
      * split; [discriminate|]. intros [E _]. injection E as E _. congruence.
  - rewrite append_cons. destruct path as [|b path]; cbn [LogManager.name_in].
    + split; [discriminate|]. intros [H _]. discriminate.
    + destruct (Ascii.eqb_spec a b) as [->|Hab].
      * rewrite IH. split; intros [H1 H2]; split; congruence.
      * split; [discriminate|]. intros [E _]. injection E as E _. congruence.
Qed.

Lemma path_join_inj (dir x y : string) :
  LogManager.path_join dir x = LogManager.path_join dir y -> x = y.
Proof.
  unfold LogManager.path_join. intros H. do 2 apply String.app_inj in H. exact H.
Qed.

Lemma elem_of_listdir (dir : string) (fs : gmap string string) (x : string) :
  x ∈ LogManager.listdir dir fs <->
  is_Some (fs !! LogManager.path_join dir x) /\ contains "/" x = false.
Proof.
  unfold LogManager.listdir. rewrite list_elem_of_omap. split.
  - intros (path & Hin & Hname). apply name_in_Some in Hname.
    destruct Hname as [-> Hc]. split; [|exact Hc].
    apply list_elem_of_fmap in Hin. destruct Hin as ([p t] & Hp & Hin).
    cbn in Hp. subst p. apply elem_of_map_to_list in Hin. eauto.
  - intros [[t Ht] Hc]. exists (LogManager.path_join dir x). split.
    + apply list_elem_of_fmap. exists (LogManager.path_join dir x, t).
      split; [reflexivity|]. apply elem_of_map_to_list, Ht.
    + apply name_in_Some. auto.
Qed.

(** Adding a file to a folder adds its name to the listing. *)
Lemma listdir_insert_new (dir : string) (fs : gmap string string) (x text : string) :
  fs !! LogManager.path_join dir x = None ->
  contains "/" x = false ->
  LogManager.listdir dir (<[LogManager.path_join dir x := text]> fs)
  ≡ₚ x :: LogManager.listdir dir fs.
Proof.
  intros Hnew Hc. unfold LogManager.listdir.
  rewrite (map_to_list_insert fs _ text Hnew). cbn [map omap].
  assert (E : LogManager.name_in dir (LogManager.path_join dir x) = Some x)
    by (apply name_in_Some; auto).
  cbn. rewrite E. reflexivity.
Qed.

Lemma TlRel_bound {A} (R : relation A) (n : A) (m : list A) :
  (forall y, y ∈ m -> R y n) -> TlRel R n m.
Proof.
  intros H. induction m as [|y m _] using rev_ind; [constructor|].
  constructor. apply H. apply elem_of_app. right.
  apply list_elem_of_singleton. reflexivity.
Qed.

(** Sorting a list to which an upper bound is added puts the bound
    last. *)
Lemma merge_sort_bound (n : string) (l : list string) :
  (forall x, x ∈ l -> String.le x n) ->
  merge_sort String.le (n :: l) = merge_sort String.le l ++ [n].
Proof.
  intros Hle. apply (Sorted_unique String.le).
  - apply Sorted_merge_sort. apply _.
  - apply Sorted_snoc; [apply Sorted_merge_sort; apply _|].
    apply TlRel_bound. intros y Hy. apply Hle.
    rewrite <- (merge_sort_Permutation String.le l). exact Hy.
  - rewrite !merge_sort_Permutation. rewrite (Permutation_app_comm _ [n]).
    reflexivity.
Qed.

Lemma merge_sort_perm (l l' : list string) :
  l ≡ₚ l' -> merge_sort String.le l = merge_sort String.le l'.
Proof.
  intros H. apply (Sorted_unique String.le).
  - apply Sorted_merge_sort. apply _.
  - apply Sorted_merge_sort. apply _.
  - rewrite !merge_sort_Permutation. exact H.
Qed.

Lemma elem_of_log_files (fs : gmap string string) (x : string) :
  x ∈ LogManager.log_files fs <->
  LogManager.is_log_file_name x = true /\
  is_Some (fs !! LogManager.path_join LogManager.daily_logs_dir x) /\
  contains "/" x = false.
Proof.
  unfold LogManager.log_files.
  rewrite (merge_sort_Permutation String.le), list_elem_of_filter, elem_of_listdir.
  tauto.
Qed.

(** The listing after a new log file with the greatest name has been
    added. *)
Lemma log_files_insert_new (fs : gmap string string) (n text : string) :
  fs !! LogManager.path_join LogManager.daily_logs_dir n = None ->
  contains "/" n = false ->
  LogManager.is_log_file_name n = true ->
  (forall x, x ∈ LogManager.log_files fs -> String.le x n) ->
  LogManager.log_files (<[LogManager.path_join LogManager.daily_logs_dir n := text]> fs)
  = LogManager.log_files fs ++ [n].
Proof.
  intros Hnew Hc Hn Hle. unfold LogManager.log_files.
  rewrite <- merge_sort_bound.
  - apply merge_sort_perm.
    rewrite (listdir_insert_new _ fs n text Hnew Hc).
    rewrite filter_cons_True by exact Hn. reflexivity.
  - intros x Hx. apply Hle. unfold LogManager.log_files.
    rewrite (merge_sort_Permutation String.le). exact Hx.
Qed.

(** ** The whole history and the live tail *)

Lemma endswith_app (suffix a : string) :
  LogManager.endswith suffix (a +:+ suffix) = true.
Proof.
  induction a as [|c a IH].
  - rewrite append_nil_l. destruct suffix; cbn [LogManager.endswith];
      rewrite String.eqb_refl; reflexivity.
  - rewrite append_cons. cbn [LogManager.endswith]. rewrite IH.
    apply orb_true_r.
Qed.

Lemma prefix_app (a b : string) : String.prefix a (a +:+ b) = true.
Proof.
  induction a as [|c a IH]; [destruct b; reflexivity|].
  rewrite append_cons. cbn [String.prefix].
  destruct (ascii_dec c c) as [_|Hne]; [exact IH|congruence].
Qed.

(** The name of a daily file is the name of a log file. *)
Lemma daily_name_is_log_file (date : string) :
  LogManager.is_log_file_name ("temperature_logs_" +:+ date +:+ ".logs") = true.
Proof.
  unfold LogManager.is_log_file_name. rewrite prefix_app.
  rewrite <- append_assoc, endswith_app. reflexivity.
Qed.

Lemma daily_name_no_separator (date : string) :
  contains "/" date = false ->
  contains "/" ("temperature_logs_" +:+ date +:+ ".logs") = false.
Proof.
  intros H. rewrite !contains_char_app, H. reflexivity.
Qed.

Lemma lines_of_insert (fs : gmap string string) (n text : string) :
  LogManager.lines_of (<[LogManager.path_join LogManager.daily_logs_dir n := text]> fs) n
  = LogManager.stripped_lines (readlines text).
Proof.
  unfold LogManager.lines_of. rewrite lookup_insert_eq. reflexivity.
Qed.

Lemma lines_of_insert_ne (fs : gmap string string) (n x text : string) :
  x <> n ->
  LogManager.lines_of (<[LogManager.path_join LogManager.daily_logs_dir n := text]> fs) x
  = LogManager.lines_of fs x.
Proof.
  intros Hne. unfold LogManager.lines_of. rewrite lookup_insert_ne; [reflexivity|].
  intros E. apply path_join_inj in E. congruence.
Qed.

Lemma flat_map_agree {A B} (f g : A -> list B) (l : list A) :
  (forall x, x ∈ l -> f x = g x) -> flat_map f l = flat_map g l.
Proof.
  induction l as [|a l IH]; intros H; [reflexivity|].
  cbn [flat_map]. rewrite (H a) by apply list_elem_of_here.
  rewrite IH; [reflexivity|]. intros x Hx. apply H, list_elem_of_further, Hx.
Qed.

(** The history after a new log file with the greatest name has been
    added: the lines of the new file come last. *)
Lemma get_all_logs_insert_new (fs : gmap string string) (n text : string) :
  fs !! LogManager.path_join LogManager.daily_logs_dir n = None ->
  contains "/" n = false ->
  LogManager.is_log_file_name n = true ->
  (forall x, x ∈ LogManager.log_files fs -> String.le x n) ->
  LogManager.get_all_logs (<[LogManager.path_join LogManager.daily_logs_dir n := text]> fs)
  = LogManager.get_all_logs fs ++ LogManager.stripped_lines (readlines text).
Proof.
  intros Hnew Hc Hn Hle. unfold LogManager.get_all_logs.
  rewrite (log_files_insert_new fs n text Hnew Hc Hn Hle).
  rewrite flat_map_app. cbn [flat_map]. rewrite app_nil_r, lines_of_insert.
  f_equal. apply flat_map_agree. intros x Hx.
  apply lines_of_insert_ne. intros ->.
  apply elem_of_log_files in Hx.
  destruct Hx as (_ & [t Ht] & _). congruence.
Qed.

(** The history after lines have been added to the log file with the
    greatest name. *)
Lemma get_all_logs_append (fs : gmap string string) (n : string)
    (old entries : list string) :
  contains "/" n = false ->
  LogManager.is_log_file_name n = true ->
  (forall x, x ∈ LogManager.log_files fs -> String.le x n) ->
  default "" (fs !! LogManager.path_join LogManager.daily_logs_dir n)
  = LogManager.text_of old ->
  Forall (fun e => contains NL e = false) old ->
  Forall (fun e => LogManager.is_log_line e = true) entries ->
  LogManager.get_all_logs
    (<[LogManager.path_join LogManager.daily_logs_dir n :=
         default "" (fs !! LogManager.path_join LogManager.daily_logs_dir n)
         +:+ LogManager.text_of entries]> fs)
  = LogManager.get_all_logs fs ++ entries.
Proof.
  intros Hc Hn Hle Hold Hnl Hnew.
  set (p := LogManager.path_join LogManager.daily_logs_dir n) in *.
  assert (Hstored : Forall (fun e => LogManager.is_stored_line e = true) entries).
  { eapply Forall_impl; [exact Hnew|]. apply log_line_is_stored. }
  destruct (fs !! p) as [t|] eqn:Hp; cbn [default from_option id] in *.
  - subst t.
    assert (Hle0 : forall x, x ∈ LogManager.log_files (delete p fs) -> String.le x n).
    { intros x Hx. apply Hle. apply elem_of_log_files in Hx.
      apply elem_of_log_files. destruct Hx as (H1 & [t Ht] & H3).
      apply lookup_delete_Some in Ht. destruct Ht as [_ Ht]. eauto. }
    assert (Hnone : delete p fs !! p = None) by apply lookup_delete_eq.
    rewrite <- (insert_delete_id fs p (LogManager.text_of old) Hp) at 2.
    rewrite <- (insert_delete_eq fs p).
    unfold p.
    rewrite !get_all_logs_insert_new by assumption.
    rewrite <- app_assoc. f_equal.
    rewrite readlines_text_of_app by exact Hnl.
    rewrite (readlines_text_of old) by exact Hnl.
    rewrite stripped_lines_app. f_equal.
    rewrite read_text_of by exact Hnew. reflexivity.
  - unfold p. rewrite get_all_logs_insert_new by assumption.
    rewrite append_nil_l, read_text_of by exact Hnew. reflexivity.
Qed.

Lemma write_day_cursor (strftime_ymd : Z -> string) (today : Z)
    (entries : list string) :
  forall s : LogManager.t * gmap string string,
    LogManager.last_log_index (fst (LogManager.write_day strftime_ymd today entries s))
    = LogManager.last_log_index (fst s).
Proof.
  induction entries as [|e rest IH]; intros s; [reflexivity|].
  unfold LogManager.write_day in *. cbn [fold_left]. rewrite IH.
  unfold LogManager._write_to_file. cbn [fst].
  destruct (negb _); reflexivity.
Qed.

(** The history after a day's writing, when the day's file is the last
    of the folder. *)
Lemma write_day_history (strftime_ymd : Z -> string) (today : Z)
    (old entries : list string) (s : LogManager.t * gmap string string) :
  contains "/" (strftime_ymd today) = false ->
  (forall x, x ∈ LogManager.log_files (snd s) ->
             String.le x ("temperature_logs_" +:+ strftime_ymd today +:+ ".logs")) ->
  default "" (snd s !! LogManager.daily_log_file strftime_ymd today)
  = LogManager.text_of old ->
  Forall (fun e => contains NL e = false) old ->
  Forall (fun e => LogManager.is_log_line e = true) entries ->
  LogManager.get_all_logs (snd (LogManager.write_day strftime_ymd today entries s))
  = LogManager.get_all_logs (snd s) ++ entries.
Proof.
  intros Hc Hle Hold Hnl Hnew. rewrite write_day_spec.
  destruct entries as [|e rest]; [rewrite app_nil_r; reflexivity|].
  unfold LogManager.daily_log_file in *.
  apply (get_all_logs_append (snd s) _ old (e :: rest)); try assumption.
  - apply daily_name_no_separator, Hc.
  - apply daily_name_is_log_file.
Qed.

(** X22. The live tail: when the cursor of the log manager stands at the
    end of the history, the day's file is the last log file of the folder
    by name and holds terminated lines (or is missing), then after log
    lines have been written on that day [get_new_logs] returns exactly
    the lines written, in order, and moves the cursor past them. *)
Theorem live_tail_after_writing (strftime_ymd : Z -> string) (today : Z)
    (old entries : list string) (lm : LogManager.t) (fs : gmap string string) :
  contains "/" (strftime_ymd today) = false ->
  (forall x, x ∈ LogManager.log_files fs ->
             String.le x ("temperature_logs_" +:+ strftime_ymd today +:+ ".logs")) ->
  default "" (fs !! LogManager.daily_log_file strftime_ymd today)
  = LogManager.text_of old ->
  Forall (fun e => contains NL e = false) old ->
  Forall (fun e => LogManager.is_log_line e = true) entries ->
  LogManager.last_log_index lm = length (LogManager.get_all_logs fs) ->
  let s := LogManager.write_day strftime_ymd today entries (lm, fs) in
  fst (LogManager.get_new_logs (snd s) (fst s)) = entries /\
  LogManager.last_log_index (snd (LogManager.get_new_logs (snd s) (fst s)))
  = (length (LogManager.get_all_logs fs) + length entries)%nat.
Proof.
  intros Hc Hle Hold Hnl Hnew Hcur s. subst s.
  unfold LogManager.get_new_logs. cbn [fst snd LogManager.last_log_index].
  rewrite write_day_cursor.
  rewrite (write_day_history strftime_ymd today old entries (lm, fs))
    by assumption.
  cbn [fst snd]. rewrite Hcur. split.
  - apply drop_app_length.
  - apply length_app.
Qed.

Lemma live_tail_after_writing_witness :
  let fs := snd (LogManager.write_day Samples.ordinal_name 4 ["first"; "second"]
                   (Samples.fresh_log, ∅)) in
  let s := LogManager.write_day Samples.ordinal_name 5 ["third"]
             (LogManager.mk "" [] 2, fs) in
  fst (LogManager.get_new_logs (snd s) (fst s)) = ["third"] /\
  LogManager.last_log_index (snd (LogManager.get_new_logs (snd s) (fst s)))
  = (length (LogManager.get_all_logs fs) + 1)%nat.
Proof.
  cbv zeta.
  apply (live_tail_after_writing Samples.ordinal_name 5 [] ["third"]
           (LogManager.mk "" [] 2)
           (snd (LogManager.write_day Samples.ordinal_name 4 ["first"; "second"]
                   (Samples.fresh_log, ∅)))).
  - vm_compute. reflexivity.
  - assert (E : LogManager.log_files
                  (snd (LogManager.write_day Samples.ordinal_name 4 ["first"; "second"]
                          (Samples.fresh_log, ∅)))
                = ["temperature_logs_4.logs"]) by (vm_compute; reflexivity).
    rewrite E. intros x Hx. apply list_elem_of_singleton in Hx. subst x.
    vm_compute. exact I.
  - vm_compute. reflexivity.
  - constructor.
  - repeat constructor.
  - vm_compute. reflexivity.
Defined.

(** X23. The cursor of [get_new_logs]: the lines returned are the
    history from the cursor on, the cursor moves to the end of the
    history, and a second call on the same files returns nothing and
    leaves the manager as it is. *)
Theorem poll_twice_gives_nothing (fs : gmap string string) (lm : LogManager.t) :
  let r := LogManager.get_new_logs fs lm in
  take (LogManager.last_log_index lm) (LogManager.get_all_logs fs) ++ fst r
  = LogManager.get_all_logs fs /\
  LogManager.last_log_index (snd r) = length (LogManager.get_all_logs fs) /\
  LogManager.get_new_logs fs (snd r) = ([], snd r).
Proof.
  cbv zeta. unfold LogManager.get_new_logs.
  cbn [fst snd LogManager.last_log_index LogManager.current_log_file
       LogManager.log_buffer].
  split; [apply take_drop|]. split; [reflexivity|].
  rewrite drop_all. reflexivity.
Qed.

(** X24. Opening the live log window on a history that is not empty:
    the text is the last 1000 lines of the history followed by every
    line beyond the cursor of the log manager, and the cursor ends at the
    end of the history.  With the cursor at 0, as in a new log manager,
    and at most 1000 lines the whole history is shown twice; with the
    cursor at the end it is shown once. *)
Theorem live_window_repeats_unseen (fs : gmap string string) (lm : LogManager.t) :
  LogManager.get_all_logs fs <> [] ->
  let logs := LogManager.get_all_logs fs in
  let r := LogManager.open_live_log fs lm in
  fst r = drop (length logs - 1000) logs ++ drop (LogManager.last_log_index lm) logs /\
  LogManager.last_log_index (snd r) = length logs /\
  (LogManager.last_log_index lm = 0%nat -> (length logs <= 1000)%nat ->
   fst r = logs ++ logs) /\
  (LogManager.last_log_index lm = length logs ->
   fst r = drop (length logs - 1000) logs).
Proof.
  intros Hne logs r.
  assert (E : fst r = drop (length logs - 1000) logs
                      ++ drop (LogManager.last_log_index lm) logs).
  { subst r logs. unfold LogManager.open_live_log, LogManager.update_live_log,
      LogManager.get_new_logs, LogManager.refresh_log_display.
    cbn [fst]. destruct (LogManager.get_all_logs fs) as [|l rest];
      [congruence|reflexivity]. }
  split; [exact E|]. split; [reflexivity|]. split.
  - intros H0 Hlen. rewrite E, H0.
    replace (length logs - 1000)%nat with 0%nat by lia. reflexivity.
  - intros Hend. rewrite E, Hend, drop_all. apply app_nil_r.
Qed.

Lemma live_window_repeats_unseen_witness :
  let fs := snd (LogManager.write_day Samples.ordinal_name 4 ["first"; "second"]
                   (Samples.fresh_log, ∅)) in
  fst (LogManager.open_live_log fs Samples.fresh_log)
  = ["first"; "second"; "first"; "second"].
Proof.
  cbv zeta.
  assert (Hne : LogManager.get_all_logs
                  (snd (LogManager.write_day Samples.ordinal_name 4 ["first"; "second"]
                          (Samples.fresh_log, ∅))) <> [])
    by (vm_compute; discriminate).
  destruct (live_window_repeats_unseen _ Samples.fresh_log Hne) as (_ & _ & H & _).
  rewrite H; [vm_compute; reflexivity|reflexivity|vm_compute; lia].
Defined.
